(** * ManBot: the manifest resolution-and-fetch pipeline

    A shallow embedding of [src/network/github.py] (class [GitHubAPI]) and of
    [bot.py] (class [AutoSelectOnekeyApp] and the quota branch of
    [cmd_manifest]), with the properties the specification states about them.

    Conventions of the embedding.
    - A Python value obtained from [r.json()] is a [json]; a Python [dict] is
      an association list read by its first binding of a key, in insertion
      order.  JSON numbers are integers (fractions do not occur in the fields
      read here).
    - A Python exception is an [exn] (class name and [str(e)]); only instances
      of [Exception] are modelled, so [except Exception] catches every [exn].
    - Effects are explicit: a computation is a function of the [world] (the
      requests sent, the local storage, the set of files downloaded this run,
      the locality flag and the log) that yields a [result] and a new world.
    - A [str] is held as the bytes of its UTF-8 encoding.  The built-ins
      that depend on the character set ([str.lower], [int], [repr]) are
      modelled on ASCII texts and say so where they are defined; paths are
      joined as [pathlib] does on a POSIX system, and the local storage is a
      finite map from such paths to bytes (no links, names that differ are
      different files, writes succeed).
    - What the repository imports from modules that are not part of the two
      source files (the HTTP client, the constants, the filename classifier,
      the key-file parser, the date parser) is a field of [platform]. *)

From Stdlib Require Import ZArith List String Ascii Lia Bool Permutation Sorted.
From Stdlib Require Import DecimalString.
From stdpp Require Import gmap strings list fin_maps.

Set Warnings "-register-all".

Open Scope string_scope.
Open Scope Z_scope.

(** ** Python strings *)

Module PyStr.

Fixpoint startswith (s pre : string) : bool :=
  match pre, s with
  | EmptyString, _ => true
  | String c pre', String d s' => Ascii.eqb c d && startswith s' pre'
  | String _ _, EmptyString => false
  end.

(** [sub in s] *)
Fixpoint contains (sub s : string) : bool :=
  startswith s sub ||
  match s with
  | EmptyString => false
  | String _ s' => contains sub s'
  end.

(** [s.endswith(suf)] *)
Fixpoint endswith (s suf : string) : bool :=
  String.eqb s suf ||
  match s with
  | EmptyString => false
  | String _ s' => endswith s' suf
  end.

(** [s.replace(c, new)] for a one-character [c] *)
Fixpoint replace_char (c : ascii) (new : string) (s : string) : string :=
  match s with
  | EmptyString => EmptyString
  | String d s' =>
      if Ascii.eqb c d then new ++ replace_char c new s'
      else String d (replace_char c new s')
  end.

Definition lower_ascii (c : ascii) : ascii :=
  let n := nat_of_ascii c in
  if (Nat.leb 65 n && Nat.leb n 90)%bool then ascii_of_nat (n + 32) else c.

Definition is_byte (n : nat) (c : ascii) : bool := Nat.eqb (nat_of_ascii c) n.

(** [s.lower()], as far as ASCII goes.  A [str] is held as its UTF-8
    bytes.  The ASCII letters are lowered, and so are the two characters
    outside ASCII whose lower case has ASCII letters: U+0130 (bytes 196
    176), which becomes [i] followed by U+0307 (bytes 204 135), and U+212A,
    the Kelvin sign (bytes 226 132 170), which becomes [k].  Any other
    character outside ASCII is left as it is, where [str.lower] may give
    another character outside ASCII: a search for an ASCII text in the
    result, as line 115 of [bot.py] makes, finds the same either way. *)
Fixpoint lower (s : string) : string :=
  match s with
  | EmptyString => EmptyString
  | String c1 t1 =>
      match t1 with
      | EmptyString => String (lower_ascii c1) EmptyString
      | String c2 t2 =>
          if (is_byte 196 c1 && is_byte 176 c2)%bool then
            String "i" (String (ascii_of_nat 204) (String (ascii_of_nat 135) (lower t2)))
          else
            match t2 with
            | EmptyString => String (lower_ascii c1) (lower t1)
            | String c3 t3 =>
                if (is_byte 226 c1 && is_byte 132 c2 && is_byte 170 c3)%bool
                then String "k" (lower t3)
                else String (lower_ascii c1) (lower t1)
            end
      end
  end.

(** [s.split(sep)] for a one-character [sep]; [cur] is the piece being
    read *)
Fixpoint split_on (sep : ascii) (cur : string) (s : string) : list string :=
  match s with
  | EmptyString => [cur]
  | String c s' =>
      if Ascii.eqb c sep then cur :: split_on sep "" s'
      else split_on sep (cur ++ String c EmptyString) s'
  end.

(** [sep.join(l)] *)
Fixpoint join (sep : string) (l : list string) : string :=
  match l with
  | [] => ""
  | [x] => x
  | x :: rest => x ++ sep ++ join sep rest
  end.

(** truthiness of a [str] *)
Definition truthy (s : string) : bool := negb (String.eqb s "").

End PyStr.

(** ** Exceptions and results *)

Record exn := Exn { exn_class : string; exn_str : string }.

Inductive result (A : Type) : Type :=
| Ok (a : A)
| Raise (e : exn).
Arguments Ok {A} a.
Arguments Raise {A} e.

Definition rbind {A B} (r : result A) (k : A -> result B) : result B :=
  match r with
  | Ok a => k a
  | Raise e => Raise e
  end.

(** ** Python values read from a response *)

Inductive json : Type :=
| JNull
| JBool (b : bool)
| JInt (z : Z)
| JStr (s : string)
| JList (l : list json)
| JDict (kvs : list (string * json)).

Module Py.

Definition KeyError (k : string) : exn := Exn "KeyError" ("'" ++ k ++ "'").
Definition TypeError (m : string) : exn := Exn "TypeError" m.
Definition AttributeError (m : string) : exn := Exn "AttributeError" m.
Definition ValueError (m : string) : exn := Exn "ValueError" m.
Definition Exception (m : string) : exn := Exn "Exception" m.

(** [type(j).__name__] *)
Definition type_name (j : json) : string :=
  match j with
  | JNull => "NoneType"
  | JBool _ => "bool"
  | JInt _ => "int"
  | JStr _ => "str"
  | JList _ => "list"
  | JDict _ => "dict"
  end.

(** the error of [j.attr] when the type of [j] has no such attribute *)
Definition no_attribute (j : json) (attr : string) : exn :=
  AttributeError ("'" ++ type_name j ++ "' object has no attribute '" ++ attr ++ "'").

Fixpoint assoc (k : string) (kvs : list (string * json)) : option json :=
  match kvs with
  | [] => None
  | (k', v) :: rest => if String.eqb k k' then Some v else assoc k rest
  end.

Definition is_str (s : string) (j : json) : bool :=
  match j with JStr t => String.eqb s t | _ => false end.

(** [k in j] for a [str] k *)
Definition contains (k : string) (j : json) : result bool :=
  match j with
  | JDict kvs => Ok (match assoc k kvs with Some _ => true | None => false end)
  | JList l => Ok (existsb (is_str k) l)
  | JStr s => Ok (PyStr.contains k s)
  | _ => Raise (TypeError ("argument of type '" ++ type_name j ++ "' is not iterable"))
  end.

(** [j[k]] for a [str] k *)
Definition getitem (j : json) (k : string) : result json :=
  match j with
  | JDict kvs =>
      match assoc k kvs with
      | Some v => Ok v
      | None => Raise (KeyError k)
      end
  | JList _ => Raise (TypeError "list indices must be integers or slices, not str")
  | JStr _ => Raise (TypeError "string indices must be integers, not 'str'")
  | _ => Raise (TypeError ("'" ++ type_name j ++ "' object is not subscriptable"))
  end.

(** [j.get(k, default)] *)
Definition get (j : json) (k : string) (default : json) : result json :=
  match j with
  | JDict kvs =>
      Ok (match assoc k kvs with Some v => v | None => default end)
  | _ => Raise (no_attribute j "get")
  end.

(** the elements a [for] loop over [j] visits *)
Definition iterate (j : json) : result (list json) :=
  match j with
  | JList l => Ok l
  | JDict kvs => Ok (map (fun kv => JStr (fst kv)) kvs)
  | JStr s => Ok (map (fun c => JStr (String c EmptyString)) (list_ascii_of_string s))
  | _ => Raise (TypeError ("'" ++ type_name j ++ "' object is not iterable"))
  end.

End Py.

(** ** Time stamps

    [datetime.fromisoformat] yields a naive or an aware [datetime]; we keep
    the instant as a number of microseconds.  Ordering two values of different
    awareness raises [TypeError]. *)

Inductive datetime : Type :=
| Naive (us : Z)
| Aware (us : Z).

Definition instant (d : datetime) : Z :=
  match d with Naive us => us | Aware us => us end.

Definition is_aware (d : datetime) : bool :=
  match d with Aware _ => true | Naive _ => false end.

(** [a > b] *)
Definition datetime_gt (a b : datetime) : result bool :=
  match a, b with
  | Naive x, Naive y => Ok (y <? x)
  | Aware x, Aware y => Ok (y <? x)
  | _, _ => Raise (Py.TypeError "can't compare offset-naive and offset-aware datetimes")
  end.

(** ** The HTTP client, the constants and the imported helpers *)

Record response := Response {
  status_code : Z;
  body_json : result json;        (* [r.json()] *)
  content : list Byte.byte        (* [r.content] *)
}.

(** what [await client.get(url, ...)] does: raise, or return a response *)
Definition reply : Type := result response.

(** a CDN URL template, applied to [repo], [sha] and [path] by [str.format] *)
Definition cdn_template : Type := string -> json -> string -> string.

(** Modelled from the spec: the record [DepotInfo] of [src/models.py], which
    is not among the source files; the specification calls it DepotKeyEntry,
    a depot identifier with its decryption key. *)
Record DepotInfo := mkDepotInfo { depot_id : string; decryption_key : string }.

(** the record [RepoInfo] of [src/models.py], as [get_latest_repo_info]
    builds it; [sha] is whatever value the response carries *)
Record RepoInfo := mkRepoInfo {
  name : string;
  last_update : option datetime;
  sha : json
}.

Record platform := Platform {
  GITHUB_API_BASE : string;
  REPO_LIST : list string;
  CN_CDN_LIST : list cdn_template;
  GLOBAL_CDN_LIST : list cdn_template;
  (** the reply to the [n]-th request of the execution, sent to [url] *)
  net : nat -> string -> reply;
  (** [response.raise_for_status()]: the exception it raises, if any *)
  raise_for_status : response -> option exn;
  (** [datetime.fromisoformat] *)
  fromisoformat : string -> result datetime;
  (** [str(d)] for a [datetime] *)
  str_datetime : datetime -> string;
  (** [str(v)] for a [list] or a [dict] *)
  str_container : json -> string;
  (** [src.utils.steam.parse_manifest_filename] *)
  parse_manifest_filename : string -> option string * option string;
  (** [src.utils.steam.parse_key_file] *)
  parse_key_file : list Byte.byte -> result (list DepotInfo);
  (** the local time zone: seconds east of UTC at an instant *)
  utcoffset : Z -> Z;
  (** the clock, read by [time.localtime(None)] *)
  now : Z
}.

(** ** The world and the computations over it *)

Inductive level := DEBUG | INFO | WARNING | ERROR.

Record world := World {
  sent : list string;                       (* requests issued, oldest first *)
  fs : gmap string (list Byte.byte);        (* local storage: path to bytes *)
  downloaded_files : gset string;           (* [self.downloaded_files] *)
  is_cn : bool;                             (* [self.github.is_cn] *)
  log : list (level * string)               (* messages logged, oldest first *)
}.

Definition M (A : Type) : Type := world -> result A * world.

Definition ret {A} (a : A) : M A := fun w => (Ok a, w).

Definition raise {A} (e : exn) : M A := fun w => (Raise e, w).

Definition bind {A B} (m : M A) (k : A -> M B) : M B :=
  fun w =>
    match m w with
    | (Ok a, w') => k a w'
    | (Raise e, w') => (Raise e, w')
    end.

(** [try: body / except Exception as e: handler e] *)
Definition try_except {A} (body : M A) (handler : exn -> M A) : M A :=
  fun w =>
    match body w with
    | (Ok a, w') => (Ok a, w')
    | (Raise e, w') => handler e w'
    end.

(** a pure step that may raise *)
Definition lift {A} (r : result A) : M A := fun w => (r, w).

Declare Scope io_scope.
Delimit Scope io_scope with io.
Notation "'let*' x ':=' c1 'in' c2" := (bind c1 (fun x => c2))
  (at level 10, x pattern, c1 at level 100, c2 at level 200) : io_scope.
Notation "c1 '>>' c2" := (bind c1 (fun _ => c2))
  (at level 100, c2 at level 200, right associativity) : io_scope.
Notation "'try*' x ':=' r 'in' k" := (rbind r (fun x => k))
  (at level 10, x pattern, r at level 100, k at level 200) : io_scope.
Open Scope io_scope.

Definition set_sent (w : world) (s : list string) : world :=
  World s (fs w) (downloaded_files w) (is_cn w) (log w).
Definition set_fs (w : world) (f : gmap string (list Byte.byte)) : world :=
  World (sent w) f (downloaded_files w) (is_cn w) (log w).
Definition set_downloaded (w : world) (d : gset string) : world :=
  World (sent w) (fs w) d (is_cn w) (log w).
Definition set_log (w : world) (l : list (level * string)) : world :=
  World (sent w) (fs w) (downloaded_files w) (is_cn w) l.

(** [self.logger.<lvl>(msg)] *)
Definition logger (lvl : level) (msg : string) : M unit :=
  fun w => (Ok tt, set_log w (log w ++ [(lvl, msg)])).

(** [Path.exists()], [Path.write_bytes()], [Path.mkdir(exist_ok, parents)]:
    the local storage is a finite map from paths to bytes; creating the
    directory and writing a file succeed. *)
Definition path_exists (p : string) : M bool :=
  fun w => (Ok (bool_decide (is_Some (fs w !! p))), w).
Definition write_bytes (p : string) (c : list Byte.byte) : M unit :=
  fun w => (Ok tt, set_fs w (<[p := c]> (fs w))).
Definition mkdir (p : string) : M unit := ret tt.

(** [self.downloaded_files.add(p)] *)
Definition downloaded_add (p : string) : M unit :=
  fun w => (Ok tt, set_downloaded w ({[p]} ∪ downloaded_files w)).

Section Pipeline.

Context (P : platform).

(** [await self.client.get(url, headers=...)] *)
Definition client_get (url : string) : M response :=
  fun w => (net P (length (sent w)) url, set_sent w (sent w ++ [url])).

(** *** [GitHubAPI.fetch_file] *)

(** one endpoint: the body of the inner loop (lines 96-102); [Some] is the
    [return] of line 100 *)
Definition try_endpoint (cdn_template : cdn_template)
    (repo : string) (sha : json) (path : string) : M (option (list Byte.byte)) :=
  let url := cdn_template repo sha path in
  try_except
    (let* r := client_get url in
     if status_code r =? 200 then ret (Some (content r)) else ret None)
    (fun e =>
       logger DEBUG ("从 " ++ url ++ " 下载失败: " ++ exn_str e) >> ret None).

(** [for cdn_template in cdn_list] *)
Fixpoint try_endpoints (cdn_list : list cdn_template)
    (repo : string) (sha : json) (path : string) : M (option (list Byte.byte)) :=
  match cdn_list with
  | [] => ret None
  | t :: rest =>
      let* r := try_endpoint t repo sha path in
      match r with
      | Some c => ret (Some c)
      | None => try_endpoints rest repo sha path
      end
  end.

(** [for _ in range(n)] *)
Fixpoint fetch_rounds (n : nat) (cdn_list : list cdn_template)
    (repo : string) (sha : json) (path : string) : M (option (list Byte.byte)) :=
  match n with
  | O => ret None
  | S k =>
      let* r := try_endpoints cdn_list repo sha path in
      match r with
      | Some c => ret (Some c)
      | None => fetch_rounds k cdn_list repo sha path
      end
  end.

Definition cdn_list_of (w : world) : list cdn_template :=
  if is_cn w then CN_CDN_LIST P else GLOBAL_CDN_LIST P.

Definition fetch_file (repo : string) (sha : json) (path : string)
  : M (list Byte.byte) :=
  fun w =>
    let cdn_list := cdn_list_of w in
    (let* r := fetch_rounds 3 cdn_list repo sha path in
     match r with
     | Some c => ret c
     | None => raise (Py.Exception ("无法下载文件: " ++ path))
     end) w.

(** *** [GitHubAPI.get_latest_repo_info] *)

(** the local variables [latest_date], [selected_repo], [selected_sha] *)
Record selection := Selection {
  latest_date : option datetime;
  selected_repo : option string;
  selected_sha : json
}.

Definition no_selection : selection := Selection None None JNull.

(** [r_json["commit"]["commit"]["author"]["date"]], then
    [datetime.fromisoformat(date_str.replace("Z", "+00:00"))] *)
Definition commit_date (r_json : json) : result datetime :=
  try* c := Py.getitem r_json "commit" in
  try* cc := Py.getitem c "commit" in
  try* a := Py.getitem cc "author" in
  try* date_str := Py.getitem a "date" in
  match date_str with
  | JStr s => fromisoformat P (PyStr.replace_char "Z"%char "+00:00" s)
  | _ => Raise (Py.no_attribute date_str "replace")
  end.

(** [r_json["commit"]["sha"]] *)
Definition commit_sha (r_json : json) : result json :=
  try* c := Py.getitem r_json "commit" in
  Py.getitem c "sha".

(** [latest_date is None or date > latest_date] *)
Definition is_newer (date : datetime) (latest : option datetime) : result bool :=
  match latest with
  | None => Ok true
  | Some l => datetime_gt date l
  end.

(** lines 72-80, on the response [r] of the candidate [repo]: the local
    variables when control leaves the [try] block, and the exception it
    leaves with, if any.  The three assignments of lines 78-80 happen in
    order, so an exception of line 80 leaves the first two done. *)
Definition consider (repo : string) (r : response) (st : selection)
  : selection * option exn :=
  if status_code r =? 200 then
    match body_json r with
    | Raise e => (st, Some e)
    | Ok r_json =>
        match Py.contains "commit" r_json with
        | Raise e => (st, Some e)
        | Ok false => (st, None)
        | Ok true =>
            match commit_date r_json with
            | Raise e => (st, Some e)
            | Ok date =>
                match is_newer date (latest_date st) with
                | Raise e => (st, Some e)
                | Ok false => (st, None)
                | Ok true =>
                    let st1 := Selection (Some date) (Some repo) (selected_sha st) in
                    match commit_sha r_json with
                    | Raise e => (st1, Some e)
                    | Ok s => (Selection (Some date) (Some repo) s, None)
                    end
                end
            end
        end
    end
  else (st, None).

Definition branch_url (repo app_id : string) : string :=
  GITHUB_API_BASE P ++ "/repos/" ++ repo ++ "/branches/" ++ app_id.

(** the message of line 82 *)
Definition warning_text (repo : string) (e : exn) : string :=
  "检查仓库 " ++ repo ++ " 失败: " ++ exn_str e.

Definition warning_of (repo : string) (e : exn) : level * string :=
  (WARNING, warning_text repo e).

(** the [try] block of lines 70-80 on the reply to the request *)
Definition outcome (repo : string) (rp : reply) (st : selection)
  : selection * option exn :=
  match rp with
  | Raise e => (st, Some e)
  | Ok r => consider repo r st
  end.

(** one iteration of [for repo in repos] (lines 69-82) *)
Definition query_candidate (app_id repo : string) (st : selection) : M selection :=
  fun w =>
    let '(rp, w1) := client_get (branch_url repo app_id) w in
    let '(st', raised) := outcome repo rp st in
    match raised with
    | None => (Ok st', w1)
    | Some e => (logger WARNING (warning_text repo e) >> ret st') w1
    end.

Fixpoint query_candidates (app_id : string) (repos : list string) (st : selection)
  : M selection :=
  match repos with
  | [] => ret st
  | repo :: rest =>
      let* st' := query_candidate app_id repo st in
      query_candidates app_id rest st'
  end.

(** lines 84-88: [if selected_repo: return RepoInfo(...)], else [None] *)
Definition selected_info (st : selection) : option RepoInfo :=
  match selected_repo st with
  | Some repo =>
      if PyStr.truthy repo
      then Some (mkRepoInfo repo (latest_date st) (selected_sha st))
      else None
  | None => None
  end.

Definition get_latest_repo_info (repos : list string) (app_id : string)
  : M (option RepoInfo) :=
  let* st := query_candidates app_id repos no_selection in
  ret (selected_info st).

End Pipeline.

(** ** Python built-ins used by the pipeline *)

Module PyInt.

Definition is_space (c : ascii) : bool :=
  let n := nat_of_ascii c in
  (Nat.eqb n 32 || (Nat.leb 9 n && Nat.leb n 13))%bool.

Definition is_digit (c : ascii) : bool :=
  let n := nat_of_ascii c in (Nat.leb 48 n && Nat.leb n 57)%bool.

Definition digit_val (c : ascii) : Z := Z.of_nat (nat_of_ascii c) - 48.

Fixpoint lstrip (s : string) : string :=
  match s with
  | String c s' => if is_space c then lstrip s' else s
  | EmptyString => EmptyString
  end.

(** [s.rstrip()]: a trailing blank is dropped once what follows it is gone *)
Fixpoint rstrip (s : string) : string :=
  match s with
  | EmptyString => EmptyString
  | String c s' =>
      match rstrip s' with
      | EmptyString => if is_space c then EmptyString else String c EmptyString
      | t => String c t
      end
  end.

(** the digits of a literal, most significant first; an underscore is
    allowed between two digits only.  [after_digit] tells whether the
    previous character was a digit. *)
Fixpoint digits (acc : Z) (after_digit : bool) (s : string) : option Z :=
  match s with
  | EmptyString => if after_digit then Some acc else None
  | String c s' =>
      if is_digit c then digits (10 * acc + digit_val c) true s'
      else if (Ascii.eqb c "_" && after_digit)%bool then
        match s' with
        | String d _ => if is_digit d then digits acc false s' else None
        | EmptyString => None
        end
      else None
  end.

(** the number of digits in the run of digits and underscores [s]
    starts with *)
Fixpoint run_digits (s : string) : nat :=
  match s with
  | EmptyString => O
  | String c s' =>
      if is_digit c then S (run_digits s')
      else if Ascii.eqb c "_" then run_digits s'
      else O
  end.

(** whether every underscore of that run stands between two digits *)
Fixpoint run_ok (after_digit : bool) (s : string) : bool :=
  match s with
  | EmptyString => true
  | String c s' =>
      if is_digit c then run_ok true s'
      else if Ascii.eqb c "_" then
        (after_digit
         && match s' with
            | String d _ => is_digit d
            | EmptyString => false
            end
         && run_ok false s')%bool
      else true
  end.

(** [sys.get_int_max_str_digits()], which the bot leaves at its default *)
Definition int_max_str_digits : nat := 4300.

Definition too_long (n : nat) : exn :=
  Py.ValueError
    ("Exceeds the limit (" ++ NilZero.string_of_uint (Nat.to_uint int_max_str_digits)
     ++ " digits) for integer string conversion: value has "
     ++ NilZero.string_of_uint (Nat.to_uint n)
     ++ " digits; use sys.set_int_max_str_digits() to increase the limit").

(** what is left of a literal once the blanks around it and its sign are
    taken off *)
Definition unsigned_part (s : string) : string :=
  match rstrip (lstrip s) with
  | String "-" body => body
  | String "+" body => body
  | body => body
  end.

Definition hex_digit (n : nat) : ascii :=
  if Nat.ltb n 10 then ascii_of_nat (48 + n) else ascii_of_nat (87 + n).

Definition backslash : ascii := ascii_of_nat 92.

Definition double_quote : ascii := ascii_of_nat 34.

Definition escaped (s : string) : string := String backslash s.

(** the text of one character inside [repr(s)], between quotes [q] *)
Definition repr_char (q : ascii) (c : ascii) : string :=
  let n := nat_of_ascii c in
  if (Ascii.eqb c q || Ascii.eqb c backslash)%bool then escaped (String c EmptyString)
  else if Nat.eqb n 9 then escaped "t"
  else if Nat.eqb n 10 then escaped "n"
  else if Nat.eqb n 13 then escaped "r"
  else if (Nat.ltb n 32 || Nat.eqb n 127)%bool then
    escaped (String "x" (String (hex_digit (n / 16))
                           (String (hex_digit (n mod 16)) EmptyString)))
  else String c EmptyString.

Fixpoint repr_body (q : ascii) (s : string) : string :=
  match s with
  | EmptyString => EmptyString
  | String c s' => repr_char q c ++ repr_body q s'
  end.

Fixpoint has_char (c : ascii) (s : string) : bool :=
  match s with
  | EmptyString => false
  | String d s' => (Ascii.eqb c d || has_char c s')%bool
  end.

(** [repr(s)] for a [str] of ASCII characters: double quotes when [s] has
    a single quote and no double one *)
Definition repr (s : string) : string :=
  let q := if (has_char "'" s && negb (has_char double_quote s))%bool
           then double_quote else "'"%char in
  String q (repr_body q s ++ String q EmptyString).

Fixpoint take (n : nat) (s : string) : string :=
  match n, s with
  | S k, String c s' => String c (take k s')
  | _, _ => EmptyString
  end.

(** the message formats the text with [%.200R] *)
Definition invalid_literal (s : string) : exn :=
  Py.ValueError ("invalid literal for int() with base 10: " ++ take 200 (repr s)).

(** [int(s)] for a [str] of ASCII characters: blanks around an optional
    sign and a run of digits, where single underscores may separate digits;
    a run of more than [int_max_str_digits] digits is refused, whatever
    follows it.  (Outside ASCII, [int] also reads the decimal digits and
    the blanks of other scripts, which are not modelled: statements about
    which texts [int] accepts are made for ASCII texts.) *)
Definition int (s : string) : result Z :=
  let bad := Raise (invalid_literal s) in
  let body := unsigned_part s in
  if (run_ok false body && Nat.ltb int_max_str_digits (run_digits body))%bool then
    Raise (too_long (run_digits body))
  else
    match rstrip (lstrip s) with
    | String "-" body =>
        match digits 0 false body with Some z => Ok (- z) | None => bad end
    | String "+" body =>
        match digits 0 false body with Some z => Ok z | None => bad end
    | body =>
        match digits 0 false body with Some z => Ok z | None => bad end
    end.


(** [str(z)] *)
Definition str (z : Z) : string := NilZero.string_of_int (Z.to_int z).

End PyInt.

(** [list.sort(key=lambda x: int(x), reverse=True)]: the keys are computed
    first (any failure raises and leaves the order to no one), then the
    elements are put in descending key order, elements of equal key keeping
    their relative order. *)
Module PySort.

Fixpoint keyed (l : list string) : result (list (Z * string)) :=
  match l with
  | [] => Ok []
  | x :: rest =>
      try* k := PyInt.int x in
      try* krest := keyed rest in
      Ok ((k, x) :: krest)
  end.

(** insert [x], which precedes every element of [l] in the input, in front
    of the first element whose key is not larger *)
Fixpoint insert_desc (x : Z * string) (l : list (Z * string)) : list (Z * string) :=
  match l with
  | [] => [x]
  | y :: l' => if fst x <? fst y then y :: insert_desc x l' else x :: y :: l'
  end.

Definition sort_keyed (l : list (Z * string)) : list (Z * string) :=
  fold_right insert_desc [] l.

Definition sort_by_int_desc (l : list string) : result (list string) :=
  try* kl := keyed l in
  Ok (map snd (sort_keyed kl)).

(** the order the sort establishes on the keyed elements *)
Definition key_ge (a b : Z * string) : Prop := fst a >= fst b.

End PySort.

(** [time.strftime("%Y-%m-%d %H:%M:%S", time.localtime(t))] *)
Module PyTime.

(** the civil date of a day number counted from 1970-01-01 *)
Definition civil_from_days (days : Z) : Z * Z * Z :=
  let z := days + 719468 in
  let era := z / 146097 in
  let doe := z - era * 146097 in
  let yoe := (doe - doe / 1460 + doe / 36524 - doe / 146096) / 365 in
  let doy := doe - (365 * yoe + yoe / 4 - yoe / 100) in
  let mp := (5 * doy + 2) / 153 in
  let d := doy - (153 * mp + 2) / 5 + 1 in
  let m := if mp <? 10 then mp + 3 else mp - 9 in
  let y := yoe + era * 400 + (if m <=? 2 then 1 else 0) in
  (y, m, d).

Definition two_digits (n : Z) : string :=
  if n <? 10 then "0" ++ PyInt.str n else PyInt.str n.

(** the text for the local second count [local] (seconds since the epoch
    plus the zone offset) *)
Definition format_local (local : Z) : string :=
  let '(y, m, d) := civil_from_days (local / 86400) in
  let s := local mod 86400 in
  PyInt.str y ++ "-" ++ two_digits m ++ "-" ++ two_digits d ++ " " ++
  two_digits (s / 3600) ++ ":" ++ two_digits (s mod 3600 / 60) ++ ":" ++
  two_digits (s mod 60).

(** [time.localtime] refuses a time stamp outside the platform's [time_t]
    and a date whose year, counted from 1900, does not fit the C [int] of
    [struct tm]; [time.strftime] refuses a year that does not fit a C
    [int] *)
Definition strftime_localtime (offset : Z -> Z) (t : Z) : result string :=
  if (t <? - 2 ^ 63) || (2 ^ 63 <=? t) then
    Raise (Exn "OverflowError" "timestamp out of range for platform time_t")
  else
    let local := t + offset t in
    let '(y, _, _) := civil_from_days (local / 86400) in
    if (y - 1900 <? - 2 ^ 31) || (2 ^ 31 <=? y - 1900) then
      Raise (Exn "OSError" "[Errno 75] Value too large for defined data type")
    else if 2 ^ 31 <=? y then
      Raise (Exn "OverflowError" "signed integer is greater than maximum")
    else Ok (format_local local).

End PyTime.

(** ** The depot map: a [dict] from depot id to the list of manifest ids, in
    insertion order *)

Definition depot_map : Type := list (string * list string).

(** [depot_map.setdefault(k, []).append(v)] *)
Fixpoint setdefault_append (k v : string) (m : depot_map) : depot_map :=
  match m with
  | [] => [(k, [v])]
  | (k', vs) :: rest =>
      if String.eqb k k' then (k', (vs ++ [v])%list) :: rest
      else (k', vs) :: setdefault_append k v rest
  end.

(** [depot_map[k]], when [k] is a key *)
Fixpoint depot_lookup (k : string) (m : depot_map) : option (list string) :=
  match m with
  | [] => None
  | (k', vs) :: rest => if String.eqb k k' then Some vs else depot_lookup k rest
  end.

(** lines 119-120: [for depot_id in depot_map: depot_map[depot_id].sort(...)] *)
Fixpoint sort_depot_map (m : depot_map) : result depot_map :=
  match m with
  | [] => Ok []
  | (k, vs) :: rest =>
      try* vs' := PySort.sort_by_int_desc vs in
      try* rest' := sort_depot_map rest in
      Ok ((k, vs') :: rest')
  end.

Definition manifest_dir : string := "manifests".

(** the components of a path that [pathlib] keeps: the pieces between
    slashes, but for the empty ones and the dots *)
Definition path_parts (p : string) : list string :=
  List.filter (fun c => negb (String.eqb c "") && negb (String.eqb c "."))
    (PyStr.split_on "/" "" p).

(** the root of an absolute path: two leading slashes are kept, three or
    more are one *)
Definition path_root (p : string) : string :=
  if PyStr.startswith p "//" && negb (PyStr.startswith p "///") then "//" else "/".

(** [str(manifest_dir / file_path)] on a POSIX system: an absolute
    [file_path] replaces the directory; empty components and [.] are dropped,
    [..] is kept *)
Definition save_path_of (file_path : string) : string :=
  if PyStr.startswith file_path "/"
  then path_root file_path ++ PyStr.join "/" (path_parts file_path)
  else PyStr.join "/" (manifest_dir :: path_parts file_path).

Section Walker.

Context (P : platform).

(** *** [GitHubAPI.check_rate_limit] *)

(** [str(v)], as an f-string inserts it *)
Definition py_str (v : json) : string :=
  match v with
  | JNull => "None"
  | JBool true => "True"
  | JBool false => "False"
  | JInt z => PyInt.str z
  | JStr s => s
  | _ => str_container P v
  end.

(** [time.strftime("%Y-%m-%d %H:%M:%S", time.localtime(reset_time))]:
    [None] reads the clock, a [bool] is an [int], other values are refused *)
Definition format_reset (reset_time : json) : result string :=
  match reset_time with
  | JInt z => PyTime.strftime_localtime (utcoffset P) z
  | JBool b => PyTime.strftime_localtime (utcoffset P) (if b then 1 else 0)
  | JNull => PyTime.strftime_localtime (utcoffset P) (now P)
  | JStr _ => Raise (Py.TypeError "'str' object cannot be interpreted as an integer")
  | JList _ => Raise (Py.TypeError "'list' object cannot be interpreted as an integer")
  | JDict _ => Raise (Py.TypeError "'dict' object cannot be interpreted as an integer")
  end.

Definition error_marker (error_msg : string) : json :=
  JDict [("error", JStr error_msg)].

Definition check_rate_limit : M json :=
  let url := GITHUB_API_BASE P ++ "/rate_limit" in
  try_except
    (let* r := client_get P url in
     if negb (status_code r =? 200) then
       let error_msg :=
         "GitHub rate limit check failed with status " ++ PyInt.str (status_code r) in
       logger ERROR error_msg >>
       ret (error_marker error_msg)
     else
       let* r_json := lift (body_json r) in
       let* rate_limit := lift (Py.get r_json "rate" (JDict [])) in
       let* remaining := lift (Py.get rate_limit "remaining" (JInt 0)) in
       let* limit := lift (Py.get rate_limit "limit" (JInt 60)) in
       let* reset_time := lift (Py.get rate_limit "reset" (JInt 0)) in
       let* reset_formatted := lift (format_reset reset_time) in
       logger INFO ("GitHub API requests remaining: "
                    ++ py_str remaining ++ "/" ++ py_str limit) >>
       let* used := lift (Py.get rate_limit "used" (JInt 0)) in
       ret (JDict [("limit", limit);
                   ("remaining", remaining);
                   ("reset", reset_time);
                   ("used", used);
                   ("reset_formatted", JStr reset_formatted);
                   ("reset_relative", JStr ("<t:" ++ py_str reset_time ++ ":R>"))]))
    (fun e =>
       let error_msg := "Rate limit check failed: " ++ exn_str e in
       logger ERROR error_msg >>
       ret (error_marker error_msg)).

(** *** [AutoSelectOnekeyApp.handle_depot_files] *)

(** [item["path"]], which must be a [str] for [.endswith] *)
Definition item_path (item : json) : result string :=
  try* p := Py.getitem item "path" in
  match p with
  | JStr s => Ok s
  | _ => Raise (Py.no_attribute p "endswith")
  end.

(** lines 111-113: [if depot_id and manifest_id: setdefault(...).append(...)] *)
Definition record_manifest (file_path : string) (dm : depot_map) : depot_map :=
  match parse_manifest_filename P file_path with
  | (Some depot, Some manifest) =>
      if PyStr.truthy depot && PyStr.truthy manifest
      then setdefault_append depot manifest dm
      else dm
  | _ => dm
  end.

(** lines 102-109 *)
Definition obtain_manifest (repo_info : RepoInfo) (file_path : string) : M unit :=
  let save_path := save_path_of file_path in
  let* present := path_exists save_path in
  if present then
    logger WARNING ("Manifest already exists: " ++ save_path)
  else
    let* content := fetch_file P (name repo_info) (sha repo_info) file_path in
    write_bytes save_path content >>
    logger INFO ("Manifest downloaded: " ++ file_path) >>
    downloaded_add file_path.

(** the body of [for item in tree_res.json()["tree"]] (lines 99-117) *)
Definition walk_item (repo_info : RepoInfo) (item : json)
    (acc : list DepotInfo * depot_map) : M (list DepotInfo * depot_map) :=
  let* file_path := lift (item_path item) in
  if PyStr.endswith file_path ".manifest" then
    obtain_manifest repo_info file_path >>
    ret (fst acc, record_manifest file_path (snd acc))
  else if PyStr.contains "key.vdf" (PyStr.lower file_path) then
    let* key_content := fetch_file P (name repo_info) (sha repo_info) file_path in
    let* keys := lift (parse_key_file P key_content) in
    ret ((fst acc ++ keys)%list, snd acc)
  else ret acc.

Fixpoint walk_tree (repo_info : RepoInfo) (items : list json)
    (acc : list DepotInfo * depot_map) : M (list DepotInfo * depot_map) :=
  match items with
  | [] => ret acc
  | item :: rest =>
      let* acc' := walk_item repo_info item acc in
      walk_tree repo_info rest acc'
  end.

(** [r.raise_for_status()] *)
Definition check_status (r : response) : M unit :=
  match raise_for_status P r with
  | Some e => raise e
  | None => ret tt
  end.

(** [branch_res.json()["commit"]["commit"]["tree"]["url"]]; the client
    takes a [str] *)
Definition tree_url_of (branch_res : response) : result string :=
  try* j := body_json branch_res in
  try* c := Py.getitem j "commit" in
  try* cc := Py.getitem c "commit" in
  try* t := Py.getitem cc "tree" in
  try* u := Py.getitem t "url" in
  match u with
  | JStr s => Ok s
  | _ => Raise (Py.TypeError "Invalid type for url")
  end.

(** [tree_res.json()["tree"]], as the loop visits it *)
Definition tree_items (tree_res : response) : result (list json) :=
  try* j := body_json tree_res in
  try* t := Py.getitem j "tree" in
  Py.iterate t.

Definition str_last_update (d : option datetime) : string :=
  match d with
  | Some d => str_datetime P d
  | None => "None"
  end.

Definition handle_depot_files (app_id : string)
  : M (list DepotInfo * depot_map) :=
  mkdir manifest_dir >>
  let* repo_info := get_latest_repo_info P (REPO_LIST P) app_id in
  match repo_info with
  | None => ret ([], [])
  | Some repo_info =>
      logger INFO ("Selected manifest repository: https://github.com/"
                   ++ name repo_info) >>
      logger INFO ("Last update: " ++ str_last_update (last_update repo_info)) >>
      let branch_url :=
        "https://api.github.com/repos/" ++ name repo_info ++ "/branches/" ++ app_id in
      let* branch_res := client_get P branch_url in
      check_status branch_res >>
      let* tree_url := lift (tree_url_of branch_res) in
      let* tree_res := client_get P tree_url in
      check_status tree_res >>
      let* items := lift (tree_items tree_res) in
      let* acc := walk_tree repo_info items ([], []) in
      let* sorted := lift (sort_depot_map (snd acc)) in
      ret (fst acc, sorted)
  end.

End Walker.

(** *** The quota branch of [cmd_manifest] (lines 223-235) *)

Inductive quota_banner :=
| CouldNotCheck
| ApiStatus (used limit remaining reset_relative reset_formatted : json)
            (exhausted : bool).

(** [v == 0] *)
Definition py_eq_zero (v : json) : bool :=
  match v with
  | JInt z => z =? 0
  | JBool b => negb b
  | _ => false
  end.

Definition limit_msg (rate_info : json) : result quota_banner :=
  try* failed := Py.contains "error" rate_info in
  if failed then Ok CouldNotCheck
  else
    try* used := Py.getitem rate_info "used" in
    try* limit := Py.getitem rate_info "limit" in
    try* remaining := Py.getitem rate_info "remaining" in
    try* reset_relative := Py.getitem rate_info "reset_relative" in
    try* reset_formatted := Py.getitem rate_info "reset_formatted" in
    try* remaining' := Py.getitem rate_info "remaining" in
    Ok (ApiStatus used limit remaining reset_relative reset_formatted
          (py_eq_zero remaining')).

(** ** The Filename Classifier *)

(** [parse_manifest_filename] and the helpers of its model *)
Module Classifier.

Fixpoint all_digits (s : string) : bool :=
  match s with
  | EmptyString => true
  | String c s' => PyInt.is_digit c && all_digits s'
  end.

Definition numeric (s : string) : bool :=
  negb (String.eqb s "") && all_digits s.

(** the name without its [.manifest] suffix, if it has it *)
Fixpoint strip_suffix (s : string) : option string :=
  if String.eqb s ".manifest" then Some EmptyString
  else
    match s with
    | EmptyString => None
    | String c s' =>
        match strip_suffix s' with
        | Some t => Some (String c t)
        | None => None
        end
    end.

(** the text before and after the first [_] *)
Fixpoint split_underscore (s : string) : option (string * string) :=
  match s with
  | EmptyString => None
  | String c s' =>
      if Ascii.eqb c "_" then Some (EmptyString, s')
      else
        match split_underscore s' with
        | Some (a, b) => Some (String c a, b)
        | None => None
        end
  end.

(** Modelled from the spec: [parse_manifest_filename] of
    [src/utils/steam.py], which is not among the source files.  The
    specification fixes the convention [<depotId>_<manifestId>.manifest]
    with two numeric-string tokens, and the answer [(None, None)] for any
    name that does not match, in particular one lacking the [_] separator
    or the [.manifest] suffix. *)
Definition parse_manifest_filename (filename : string)
  : option string * option string :=
  match strip_suffix filename with
  | None => (None, None)
  | Some stem =>
      match split_underscore stem with
      | None => (None, None)
      | Some (depot, manifest) =>
          if numeric depot && numeric manifest
          then (Some depot, Some manifest)
          else (None, None)
      end
  end.

(** a name that follows the convention [<depotId>_<manifestId>.manifest]
    with two numeric tokens *)
Definition follows_convention (filename : string) : Prop :=
  exists depot manifest,
    numeric depot = true /\ numeric manifest = true /\
    filename = depot ++ "_" ++ manifest ++ ".manifest".

End Classifier.

(** ** Predicates used by the statements *)

(** what a request or a log message leaves alone *)
Definition same_store (w w' : world) : Prop :=
  fs w' = fs w /\ downloaded_files w' = downloaded_files w /\ is_cn w' = is_cn w.

(** a reply that does not deliver the content: an exception or a status
    other than 200 *)
Definition fails (rp : reply) : bool :=
  match rp with
  | Raise _ => true
  | Ok r => negb (status_code r =? 200)
  end.

(** ** What a candidate's reply offers

    A reply either gives no commit date ([Skip], with the exception raised on
    the way, if any) or gives one ([Dated]), together with what reading the
    sha yields. *)

Inductive reading :=
| Skip (raised : option exn)
| Dated (date : datetime) (sha : result json).

Definition reading_date (x : reading) : option datetime :=
  match x with
  | Dated d _ => Some d
  | Skip _ => None
  end.

Section Candidates.

Context (P : platform).

Definition read_reply (rp : reply) : reading :=
  match rp with
  | Raise e => Skip (Some e)
  | Ok r =>
      if status_code r =? 200 then
        match body_json r with
        | Raise e => Skip (Some e)
        | Ok r_json =>
            match Py.contains "commit" r_json with
            | Raise e => Skip (Some e)
            | Ok false => Skip None
            | Ok true =>
                match commit_date P r_json with
                | Raise e => Skip (Some e)
                | Ok d => Dated d (commit_sha r_json)
                end
            end
        end
      else Skip None
  end.

(** the candidates with what the [n]-th, [n+1]-th, ... requests offer *)
Fixpoint observed (app_id : string) (n : nat) (repos : list string)
  : list (string * reading) :=
  match repos with
  | [] => []
  | repo :: rest =>
      (repo, read_reply (net P n (branch_url P repo app_id)))
        :: observed app_id (S n) rest
  end.


End Candidates.

(** [repo], dated [d], is the first candidate of the list with the greatest
    commit date *)
Definition first_max (cands : list (string * reading))
    (repo : string) (d : datetime) (s : result json) : Prop :=
  exists before after,
    cands = (before ++ (repo, Dated d s) :: after)%list /\
    (forall r x d', In (r, x) before -> reading_date x = Some d' ->
                    instant d' < instant d) /\
    (forall r x d', In (r, x) after -> reading_date x = Some d' ->
                    instant d' <= instant d).

(** every commit date offered carries a time zone, as the dates of the
    hosting API do *)
Definition all_aware (cands : list (string * reading)) : Prop :=
  forall r x d, In (r, x) cands -> reading_date x = Some d -> is_aware d = true.

(** no candidate offers a commit date *)
Definition none_dated (cands : list (string * reading)) : Prop :=
  forall r x, In (r, x) cands -> reading_date x = None.

(** every reply that offers a commit date offers a sha as well *)
Definition sha_readable (cands : list (string * reading)) : Prop :=
  forall r d s, In (r, Dated d s) cands -> exists v, s = Ok v.

(** the warnings of the candidates whose query raised before a date was read *)
Definition skip_warnings (cands : list (string * reading)) : list (level * string) :=
  flat_map (fun c : string * reading =>
              match snd c with
              | Skip (Some e) => [warning_of (fst c) e]
              | _ => []
              end) cands.

(** the local variables of the selector agree with the candidates seen so
    far: nothing selected and no date seen, or the first candidate of the
    greatest date selected, with its sha when the reply carries one *)
Definition selects (seen : list (string * reading)) (st : selection) : Prop :=
  match selected_repo st with
  | None => latest_date st = None /\ none_dated seen
  | Some r =>
      exists d s, latest_date st = Some d /\ first_max seen r d s /\
                  (forall v, s = Ok v -> selected_sha st = v)
  end.

(** what the selector returns for the candidates [cands]: the first candidate
    of the greatest date, with that date and, when its reply carries one,
    its sha; nothing when no candidate is dated *)
Definition picks (cands : list (string * reading)) (res : option RepoInfo) : Prop :=
  match res with
  | Some info =>
      exists d s, first_max cands (name info) d s /\
                  last_update info = Some d /\
                  (forall v, s = Ok v -> sha info = v)
  | None => none_dated cands
  end.

(** ** What the candidates hold

    The claim about the selector speaks of the branch each candidate holds
    for the application.  A table [held] gives, for a candidate, the commit
    date and the sha of that branch, or nothing when the candidate has no
    such branch; [holds] says that the network answers accordingly whenever
    a candidate is asked. *)



(** [r], which holds the date [d] and the sha [s], is the first candidate
    of the list with the greatest commit date *)
Definition latest (held : string -> option (datetime * json)) (repos : list string)
    (r : string) (d : datetime) (s : json) : Prop :=
  held r = Some (d, s) /\
  exists before after,
    repos = (before ++ r :: after)%list /\
    (forall r' d' s', In r' before -> held r' = Some (d', s') ->
                      instant d' < instant d) /\
    (forall r' d' s', In r' after -> held r' = Some (d', s') ->
                      instant d' <= instant d).





(** ** Computations that leave the store alone and do not depend on it *)

(** [m] changes neither the local storage, nor the downloaded set, nor the
    locality flag *)
Definition frames {A} (m : M A) : Prop :=
  forall w, same_store w (snd (m w)).



(** [l] sorted by integer value, largest first *)
Definition int_values (l : list string) (ks : list Z) : Prop :=
  map PyInt.int l = map Ok ks.

Definition strictly_descending (l : list string) : Prop :=
  exists ks, int_values l ks /\ StronglySorted Z.gt ks.

Section Resolve.

Context (P : platform).

(** the part of [handle_depot_files] before the loop (lines 80-98): the
    selected repository and the entries of its tree *)
Definition resolve_tree (app_id : string) : M (option (RepoInfo * list json)) :=
  mkdir manifest_dir >>
  let* repo_info := get_latest_repo_info P (REPO_LIST P) app_id in
  match repo_info with
  | None => ret None
  | Some repo_info =>
      logger INFO ("Selected manifest repository: https://github.com/"
                   ++ name repo_info) >>
      logger INFO ("Last update: " ++ str_last_update P (last_update repo_info)) >>
      let branch_url :=
        "https://api.github.com/repos/" ++ name repo_info ++ "/branches/" ++ app_id in
      let* branch_res := client_get P branch_url in
      check_status P branch_res >>
      let* tree_url := lift (tree_url_of branch_res) in
      let* tree_res := client_get P tree_url in
      check_status P tree_res >>
      let* items := lift (tree_items tree_res) in
      ret (Some (repo_info, items))
  end.

(** the loop and the final sort (lines 98-122) *)
Definition walk_and_sort (repo_info : RepoInfo) (items : list json)
  : M (list DepotInfo * depot_map) :=
  let* acc := walk_tree P repo_info items ([], []) in
  let* sorted := lift (sort_depot_map (snd acc)) in
  ret (fst acc, sorted).

End Resolve.


(** every path of [w] is a path of [w'] *)
Definition fs_grows (w w' : world) : Prop :=
  forall p, is_Some (fs w !! p) -> is_Some (fs w' !! p).


(** [m] only appends to the log, and only entries that satisfy [Q] *)
Definition logs_only {A} (Q : level * string -> Prop) (m : M A) : Prop :=
  forall w, exists extra,
    log (snd (m w)) = (log w ++ extra)%list /\ Forall Q extra.

(** the tokens of a name that the walker records: both present and not empty *)
Definition recorded (P : platform) (file_path : string) : option (string * string) :=
  match parse_manifest_filename P file_path with
  | (Some depot, Some manifest) =>
      if PyStr.truthy depot && PyStr.truthy manifest then Some (depot, manifest)
      else None
  | _ => None
  end.


(** the body of the specification's quota example *)
Definition quota_example : json :=
  JDict [("rate", JDict [("remaining", JInt 10); ("limit", JInt 60);
                         ("reset", JInt 1700000000); ("used", JInt 50)])].

(** the report the specification expects for a degenerate body: a status,
    with no ["error"] key *)
Definition reports_status (P : platform) (w : world) : Prop :=
  exists v w', check_rate_limit P w = (Ok v, w') /\ Py.contains "error" v = Ok false.

(** [fields.get(k, default)] on the bindings of a [dict] *)
Definition field_or (fields : list (string * json)) (k : string) (default : json) : json :=
  match Py.assoc k fields with
  | Some v => v
  | None => default
  end.

(** ** Scenarios

    A small hosting site with three candidate repositories, used to run the
    pipeline on concrete inputs. *)

Module Scenario.

Definition api : string := "https://api.github.com".

Definition str_sha (sha : json) : string :=
  match sha with
  | JStr s => s
  | _ => "None"
  end.

(** [https://raw.githubusercontent.com/{repo}/{sha}/{path}] *)
Definition raw_template : cdn_template :=
  fun repo sha path =>
    "https://raw.githubusercontent.com/" ++ repo ++ "/" ++ str_sha sha ++ "/" ++ path.

(** [https://cdn.jsdmirror.com/gh/{repo}@{sha}/{path}] *)
Definition mirror_template : cdn_template :=
  fun repo sha path =>
    "https://cdn.jsdmirror.com/gh/" ++ repo ++ "@" ++ str_sha sha ++ "/" ++ path.

(** [https://raw.gitmirror.com/{repo}/{sha}/{path}] *)
Definition gitmirror_template : cdn_template :=
  fun repo sha path =>
    "https://raw.gitmirror.com/" ++ repo ++ "/" ++ str_sha sha ++ "/" ++ path.

(** the dates of the scenarios, as [datetime.fromisoformat] reads them *)
Definition dates (s : string) : result datetime :=
  if String.eqb s "2024-01-01T00:00:00+00:00" then Ok (Aware 1704067200000000)
  else if String.eqb s "2024-06-01T00:00:00+00:00" then Ok (Aware 1717200000000000)
  else Raise (Py.ValueError ("Invalid isoformat string: '" ++ s ++ "'")).

Definition show_date (d : datetime) : string := PyInt.str (instant d).

(** a status outside 2xx raises *)
Definition status_check (r : response) : option exn :=
  if (200 <=? status_code r) && (status_code r <? 300) then None
  else Some (Exn "HTTPStatusError" ("status " ++ PyInt.str (status_code r))).

Definition one_key (_ : list Byte.byte) : result (list DepotInfo) :=
  Ok [mkDepotInfo "1000" "00ff"].

Definition platform_of (repos : list string) (web : nat -> string -> reply)
  : platform :=
  {| GITHUB_API_BASE := api;
     REPO_LIST := repos;
     CN_CDN_LIST := [mirror_template; gitmirror_template; raw_template];
     GLOBAL_CDN_LIST := [raw_template];
     net := web;
     raise_for_status := status_check;
     fromisoformat := dates;
     str_datetime := show_date;
     str_container := fun _ => "[...]";
     parse_manifest_filename := Classifier.parse_manifest_filename;
     parse_key_file := one_key;
     utcoffset := fun _ => 0;
     now := 0 |}.

Definition not_found : reply :=
  Ok (Response 404 (Ok (JDict [("message", JStr "Branch not found")])) []).

Definition unavailable : reply :=
  Ok (Response 503 (Raise (Exn "JSONDecodeError" "Expecting value")) []).

Definition branch_body (date sha tree : string) : json :=
  JDict [("name", JStr "480");
         ("commit",
          JDict [("sha", JStr sha);
                 ("commit",
                  JDict [("author", JDict [("date", JStr date)]);
                         ("tree", JDict [("url", JStr tree)])])])].

Definition branch (date sha tree : string) : reply :=
  Ok (Response 200 (Ok (branch_body date sha tree)) []).

Definition tree_of (paths : list string) : reply :=
  Ok (Response 200
        (Ok (JDict [("tree", JList (map (fun p => JDict [("path", JStr p)]) paths))]))
        []).

Definition data : list Byte.byte := list_byte_of_string "DATA".

Definition file : reply :=
  Ok (Response 200 (Raise (Exn "JSONDecodeError" "Expecting value")) data).

Definition repos : list string := ["alpha/one"; "beta/two"; "gamma/three"].

(** [alpha/one] and [beta/two] have the branch 480, the latter more
    recent; [gamma/three] does not; the tree of [beta/two] lists [paths] *)
Definition web (paths : list string) (n : nat) (url : string) : reply :=
  if String.eqb url "https://api.github.com/repos/alpha/one/branches/480" then
    branch "2024-01-01T00:00:00Z" "aaa" "https://api.github.com/repos/alpha/one/git/trees/ta"
  else if String.eqb url "https://api.github.com/repos/beta/two/branches/480" then
    branch "2024-06-01T00:00:00Z" "bbb" "https://api.github.com/repos/beta/two/git/trees/tb"
  else if String.eqb url "https://api.github.com/repos/beta/two/git/trees/tb" then
    tree_of paths
  else if PyStr.startswith url "https://raw.githubusercontent.com/beta/two/bbb/" then
    file
  else not_found.

Definition listing : list string :=
  ["1000_50.manifest"; "1000_75.manifest"; "1000_60.manifest";
   "readme.manifest"; "Key.vdf"; "README.md"].

Definition site : platform := platform_of repos (web listing).

(** a tree with two names of the same integer value *)
Definition tied : platform :=
  platform_of repos (web ["1000_50.manifest"; "1000_75.manifest"; "1000_050.manifest"]).

(** no candidate has the branch *)
Definition absent : platform := platform_of repos (fun _ _ => not_found).

(** every request fails, by an exception or by its status in turn *)
Definition down : platform :=
  platform_of repos
    (fun n _ => if Nat.even n then Raise (Exn "ConnectError" "connection refused")
                else unavailable).

(** the first candidate cannot be reached, the others are as in [site] *)
Definition flaky : platform :=
  platform_of repos
    (fun n url =>
       if String.eqb url "https://api.github.com/repos/alpha/one/branches/480"
       then Raise (Exn "ConnectError" "connection refused")
       else web listing n url).

(** the quota endpoint answers 200 with [body] *)
Definition quota (body : json) : platform :=
  platform_of repos
    (fun _ url =>
       if String.eqb url "https://api.github.com/rate_limit"
       then Ok (Response 200 (Ok body) [])
       else not_found).

(** the first two requests are refused, the third is served *)
Definition third_time : platform :=
  platform_of repos (fun n _ => if Nat.ltb n 2 then unavailable else file).

(** [alpha/one] and [beta/two] carry the same commit date *)
Definition twins : platform :=
  platform_of repos
    (fun _ url =>
       if String.eqb url "https://api.github.com/repos/alpha/one/branches/480" then
         branch "2024-06-01T00:00:00Z" "aaa" "https://api.github.com/repos/alpha/one/git/trees/ta"
       else if String.eqb url "https://api.github.com/repos/beta/two/branches/480" then
         branch "2024-06-01T00:00:00Z" "bbb" "https://api.github.com/repos/beta/two/git/trees/tb"
       else not_found).

(** [beta/two], the most recent, answers without a sha *)
Definition shaless : platform :=
  platform_of repos
    (fun n url =>
       if String.eqb url "https://api.github.com/repos/beta/two/branches/480" then
         Ok (Response 200
               (Ok (JDict [("commit",
                            JDict [("commit",
                                    JDict [("author",
                                            JDict [("date", JStr "2024-06-01T00:00:00Z")])])])]))
               [])
       else web listing n url).

Definition start : world := World [] ∅ ∅ false [].

(** the same with the locality flag set, as [GitHubAPI.__init__] leaves it *)
Definition start_cn : world := World [] ∅ ∅ true [].

Definition entry (path : string) : json := JDict [("path", JStr path)].

(** the world after a first run of the pipeline on [site] *)
Definition after_first_run : world := snd (handle_depot_files site "480" start).

Definition beta : RepoInfo :=
  mkRepoInfo "beta/two" (Some (Aware 1717200000000000)) (JStr "bbb").

End Scenario.

(** ** Further predicates and functions of the development *)

(** the endpoints [fetch_file] tries, in order: the selected list, three
    times over *)
Definition fetch_schedule (P : platform) (w : world) : list cdn_template :=
  concat (repeat (cdn_list_of P w) 3).

(** a log entry of level [DEBUG] *)
Definition is_debug (e : level * string) : Prop := fst e = DEBUG.

(** the status [check_rate_limit] builds on success (lines 45-52) *)
Definition status_dict (limit remaining reset used : json)
    (formatted relative : string) : json :=
  JDict [("limit", limit); ("remaining", remaining); ("reset", reset);
         ("used", used); ("reset_formatted", JStr formatted);
         ("reset_relative", JStr relative)].

(** every file of [w] is in [w'] with the same bytes *)
Definition keeps_files (w w' : world) : Prop :=
  forall p c, fs w !! p = Some c -> fs w' !! p = Some c.

(** the depot map the entries of a tree give, every name ending in
    [.manifest] being recorded in turn (lines 101 and 111-113) *)
Fixpoint tree_depot_map (P : platform) (items : list json) (dm : depot_map)
  : depot_map :=
  match items with
  | [] => dm
  | item :: rest =>
      match item_path item with
      | Ok path =>
          if PyStr.endswith path ".manifest"
          then tree_depot_map P rest (record_manifest P path dm)
          else tree_depot_map P rest dm
      | Raise _ => dm
      end
  end.

(** the manifest id an entry of the tree gives to the depot [k]: the entry's
    path ends in [.manifest] and the classifier reads it as [k] and an id,
    both not empty (lines 101 and 111-113) *)
Definition entry_ids (P : platform) (k : string) (item : json) : list string :=
  match item_path item with
  | Ok path =>
      if PyStr.endswith path ".manifest" then
        match recorded P path with
        | Some (depot, manifest) => if String.eqb k depot then [manifest] else []
        | None => []
        end
      else []
  | Raise _ => []
  end.

(** the manifest ids of the depot [k] in the tree, in the order of the tree *)
Definition tree_ids (P : platform) (k : string) (items : list json) : list string :=
  flat_map (entry_ids P k) items.

(** [int(x) == z] *)
Definition has_value (z : Z) (x : string) : bool :=
  match PyInt.int x with
  | Ok k => k =? z
  | Raise _ => false
  end.

(** the same depots, in the same order, each with a rearrangement of its
    list *)
Definition rearranged (m m' : depot_map) : Prop :=
  Forall2 (fun a b => fst a = fst b /\ Permutation (snd a) (snd b)) m m'.

(** an entry whose content is read for depot keys: its path does not end
    in [.manifest] and contains [key.vdf], whatever the case (lines 101
    and 115) *)
Definition is_key_path (path : string) : bool :=
  negb (PyStr.endswith path ".manifest")
  && PyStr.contains "key.vdf" (PyStr.lower path).

(** ** [AutoSelectOnekeyApp.run] (bot.py, lines 32-72) *)

(** what [run] takes from modules that are not among the source files *)
Record host := Host {
  (** [RegionDetector(self.client, self.logger).check_cn()] *)
  check_cn : M (bool * string);
  (** [SteamTools(steam_path).setup(depot_data, app_id, depot_map=...,
      version_lock=False)] *)
  steam_setup : list DepotInfo -> string -> depot_map -> M bool;
  (** [traceback.format_exc()] while the exception is handled *)
  format_exc : exn -> string
}.

(** [self.downloaded_files.clear()] *)
Definition clear_downloaded : M unit :=
  fun w => (Ok tt, set_downloaded w ∅).

(** [self.github.is_cn = is_cn] *)
Definition set_is_cn (b : bool) : M unit :=
  fun w => (Ok tt, World (sent w) (fs w) (downloaded_files w) b (log w)).

(** lines 61-66: the destinations of the downloaded paths that exist, in
    the order the set is iterated *)
Definition collect_manifest_files : M (list string) :=
  fun w =>
    (Ok (List.filter (fun f => bool_decide (is_Some (fs w !! f)))
           (map save_path_of (elements (downloaded_files w)))), w).

Section Run.

Context (P : platform) (H : host).

(** lines 35-44: what precedes the pipeline *)
Definition prepare (app_id : string) : M unit :=
  clear_downloaded >>
  let* detected := check_cn H in
  set_is_cn (fst detected) >>
  let* _ := check_rate_limit P in
  logger INFO ("Processing game " ++ app_id ++ "...").

(** lines 47-68: what follows it *)
Definition conclude (app_id : string) (result : list DepotInfo * depot_map)
  : M (bool * list string) :=
  match fst result with
  | [] =>
      logger ERROR "No manifests found for this game" >>
      ret (false, [])
  | _ :: _ =>
      let* success := steam_setup H (fst result) app_id (snd result) in
      let* manifest_files := collect_manifest_files in
      ret (success, manifest_files)
  end.

Definition run (app_id : string) : M (bool * list string) :=
  try_except
    (prepare app_id >>
     let* result := handle_depot_files P app_id in
     conclude app_id result)
    (fun e =>
       logger ERROR ("Error: " ++ format_exc H e) >>
       ret (false, [])).

End Run.

(** ** Further scenarios *)

Module Cases.

Import Scenario.

(** as [site], but of the three manifests of the tree only
    [1000_50.manifest] is served *)
Definition partial : platform :=
  platform_of repos
    (fun n url =>
       if PyStr.startswith url "https://raw.githubusercontent.com/beta/two/bbb/" then
         if String.eqb url "https://raw.githubusercontent.com/beta/two/bbb/1000_50.manifest"
         then file else not_found
       else web ["1000_50.manifest"; "1000_75.manifest"; "1000_60.manifest"] n url).

(** a host outside China whose configuration tool succeeds *)
Definition desk : host :=
  {| check_cn := ret (false, "US");
     steam_setup := fun _ _ _ => ret true;
     format_exc := fun e => exn_class e ++ ": " ++ exn_str e |}.


(** the date parser of the scenarios, which also reads a text without a
    zone, as [datetime.fromisoformat] does *)
Definition dates_or_naive (s : string) : result datetime :=
  if String.eqb s "2024-01-01T00:00:00" then Ok (Naive 1704067200000000)
  else dates s.

(** two candidates; the older branch carries a date without a zone *)
Definition mixed : platform :=
  {| GITHUB_API_BASE := api;
     REPO_LIST := ["alpha/one"; "beta/two"];
     CN_CDN_LIST := [mirror_template; gitmirror_template; raw_template];
     GLOBAL_CDN_LIST := [raw_template];
     net := fun _ url =>
       if String.eqb url "https://api.github.com/repos/alpha/one/branches/480" then
         branch "2024-01-01T00:00:00" "aaa"
                "https://api.github.com/repos/alpha/one/git/trees/ta"
       else if String.eqb url "https://api.github.com/repos/beta/two/branches/480" then
         branch "2024-06-01T00:00:00Z" "bbb"
                "https://api.github.com/repos/beta/two/git/trees/tb"
       else not_found;
     raise_for_status := status_check;
     fromisoformat := dates_or_naive;
     str_datetime := show_date;
     str_container := fun _ => "[...]";
     parse_manifest_filename := Classifier.parse_manifest_filename;
     parse_key_file := one_key;
     utcoffset := fun _ => 0;
     now := 0 |}.




Definition alpha : RepoInfo :=
  mkRepoInfo "alpha/one" (Some (Aware 1704067200000000)) (JStr "aaa").

(** a depot map as the walk leaves it, before the final sort *)
Definition unsorted : depot_map :=
  [("1000", ["50"; "75"; "050"; "60"]); ("2000", ["7"])].

End Cases.

(** * Properties *)

(** ** Frame facts shared by the proofs *)

Lemma same_store_refl w : same_store w w.
Proof. repeat split. Qed.

Lemma same_store_trans w1 w2 w3 :
  same_store w1 w2 -> same_store w2 w3 -> same_store w1 w3.
Proof.
  intros (A & B & C) (A' & B' & C'). repeat split; congruence.
Qed.

Section FetchFacts.

Context (P : platform).




Lemma try_endpoint_sends t repo sha path w :
  sent (snd (try_endpoint P t repo sha path w)) = (sent w ++ [t repo sha path])%list.
Proof.
  unfold try_endpoint, try_except, bind, client_get.
  destruct (net P (length (sent w)) (t repo sha path)) as [r|e]; simpl.
  - destruct (status_code r =? 200); reflexivity.
  - reflexivity.
Qed.

Lemma try_endpoints_bound repo sha path cdn_list : forall w,
  (length (sent (snd (try_endpoints P cdn_list repo sha path w)))
   <= length (sent w) + length cdn_list)%nat.
Proof.
  induction cdn_list as [|t rest IH]; intros w; simpl; [lia|].
  unfold bind. pose proof (try_endpoint_sends t repo sha path w) as Hs.
  destruct (try_endpoint P t repo sha path w) as [[[c|]|e] w1]; simpl in *.
  - rewrite Hs, length_app. simpl. lia.
  - specialize (IH w1). rewrite Hs, length_app in IH. simpl in IH. lia.
  - rewrite Hs, length_app. simpl. lia.
Qed.

Lemma fetch_rounds_bound repo sha path cdn_list : forall n w,
  (length (sent (snd (fetch_rounds P n cdn_list repo sha path w)))
   <= length (sent w) + n * length cdn_list)%nat.
Proof.
  induction n as [|n IH]; intros w; simpl; [lia|].
  unfold bind. pose proof (try_endpoints_bound repo sha path cdn_list w) as Hb.
  destruct (try_endpoints P cdn_list repo sha path w) as [[[c|]|e] w1]; simpl in *.
  - lia.
  - specialize (IH w1). lia.
  - lia.
Qed.




(** whatever the replies, a fetch sends at most [3 * |endpoints|] requests *)
Lemma fetch_file_request_bound repo sha path w :
  (length (sent (snd (fetch_file P repo sha path w)))
   <= length (sent w) + 3 * length (cdn_list_of P w))%nat.
Proof.
  unfold fetch_file, bind.
  pose proof (fetch_rounds_bound repo sha path (cdn_list_of P w) 3 w) as Hb.
  destruct (fetch_rounds P 3 (cdn_list_of P w) repo sha path w) as [[[c|]|e] w1];
    simpl in *; exact Hb.
Qed.

End FetchFacts.


(** ** The candidate of the greatest date *)

Lemma first_max_bound cands r d s :
  first_max cands r d s ->
  forall r0 x0 d0, In (r0, x0) cands -> reading_date x0 = Some d0 ->
                   instant d0 <= instant d.
Proof.
  intros (before & after & -> & Hb & Ha) r0 x0 d0 Hin Hd.
  apply in_app_or in Hin. destruct Hin as [Hin|[Heq|Hin]].
  - specialize (Hb _ _ _ Hin Hd). lia.
  - inversion Heq; subst. simpl in Hd. inversion Hd. lia.
  - exact (Ha _ _ _ Hin Hd).
Qed.

Lemma first_max_keep cands r d s r' x :
  first_max cands r d s ->
  (forall d', reading_date x = Some d' -> instant d' <= instant d) ->
  first_max (cands ++ [(r', x)]) r d s.
Proof.
  intros (before & after & -> & Hb & Ha) Hle.
  exists before, (after ++ [(r', x)])%list. split.
  - rewrite <- app_assoc. reflexivity.
  - split; [exact Hb|]. intros r0 x0 d0 Hin Hd.
    apply in_app_or in Hin. destruct Hin as [Hin|[Heq|[]]].
    + exact (Ha _ _ _ Hin Hd).
    + inversion Heq; subst. exact (Hle _ Hd).
Qed.

Lemma first_max_take cands r' d' s' :
  (forall r0 x0 d0, In (r0, x0) cands -> reading_date x0 = Some d0 ->
                    instant d0 < instant d') ->
  first_max (cands ++ [(r', Dated d' s')]) r' d' s'.
Proof.
  intros Hlt. exists cands, []. split; [reflexivity|]. split; [exact Hlt|].
  intros ? ? ? [].
Qed.

Lemma first_max_In cands r d s :
  first_max cands r d s -> In (r, Dated d s) cands.
Proof.
  intros (before & after & -> & _). apply in_or_app. right. left. reflexivity.
Qed.

Lemma datetime_gt_aware a b :
  is_aware a = true -> is_aware b = true ->
  datetime_gt a b = Ok (instant b <? instant a).
Proof. destruct a, b; simpl; intros; try discriminate; reflexivity. Qed.

Section SelectorFacts.

Context (P : platform).

Lemma outcome_reading repo rp st :
  outcome P repo rp st =
  match read_reply P rp with
  | Skip raised => (st, raised)
  | Dated d s =>
      match is_newer d (latest_date st) with
      | Raise e => (st, Some e)
      | Ok false => (st, None)
      | Ok true =>
          match s with
          | Raise e => (Selection (Some d) (Some repo) (selected_sha st), Some e)
          | Ok v => (Selection (Some d) (Some repo) v, None)
          end
      end
  end.
Proof.
  unfold outcome, read_reply, consider. destruct rp as [r|e]; [|reflexivity].
  destruct (status_code r =? 200); [|reflexivity].
  destruct (body_json r) as [j|e]; [|reflexivity].
  destruct (Py.contains "commit" j) as [[|]|e]; try reflexivity.
  destruct (commit_date P j) as [d|e]; reflexivity.
Qed.

(** one candidate: the request is sent, the store is left alone, and an
    exception becomes a warning *)
Lemma query_candidate_run app_id repo st w :
  let url := branch_url P repo app_id in
  let out := outcome P repo (net P (length (sent w)) url) st in
  exists w',
    query_candidate P app_id repo st w = (Ok (fst out), w') /\
    sent w' = (sent w ++ [url])%list /\
    same_store w w' /\
    log w' = (log w ++ match snd out with
                       | Some e => [warning_of repo e]
                       | None => []
                       end)%list.
Proof.
  intros url out. unfold query_candidate, client_get. fold url. fold out.
  destruct out as [st' [e|]]; simpl.
  - eexists. split; [reflexivity|]. simpl. repeat split.
  - eexists. split; [reflexivity|]. simpl. rewrite app_nil_r. repeat split.
Qed.

Lemma selects_skip seen st repo raised :
  selects seen st -> selects (seen ++ [(repo, Skip raised)]) st.
Proof.
  unfold selects. destruct (selected_repo st) as [r|].
  - intros (d & s & Hd & Hmax & Hsha). exists d, s. split; [exact Hd|].
    split; [|exact Hsha]. apply first_max_keep; [exact Hmax|].
    simpl. discriminate.
  - intros [Hd Hnone]. split; [exact Hd|]. intros r x Hin.
    apply in_app_or in Hin. destruct Hin as [Hin|[Heq|[]]].
    + exact (Hnone _ _ Hin).
    + inversion Heq. reflexivity.
Qed.

(** one candidate keeps the selection in step with the candidates seen,
    and raises nothing but what the reading says when dates are aware and
    the sha is there *)
Lemma selects_step seen st repo rp :
  let x := read_reply P rp in
  all_aware (seen ++ [(repo, x)]) ->
  selects seen st ->
  selects (seen ++ [(repo, x)]) (fst (outcome P repo rp st)) /\
  (sha_readable [(repo, x)] ->
   snd (outcome P repo rp st) =
   match x with Skip (Some e) => Some e | _ => None end).
Proof.
  intros x Haware Hsel. rewrite outcome_reading. fold x.
  destruct x as [raised|d s] eqn:Ex.
  - simpl. split; [apply selects_skip; exact Hsel|].
    intros _. destruct raised; reflexivity.
  - assert (Hd : is_aware d = true).
    { apply (Haware repo (Dated d s) d); [|reflexivity].
      apply in_or_app. right. left. reflexivity. }
    unfold selects in Hsel.
    destruct (selected_repo st) as [r|] eqn:Er.
    + destruct Hsel as (d0 & s0 & Hd0 & Hmax & Hsha). rewrite Hd0. simpl.
      assert (Hd0a : is_aware d0 = true).
      { apply (Haware r (Dated d0 s0) d0); [|reflexivity].
        apply in_or_app. left. exact (first_max_In _ _ _ _ Hmax). }
      rewrite (datetime_gt_aware d d0 Hd Hd0a).
      destruct (instant d0 <? instant d) eqn:Hlt.
      * apply Z.ltb_lt in Hlt.
        assert (Htake : first_max (seen ++ [(repo, Dated d s)]) repo d s).
        { apply first_max_take. intros r0 x0 d1 Hin Hx0.
          pose proof (first_max_bound _ _ _ _ Hmax _ _ _ Hin Hx0). lia. }
        destruct s as [v|e]; simpl.
        -- split.
           ++ unfold selects. simpl. exists d, (Ok v).
              split; [reflexivity|]. split; [exact Htake|].
              intros v' Hv'. inversion Hv'. reflexivity.
           ++ reflexivity.
        -- split.
           ++ unfold selects. simpl. exists d, (Raise e).
              split; [reflexivity|]. split; [exact Htake|]. discriminate.
           ++ intros Hread. destruct (Hread repo d (Raise e)) as [v Hv];
                [left; reflexivity|discriminate].
      * apply Z.ltb_ge in Hlt. simpl. split; [|reflexivity].
        unfold selects. rewrite Er. exists d0, s0. split; [exact Hd0|].
        split; [|exact Hsha]. apply first_max_keep; [exact Hmax|].
        simpl. intros d' Hd'. inversion Hd'. subst. exact Hlt.
    + destruct Hsel as [Hd0 Hnone]. rewrite Hd0. simpl.
      assert (Htake : first_max (seen ++ [(repo, Dated d s)]) repo d s).
      { apply first_max_take. intros r0 x0 d1 Hin Hx0.
        rewrite (Hnone _ _ Hin) in Hx0. discriminate. }
      destruct s as [v|e]; simpl.
      * split.
        -- unfold selects. simpl. exists d, (Ok v).
           split; [reflexivity|]. split; [exact Htake|].
           intros v' Hv'. inversion Hv'. reflexivity.
        -- reflexivity.
      * split.
        -- unfold selects. simpl. exists d, (Raise e).
           split; [reflexivity|]. split; [exact Htake|]. discriminate.
        -- intros Hread. destruct (Hread repo d (Raise e)) as [v Hv];
             [left; reflexivity|discriminate].
Qed.

Lemma outcome_skip repo rp st :
  reading_date (read_reply P rp) = None ->
  fst (outcome P repo rp st) = st.
Proof.
  intros H. rewrite outcome_reading.
  destruct (read_reply P rp); [reflexivity|discriminate].
Qed.

Lemma outcome_raised repo rp st e :
  read_reply P rp = Skip (Some e) ->
  snd (outcome P repo rp st) = Some e.
Proof. intros H. rewrite outcome_reading, H. reflexivity. Qed.

(** the whole loop: it returns, having sent one request per candidate in
    list order *)
Lemma query_candidates_run app_id repos : forall st w seen,
  let obs := observed P app_id (length (sent w)) repos in
  exists st' w',
    query_candidates P app_id repos st w = (Ok st', w') /\
    sent w' = (sent w ++ map (fun r => branch_url P r app_id) repos)%list /\
    same_store w w' /\
    (forall m, In m (log w) -> In m (log w')) /\
    (forall r e, In (r, Skip (Some e)) obs -> In (warning_of r e) (log w')) /\
    (none_dated obs -> st' = st) /\
    (all_aware (seen ++ obs) -> selects seen st ->
     selects (seen ++ obs) st' /\
     (sha_readable obs -> log w' = (log w ++ skip_warnings obs)%list)).
Proof.
  induction repos as [|repo rest IH]; intros st w seen obs.
  - exists st, w. subst obs. simpl. rewrite !app_nil_r.
    split; [reflexivity|]. split; [reflexivity|].
    split; [apply same_store_refl|]. split; [auto|].
    split; [intros ? ? []|]. split; [reflexivity|].
    intros _ Hsel. split; [exact Hsel|reflexivity].
  - set (url := branch_url P repo app_id).
    set (rp := net P (length (sent w)) url).
    destruct (query_candidate_run app_id repo st w) as (w1 & E1 & S1 & F1 & L1).
    fold url in E1, S1, L1. fold rp in E1, L1.
    assert (Hlen : length (sent w1) = S (length (sent w))).
    { rewrite S1, length_app. simpl. lia. }
    destruct (IH (fst (outcome P repo rp st)) w1 (seen ++ [(repo, read_reply P rp)])%list)
      as (st' & w' & E2 & S2 & F2 & M2 & W2 & N2 & A2).
    rewrite Hlen in W2, N2, A2.
    subst obs.
    change (observed P app_id (length (sent w)) (repo :: rest))
      with ((repo, read_reply P rp) :: observed P app_id (S (length (sent w))) rest).
    set (obs' := observed P app_id (S (length (sent w))) rest) in *.
    assert (M1 : forall m, In m (log w) -> In m (log w1)).
    { intros m Hm. rewrite L1. apply in_or_app. left. exact Hm. }
    exists st', w'.
    split. { simpl. unfold bind at 1. rewrite E1. exact E2. }
    split. { simpl. rewrite S2, S1, <- app_assoc. reflexivity. }
    split; [eapply same_store_trans; eassumption|].
    split; [intros m Hm; apply M2, M1, Hm|].
    split.
    { intros r e [Heq|Hin].
      - inversion Heq as [[Hr Hx]]. apply M2. rewrite L1.
        rewrite (outcome_raised repo rp st e Hx). subst r.
        apply in_or_app. right. left. reflexivity.
      - exact (W2 _ _ Hin). }
    split.
    { intros Hnone.
      rewrite N2.
      - apply outcome_skip. apply (Hnone repo). left. reflexivity.
      - intros r x Hin. apply (Hnone r x). right. exact Hin. }
    intros Haware Hsel.
    assert (Haware' : all_aware ((seen ++ [(repo, read_reply P rp)]) ++ obs')).
    { rewrite <- app_assoc. exact Haware. }
    destruct (selects_step seen st repo rp) as [Hstep Hraise]; [|exact Hsel|].
    { intros r x d Hin Hd. apply (Haware r x d); [|exact Hd].
      apply in_app_or in Hin. apply in_or_app. destruct Hin as [Hin|[Heq|[]]].
      - left. exact Hin.
      - right. left. exact Heq. }
    destruct (A2 Haware' Hstep) as [Hsel' Hlog].
    split.
    { replace (seen ++ (repo, read_reply P rp) :: obs')%list
        with ((seen ++ [(repo, read_reply P rp)]) ++ obs')%list
        by (rewrite <- app_assoc; reflexivity).
      exact Hsel'. }
    intros Hread. rewrite Hlog.
    + rewrite L1, Hraise.
      * rewrite <- app_assoc. f_equal. unfold skip_warnings. simpl.
        destruct (read_reply P rp) as [[e|]|d s]; reflexivity.
      * intros r d s [Heq|[]]. apply (Hread r d s). left. exact Heq.
    + intros r d s Hin. apply (Hread r d s). right. exact Hin.
Qed.

Lemma observed_names app_id repos : forall n r x,
  In (r, x) (observed P app_id n repos) -> In r repos.
Proof.
  induction repos as [|repo rest IH]; intros n r x Hin; [destruct Hin|].
  destruct Hin as [Heq|Hin].
  - inversion Heq. left. reflexivity.
  - right. exact (IH _ _ _ Hin).
Qed.

Lemma selects_picks cands st :
  (forall r x, In (r, x) cands -> r <> "") ->
  selects cands st -> picks cands (selected_info st).
Proof.
  intros Hne. unfold selects, selected_info.
  destruct (selected_repo st) as [r|].
  - intros (d & s & Hd & Hmax & Hsha).
    assert (Ht : PyStr.truthy r = true).
    { unfold PyStr.truthy. destruct (String.eqb_spec r ""); [|reflexivity].
      exfalso. apply (Hne r (Dated d s)); [|assumption].
      exact (first_max_In _ _ _ _ Hmax). }
    rewrite Ht. simpl. exists d, s. auto.
  - intros [_ Hnone]. exact Hnone.
Qed.

(** [get_latest_repo_info] always returns, after one request per candidate *)
Lemma get_latest_repo_info_run repos app_id w :
  let obs := observed P app_id (length (sent w)) repos in
  exists res w',
    get_latest_repo_info P repos app_id w = (Ok res, w') /\
    sent w' = (sent w ++ map (fun r => branch_url P r app_id) repos)%list /\
    same_store w w' /\
    (forall r e, In (r, Skip (Some e)) obs -> In (warning_of r e) (log w')) /\
    (none_dated obs -> res = None /\ (forall m, In m (log w) -> In m (log w'))) /\
    (all_aware obs -> (forall r, In r repos -> r <> "") ->
     picks obs res /\
     (sha_readable obs -> log w' = (log w ++ skip_warnings obs)%list)).
Proof.
  intros obs.
  destruct (query_candidates_run app_id repos no_selection w [])
    as (st' & w' & E & S & F & M & W & N & A).
  fold obs in W, N, A. simpl in A.
  exists (selected_info st'), w'. unfold get_latest_repo_info, bind. rewrite E.
  split; [reflexivity|]. split; [exact S|]. split; [exact F|].
  split; [exact W|]. split.
  - intros Hnone. rewrite (N Hnone). split; [reflexivity|exact M].
  - intros Haware Hne. destruct (A Haware) as [Hsel Hlog].
    + split; [reflexivity|]. intros ? ? [].
    + split; [|exact Hlog]. apply selects_picks; [|exact Hsel].
      intros r x Hin. apply Hne. exact (observed_names _ _ _ _ _ Hin).
Qed.

End SelectorFacts.

(** ** The selector and what the candidates hold *)













(** ** Sorting the depot map *)

Module SortFacts.

Import PySort.

Lemma insert_desc_Forall (Q : Z * string -> Prop) x l :
  Q x -> Forall Q l -> Forall Q (insert_desc x l).
Proof.
  intros Hx Hl. induction Hl as [|y l' Hy Hl' IH]; simpl.
  - constructor; [exact Hx|constructor].
  - destruct (fst x <? fst y).
    + constructor; [exact Hy|exact IH].
    + constructor; [exact Hx|]. constructor; assumption.
Qed.

Lemma insert_desc_sorted x l :
  StronglySorted key_ge l -> StronglySorted key_ge (insert_desc x l).
Proof.
  intros Hs. induction Hs as [|y l' Hs' IH Hy]; simpl.
  - constructor; constructor.
  - destruct (fst x <? fst y) eqn:Hlt.
    + apply Z.ltb_lt in Hlt. constructor; [exact IH|].
      apply insert_desc_Forall; [unfold key_ge; lia|exact Hy].
    + apply Z.ltb_ge in Hlt. constructor.
      * constructor; assumption.
      * constructor; [unfold key_ge; lia|].
        eapply List.Forall_impl; [|exact Hy]. unfold key_ge. intros a Ha. lia.
Qed.

Lemma insert_desc_perm x l : Permutation (x :: l) (insert_desc x l).
Proof.
  induction l as [|y l' IH]; simpl; [reflexivity|].
  destruct (fst x <? fst y); [|reflexivity].
  rewrite perm_swap. apply perm_skip. exact IH.
Qed.

Lemma sort_keyed_sorted l : StronglySorted key_ge (sort_keyed l).
Proof.
  induction l as [|x l' IH]; simpl; [constructor|].
  apply insert_desc_sorted. exact IH.
Qed.

Lemma sort_keyed_perm l : Permutation l (sort_keyed l).
Proof.
  induction l as [|x l' IH]; simpl; [reflexivity|].
  rewrite <- insert_desc_perm. apply perm_skip. exact IH.
Qed.

Lemma keyed_spec l : forall kl,
  keyed l = Ok kl ->
  Forall (fun p => PyInt.int (snd p) = Ok (fst p)) kl /\ map snd kl = l.
Proof.
  induction l as [|x l' IH]; simpl; intros kl H.
  - inversion H. split; [constructor|reflexivity].
  - unfold rbind in H. destruct (PyInt.int x) as [k|e] eqn:Hk; [|discriminate].
    destruct (keyed l') as [kl'|e]; [|discriminate].
    inversion H; subst. destruct (IH kl' eq_refl) as [Hall Hmap].
    split; [constructor; [exact Hk|exact Hall]|]. simpl. rewrite Hmap. reflexivity.
Qed.

Lemma sorted_fst kl :
  StronglySorted key_ge kl -> StronglySorted Z.ge (map fst kl).
Proof.
  induction 1 as [|y l' Hs IH Hy]; simpl; constructor; [exact IH|].
  apply Forall_map. exact Hy.
Qed.

Lemma sorted_strict ks :
  StronglySorted Z.ge ks -> List.NoDup ks -> StronglySorted Z.gt ks.
Proof.
  induction 1 as [|k l' Hs IH Hk]; intros Hnd; constructor.
  - apply IH. inversion Hnd; assumption.
  - inversion Hnd as [|? ? Hnotin Hnd']; subst.
    rewrite List.Forall_forall in *. intros z Hz.
    specialize (Hk z Hz). assert (z <> k) by (intros ->; exact (Hnotin Hz)). lia.
Qed.

(** the sort returns the identifiers it was given, largest value first *)
Lemma sort_by_int_desc_spec l l' :
  sort_by_int_desc l = Ok l' ->
  Permutation l l' /\
  exists ks, int_values l' ks /\ StronglySorted Z.ge ks /\
             (List.NoDup ks -> StronglySorted Z.gt ks).
Proof.
  unfold sort_by_int_desc, rbind. destruct (keyed l) as [kl|e] eqn:Hk; [|discriminate].
  intros H. inversion H; subst. destruct (keyed_spec l kl Hk) as [Hall Hmap].
  split.
  - rewrite <- Hmap. apply Permutation_map, sort_keyed_perm.
  - exists (map fst (sort_keyed kl)).
    assert (Hs : StronglySorted Z.ge (map fst (sort_keyed kl)))
      by (apply sorted_fst, sort_keyed_sorted).
    split; [|split; [exact Hs|apply sorted_strict; exact Hs]].
    unfold int_values. rewrite !map_map. apply map_ext_in.
    intros p Hp. rewrite List.Forall_forall in Hall. apply Hall.
    exact (Permutation_in _ (Permutation_sym (sort_keyed_perm kl)) Hp).
Qed.

Lemma sort_depot_map_spec m : forall m',
  sort_depot_map m = Ok m' ->
  forall k l', In (k, l') m' ->
  exists l, In (k, l) m /\ sort_by_int_desc l = Ok l'.
Proof.
  induction m as [|[k0 vs] rest IH]; simpl; intros m' H k l' Hin.
  - inversion H; subst. destruct Hin.
  - unfold rbind in H.
    destruct (sort_by_int_desc vs) as [vs'|e] eqn:Hs; [|discriminate].
    destruct (sort_depot_map rest) as [rest'|e]; [|discriminate].
    inversion H; subst. destruct Hin as [Heq|Hin].
    + inversion Heq; subst. exists vs. split; [left; reflexivity|exact Hs].
    + destruct (IH rest' eq_refl k l' Hin) as (l & Hl & Hsl).
      exists l. split; [right; exact Hl|exact Hsl].
Qed.

End SortFacts.

(** ** Inverting a sequence of steps *)

Lemma bind_Ok {A B} (m : M A) (k : A -> M B) w b w' :
  bind m k w = (Ok b, w') ->
  exists a w1, m w = (Ok a, w1) /\ k a w1 = (Ok b, w').
Proof.
  unfold bind. destruct (m w) as [[a|e] w1]; intros H; [|discriminate].
  exists a, w1. split; [reflexivity|exact H].
Qed.

Lemma lift_Ok {A} (r : result A) w a w' :
  lift r w = (Ok a, w') -> r = Ok a /\ w' = w.
Proof. unfold lift. intros H. inversion H. split; reflexivity. Qed.

Lemma ret_Ok {A} (x : A) w a w' :
  ret x w = (Ok a, w') -> a = x /\ w' = w.
Proof. unfold ret. intros H. inversion H. split; reflexivity. Qed.

(** ** Frames and steadiness of the steps *)

Section Steps.

Context {A B : Type}.

Lemma frames_ret (a : A) : frames (ret a).
Proof. intros w. apply same_store_refl. Qed.

Lemma frames_raise (e : exn) : frames (@raise A e).
Proof. intros w. apply same_store_refl. Qed.

Lemma frames_lift (r : result A) : frames (lift r).
Proof. intros w. apply same_store_refl. Qed.

Lemma frames_bind (m : M A) (k : A -> M B) :
  frames m -> (forall a, frames (k a)) -> frames (bind m k).
Proof.
  intros Hm Hk w. unfold bind. specialize (Hm w).
  destruct (m w) as [[a|e] w1]; simpl in *; [|exact Hm].
  eapply same_store_trans; [exact Hm|apply Hk].
Qed.

Lemma frames_try_except (body : M A) (handler : exn -> M A) :
  frames body -> (forall e, frames (handler e)) -> frames (try_except body handler).
Proof.
  intros Hm Hk w. unfold try_except. specialize (Hm w).
  destruct (body w) as [[a|e] w1]; simpl in *; [exact Hm|].
  eapply same_store_trans; [exact Hm|apply Hk].
Qed.






End Steps.

Lemma frames_logger lvl msg : frames (logger lvl msg).
Proof. intros w. repeat split. Qed.


Section NetworkSteps.

Context (P : platform).

Lemma frames_client_get url : frames (client_get P url).
Proof. intros w. repeat split. Qed.


Lemma frames_try_endpoint t repo sha path : frames (try_endpoint P t repo sha path).
Proof.
  apply frames_try_except.
  - apply frames_bind; [apply frames_client_get|].
    intros r. destruct (status_code r =? 200); apply frames_ret.
  - intros e. apply frames_bind; [apply frames_logger|intros; apply frames_ret].
Qed.


Lemma frames_try_endpoints cdn_list repo sha path :
  frames (try_endpoints P cdn_list repo sha path).
Proof.
  induction cdn_list as [|t rest IH]; simpl; [apply frames_ret|].
  apply frames_bind; [apply frames_try_endpoint|].
  intros [c|]; [apply frames_ret|exact IH].
Qed.


Lemma frames_fetch_rounds n cdn_list repo sha path :
  frames (fetch_rounds P n cdn_list repo sha path).
Proof.
  induction n as [|n IH]; simpl; [apply frames_ret|].
  apply frames_bind; [apply frames_try_endpoints|].
  intros [c|]; [apply frames_ret|exact IH].
Qed.


Lemma frames_fetch_file repo sha path : frames (fetch_file P repo sha path).
Proof.
  intros w. unfold fetch_file.
  apply (frames_bind (fetch_rounds P 3 (cdn_list_of P w) repo sha path)).
  - apply frames_fetch_rounds.
  - intros [c|]; [apply frames_ret|apply frames_raise].
Qed.


Lemma frames_query_candidates app_id repos st :
  frames (query_candidates P app_id repos st).
Proof.
  intros w.
  destruct (query_candidates_run P app_id repos st w []) as (st' & w' & E & _ & F & _).
  rewrite E. exact F.
Qed.


Lemma frames_get_latest_repo_info repos app_id :
  frames (get_latest_repo_info P repos app_id).
Proof.
  apply frames_bind; [apply frames_query_candidates|intros; apply frames_ret].
Qed.


Lemma frames_check_status r : frames (check_status P r).
Proof.
  unfold check_status. destruct (raise_for_status P r);
    [apply frames_raise|apply frames_ret].
Qed.


Lemma frames_resolve_tree app_id : frames (resolve_tree P app_id).
Proof.
  unfold resolve_tree.
  apply frames_bind; [apply frames_ret|intros _].
  apply frames_bind; [apply frames_get_latest_repo_info|intros [ri|]];
    [|apply frames_ret].
  apply frames_bind; [apply frames_logger|intros _].
  apply frames_bind; [apply frames_logger|intros _].
  apply frames_bind; [apply frames_client_get|intros br].
  apply frames_bind; [apply frames_check_status|intros _].
  apply frames_bind; [apply frames_lift|intros tu].
  apply frames_bind; [apply frames_client_get|intros tr].
  apply frames_bind; [apply frames_check_status|intros _].
  apply frames_bind; [apply frames_lift|intros items].
  apply frames_ret.
Qed.


(** [handle_depot_files] is the resolution followed by the loop and the sort *)
Lemma handle_depot_files_split app_id w :
  handle_depot_files P app_id w =
  bind (resolve_tree P app_id)
       (fun o => match o with
                 | None => ret ([], [])
                 | Some (ri, items) => walk_and_sort P ri items
                 end) w.
Proof.
  unfold handle_depot_files, resolve_tree, walk_and_sort, bind, mkdir, ret.
  destruct (get_latest_repo_info P (REPO_LIST P) app_id w) as [[[ri|]|e] w1];
    try reflexivity.
  destruct (logger INFO _ w1) as [[[]|e] w2]; [|reflexivity].
  destruct (logger INFO _ w2) as [[[]|e] w3]; [|reflexivity].
  destruct (client_get P _ w3) as [[br|e] w4]; [|reflexivity].
  destruct (check_status P br w4) as [[[]|e] w5]; [|reflexivity].
  destruct (lift (tree_url_of br) w5) as [[tu|e] w6]; [|reflexivity].
  destruct (client_get P tu w6) as [[tr|e] w7]; [|reflexivity].
  destruct (check_status P tr w7) as [[[]|e] w8]; [|reflexivity].
  destruct (lift (tree_items tr) w8) as [[items|e] w9]; reflexivity.
Qed.

End NetworkSteps.

(** ** What the steps write to the log *)

Section LogSteps.

Context {A B : Type} (Q : level * string -> Prop).

Lemma logs_ret (a : A) : logs_only Q (ret a).
Proof. intros w. exists []. simpl. rewrite app_nil_r. split; [reflexivity|constructor]. Qed.

Lemma logs_raise (e : exn) : logs_only Q (@raise A e).
Proof. intros w. exists []. simpl. rewrite app_nil_r. split; [reflexivity|constructor]. Qed.


Lemma logs_bind (m : M A) (k : A -> M B) :
  logs_only Q m -> (forall a, logs_only Q (k a)) -> logs_only Q (bind m k).
Proof.
  intros Hm Hk w. unfold bind. destruct (Hm w) as (x1 & E1 & Q1).
  destruct (m w) as [[a|e] w1]; simpl in *; [|exists x1; split; assumption].
  destruct (Hk a w1) as (x2 & E2 & Q2).
  exists (x1 ++ x2)%list. rewrite E2, E1, <- app_assoc.
  split; [reflexivity|]. apply Forall_app. split; assumption.
Qed.

Lemma logs_try_except (body : M A) (handler : exn -> M A) :
  logs_only Q body -> (forall e, logs_only Q (handler e)) ->
  logs_only Q (try_except body handler).
Proof.
  intros Hm Hk w. unfold try_except. destruct (Hm w) as (x1 & E1 & Q1).
  destruct (body w) as [[a|e] w1]; simpl in *; [exists x1; split; assumption|].
  destruct (Hk e w1) as (x2 & E2 & Q2).
  exists (x1 ++ x2)%list. rewrite E2, E1, <- app_assoc.
  split; [reflexivity|]. apply Forall_app. split; assumption.
Qed.

Lemma logs_logger lvl msg : Q (lvl, msg) -> logs_only Q (logger lvl msg).
Proof.
  intros Hq w. exists [(lvl, msg)]. split; [reflexivity|].
  constructor; [exact Hq|constructor].
Qed.

End LogSteps.


Section LogNetworkSteps.

Context (P : platform).

Lemma logs_client_get Q url : logs_only Q (client_get P url).
Proof.
  intros w. exists []. simpl. rewrite app_nil_r. split; [reflexivity|constructor].
Qed.




End LogNetworkSteps.

(** ** The depot map *)

Lemma lookup_setdefault_append k d m dm :
  depot_lookup k (setdefault_append d m dm) =
  if String.eqb k d
  then Some (match depot_lookup d dm with Some l => l | None => [] end ++ [m])%list
  else depot_lookup k dm.
Proof.
  induction dm as [|[k' vs] rest IH]; simpl.
  - destruct (String.eqb_spec k d); reflexivity.
  - destruct (String.eqb_spec d k') as [->|Hne]; simpl.
    + destruct (String.eqb_spec k k'); reflexivity.
    + rewrite IH. destruct (String.eqb_spec k d) as [->|Hkd].
      * destruct (String.eqb_spec d k'); [contradiction|reflexivity].
      * reflexivity.
Qed.

Lemma record_manifest_recorded P path dm :
  record_manifest P path dm =
  match recorded P path with
  | Some (depot, manifest) => setdefault_append depot manifest dm
  | None => dm
  end.
Proof.
  unfold record_manifest, recorded.
  destruct (parse_manifest_filename P path) as [[d|] [m|]]; try reflexivity.
  destruct (PyStr.truthy d && PyStr.truthy m); reflexivity.
Qed.

(** ** One entry of the tree *)

Section WalkFacts.

Context (P : platform).

Lemma obtain_manifest_present ri path w c :
  fs w !! save_path_of path = Some c ->
  obtain_manifest P ri path w =
  (Ok tt, set_log w (log w ++ [(WARNING, "Manifest already exists: " ++ save_path_of path)])).
Proof.
  intros H. unfold obtain_manifest, bind, path_exists.
  rewrite bool_decide_eq_true_2; [reflexivity|]. rewrite H. eauto.
Qed.

Lemma obtain_manifest_absent ri path w :
  fs w !! save_path_of path = None ->
  obtain_manifest P ri path w =
  match fetch_file P (name ri) (sha ri) path w with
  | (Ok content, w1) =>
      (Ok tt, World (sent w1) (<[save_path_of path := content]> (fs w1))
                    ({[path]} ∪ downloaded_files w1) (is_cn w1)
                    (log w1 ++ [(INFO, "Manifest downloaded: " ++ path)]))
  | (Raise e, w1) => (Raise e, w1)
  end.
Proof.
  intros H. unfold obtain_manifest, bind, path_exists.
  rewrite bool_decide_eq_false_2; [|rewrite H; intros [? ?]; discriminate].
  destruct (fetch_file P (name ri) (sha ri) path w) as [[c|e] w1]; reflexivity.
Qed.

Lemma walk_item_manifest ri item path acc w :
  item_path item = Ok path ->
  PyStr.endswith path ".manifest" = true ->
  walk_item P ri item acc w =
  match obtain_manifest P ri path w with
  | (Ok _, w') => (Ok (fst acc, record_manifest P path (snd acc)), w')
  | (Raise e, w') => (Raise e, w')
  end.
Proof.
  intros Hp He. unfold walk_item, bind at 1, lift. rewrite Hp, He.
  unfold bind, ret. destruct (obtain_manifest P ri path w) as [[[]|e] w']; reflexivity.
Qed.

(** an entry only adds paths to the storage and leaves the flag alone *)
Lemma walk_item_grows ri item acc w r w' :
  walk_item P ri item acc w = (r, w') ->
  fs_grows w w' /\ is_cn w' = is_cn w.
Proof.
  destruct (item_path item) as [path|e] eqn:Hp.
  2:{ unfold walk_item, bind, lift. rewrite Hp. intros E. inversion E; subst.
      split; [intros p; auto|reflexivity]. }
  destruct (PyStr.endswith path ".manifest") eqn:He.
  - rewrite (walk_item_manifest ri item path acc w Hp He).
    destruct (fs w !! save_path_of path) as [c|] eqn:Hfs.
    + rewrite (obtain_manifest_present ri path w c Hfs). intros E. inversion E; subst.
      split; [intros p; auto|reflexivity].
    + rewrite (obtain_manifest_absent ri path w Hfs).
      pose proof (frames_fetch_file P (name ri) (sha ri) path w) as (F & _ & C).
      destruct (fetch_file P (name ri) (sha ri) path w) as [[c|e] w1]; simpl in *;
        intros E; inversion E; subst; simpl.
      * split; [|exact C]. intros p Hsome. simpl. rewrite F.
        destruct (decide (save_path_of path = p)) as [->|Hne].
        -- rewrite lookup_insert_eq. eauto.
        -- rewrite lookup_insert_ne; assumption.
      * split; [|exact C]. intros p. rewrite F. auto.
  - unfold walk_item, bind at 1, lift. rewrite Hp, He.
    destruct (PyStr.contains "key.vdf" (PyStr.lower path)).
    + unfold bind, lift, ret.
      pose proof (frames_fetch_file P (name ri) (sha ri) path w) as (F & _ & C).
      destruct (fetch_file P (name ri) (sha ri) path w) as [[c|e] w1]; simpl in *.
      * destruct (parse_key_file P c); intros E; inversion E; subst;
          (split; [intros p; rewrite F; auto|exact C]).
      * intros E; inversion E; subst. split; [intros p; rewrite F; auto|exact C].
    + intros E. inversion E; subst. split; [intros p; auto|reflexivity].
Qed.

Lemma walk_tree_grows ri items : forall acc w r w',
  walk_tree P ri items acc w = (r, w') ->
  fs_grows w w' /\ is_cn w' = is_cn w.
Proof.
  induction items as [|item rest IH]; intros acc w r w'; simpl.
  - intros E. inversion E; subst. split; [intros p; auto|reflexivity].
  - unfold bind. destruct (walk_item P ri item acc w) as [[acc1|e] w1] eqn:E1;
      destruct (walk_item_grows ri item acc w _ _ E1) as [G C]; intros E.
    + destruct (IH acc1 w1 r w' E) as [G' C']. split; [|congruence].
      intros p Hp. apply G', G, Hp.
    + inversion E; subst. split; assumption.
Qed.

(** after a manifest entry went through, its file is there *)
Lemma walk_item_stores ri item path acc w acc' w' :
  item_path item = Ok path ->
  PyStr.endswith path ".manifest" = true ->
  walk_item P ri item acc w = (Ok acc', w') ->
  is_Some (fs w' !! save_path_of path).
Proof.
  intros Hp He. rewrite (walk_item_manifest ri item path acc w Hp He).
  destruct (fs w !! save_path_of path) as [c|] eqn:Hfs.
  - rewrite (obtain_manifest_present ri path w c Hfs). intros H. inversion H; subst.
    simpl. rewrite Hfs. eauto.
  - rewrite (obtain_manifest_absent ri path w Hfs).
    destruct (fetch_file P (name ri) (sha ri) path w) as [[c|e] w1]; intros H;
      inversion H; subst. simpl. rewrite lookup_insert_eq. eauto.
Qed.



Lemma walk_tree_stores ri items : forall acc w acc' w1,
  walk_tree P ri items acc w = (Ok acc', w1) ->
  forall item path, In item items -> item_path item = Ok path ->
  PyStr.endswith path ".manifest" = true ->
  is_Some (fs w1 !! save_path_of path).
Proof.
  induction items as [|it rest IH]; intros acc w acc' w1 E item path Hin Hp He;
    [destruct Hin|].
  simpl in E. apply bind_Ok in E. destruct E as (acc1 & wa & E1 & E2).
  destruct Hin as [->|Hin].
  - destruct (walk_tree_grows ri rest acc1 wa _ _ E2) as [G _].
    apply G. exact (walk_item_stores ri item path acc w acc1 wa Hp He E1).
  - exact (IH acc1 wa acc' w1 E2 item path Hin Hp He).
Qed.





End WalkFacts.


(** C5.  For a tree entry whose path ends in [.manifest]: when its
    destination exists, nothing is fetched and nothing is written (the
    requests, the storage and the downloaded set stay as they are; a warning
    is logged); when it does not, the content is fetched and, if the fetch
    returns, written to the destination and the path added to the downloaded
    set.  In both branches the name is parsed and, when both tokens are
    there, the manifest id is appended to the list of its depot, which is
    created when absent; the other depots are left alone. *)
Theorem manifest_entry_step (P : platform) (ri : RepoInfo) (item : json)
    (path : string) (acc : list DepotInfo * depot_map) (w : world) :
  item_path item = Ok path ->
  PyStr.endswith path ".manifest" = true ->
  let save_path := save_path_of path in
  let acc' := (fst acc, record_manifest P path (snd acc)) in
  match fs w !! save_path with
  | Some _ =>
      exists w',
        walk_item P ri item acc w = (Ok acc', w') /\
        sent w' = sent w /\ fs w' = fs w /\
        downloaded_files w' = downloaded_files w /\
        log w' = (log w ++ [(WARNING, ("Manifest already exists: " ++ save_path)%string)])%list
  | None =>
      match fetch_file P (name ri) (sha ri) path w with
      | (Ok content, w1) =>
          exists w',
            walk_item P ri item acc w = (Ok acc', w') /\
            sent w' = sent w1 /\
            fs w' = <[save_path := content]> (fs w) /\
            downloaded_files w' = {[path]} ∪ downloaded_files w /\
            log w' = (log w1 ++ [(INFO, ("Manifest downloaded: " ++ path)%string)])%list
      | (Raise e, w1) => walk_item P ri item acc w = (Raise e, w1)
      end
  end /\
  forall k,
    depot_lookup k (snd acc') =
    match recorded P path with
    | Some (depot, manifest) =>
        if String.eqb k depot
        then Some (match depot_lookup depot (snd acc) with
                   | Some l => l
                   | None => []
                   end ++ [manifest])%list
        else depot_lookup k (snd acc)
    | None => depot_lookup k (snd acc)
    end.
Proof.
  intros Hp He save_path acc'. split.
  - rewrite (walk_item_manifest P ri item path acc w Hp He). subst save_path.
    destruct (fs w !! save_path_of path) as [c|] eqn:Hfs.
    + rewrite (obtain_manifest_present P ri path w c Hfs).
      eexists. split; [reflexivity|]. simpl. auto.
    + rewrite (obtain_manifest_absent P ri path w Hfs).
      pose proof (frames_fetch_file P (name ri) (sha ri) path w) as (F & D & _).
      destruct (fetch_file P (name ri) (sha ri) path w) as [[c|e] w1]; [|reflexivity].
      simpl in F, D. eexists. split; [reflexivity|]. simpl. rewrite F, D. auto.
  - intros k. subst acc'. simpl. rewrite record_manifest_recorded.
    destruct (recorded P path) as [[d m]|]; [|reflexivity].
    apply lookup_setdefault_append.
Qed.

(** ** The Filename Classifier *)

Module ClassifierFacts.

Import Classifier.

Lemma append_assoc (a b c : string) : ((a ++ b) ++ c = a ++ (b ++ c))%string.
Proof.
  induction a as [|x a IH]; [reflexivity|].
  change (String x ((a ++ b) ++ c) = String x (a ++ (b ++ c)))%string.
  rewrite IH. reflexivity.
Qed.

Lemma strip_suffix_sound s : forall stem,
  strip_suffix s = Some stem -> s = stem ++ ".manifest".
Proof.
  induction s as [|c s' IH]; intros stem H.
  - simpl in H. discriminate.
  - cbn [strip_suffix] in H.
    destruct (String.eqb_spec (String c s') ".manifest") as [E|_].
    + inversion H; subst. exact E.
    + destruct (strip_suffix s') as [t|]; [|discriminate].
      inversion H; subst. simpl. rewrite (IH _ eq_refl). reflexivity.
Qed.

Lemma split_underscore_sound s : forall a b,
  split_underscore s = Some (a, b) -> s = a ++ "_" ++ b.
Proof.
  induction s as [|c s' IH]; intros a b H; [discriminate|].
  simpl in H. destruct (Ascii.eqb_spec c "_") as [->|_].
  - inversion H; subst. reflexivity.
  - destruct (split_underscore s') as [[a' b']|]; [|discriminate].
    inversion H; subst. simpl. rewrite (IH _ _ eq_refl). reflexivity.
Qed.

Lemma split_underscore_none s :
  PyStr.contains "_" s = false -> split_underscore s = None.
Proof.
  induction s as [|c s' IH]; intros H; [reflexivity|].
  change (PyStr.contains "_" (String c s'))
    with ((Ascii.eqb "_" c && PyStr.startswith s' "") || PyStr.contains "_" s')%bool in H.
  apply orb_false_iff in H. destruct H as [H1 H2].
  assert (Hs : PyStr.startswith s' "" = true) by (destruct s'; reflexivity).
  rewrite Hs, andb_true_r in H1.
  simpl. rewrite Ascii.eqb_sym, H1, (IH H2). reflexivity.
Qed.

(** the classifier answers either both tokens of a name that follows the
    convention, or [(None, None)] *)
Lemma parse_manifest_filename_cases filename :
  (exists depot manifest,
      parse_manifest_filename filename = (Some depot, Some manifest) /\
      numeric depot = true /\ numeric manifest = true /\
      filename = depot ++ "_" ++ manifest ++ ".manifest") \/
  parse_manifest_filename filename = (None, None).
Proof.
  unfold parse_manifest_filename.
  destruct (strip_suffix filename) as [stem|] eqn:Hs; [|right; reflexivity].
  destruct (split_underscore stem) as [[d m]|] eqn:Hu; [|right; reflexivity].
  destruct (numeric d) eqn:Hd; [|right; reflexivity].
  destruct (numeric m) eqn:Hm; [|right; reflexivity].
  left. exists d, m. simpl. repeat split; try assumption.
  rewrite (strip_suffix_sound _ _ Hs), (split_underscore_sound _ _ _ Hu).
  rewrite !append_assoc. reflexivity.
Qed.

Lemma off_convention filename :
  ~ follows_convention filename ->
  parse_manifest_filename filename = (None, None).
Proof.
  intros Hoff. destruct (parse_manifest_filename_cases filename)
    as [(d & m & _ & Hd & Hm & E)|H]; [|exact H].
  exfalso. apply Hoff. exists d, m. auto.
Qed.

End ClassifierFacts.

Lemma no_separator_off_convention filename :
  PyStr.contains "_" filename = false -> ~ Classifier.follows_convention filename.
Proof.
  intros Hno (d & m & _ & _ & ->).
  assert (H : forall a b, PyStr.contains "_" (a ++ "_" ++ b) = true).
  { induction a as [|c a IH]; intros b.
    - destruct b; reflexivity.
    - change (PyStr.contains "_" (String c (a ++ "_" ++ b)) = true).
      cbn [PyStr.contains]. rewrite IH. apply orb_true_r. }
  rewrite H in Hno. discriminate.
Qed.

(** C9.  With the Filename Classifier of the specification, a tree entry
    whose path ends in [.manifest] but does not follow the convention
    [<depotId>_<manifestId>.manifest] is answered [(None, None)], leaves the
    depot map and the depot-key list as they are, and does not make the
    walker fail: the entry returns whenever obtaining its file did. *)
Theorem malformed_name_is_skipped (P : platform) (ri : RepoInfo) (item : json)
    (path : string) (acc : list DepotInfo * depot_map) (w : world) :
  parse_manifest_filename P = Classifier.parse_manifest_filename ->
  item_path item = Ok path ->
  PyStr.endswith path ".manifest" = true ->
  ~ Classifier.follows_convention path ->
  parse_manifest_filename P path = (None, None) /\
  walk_item P ri item acc w =
  match obtain_manifest P ri path w with
  | (Ok _, w') => (Ok acc, w')
  | (Raise e, w') => (Raise e, w')
  end.
Proof.
  intros Hc Hp He Hoff.
  assert (Hnone : parse_manifest_filename P path = (None, None)).
  { rewrite Hc. apply ClassifierFacts.off_convention. exact Hoff. }
  split; [exact Hnone|].
  rewrite (walk_item_manifest P ri item path acc w Hp He).
  unfold record_manifest. rewrite Hnone. destruct acc as [dl dm]. reflexivity.
Qed.

(** C8.  When no candidate of [REPO_LIST] offers a commit date for the
    application id, [get_latest_repo_info] returns [None] and
    [handle_depot_files] returns the empty depot-key list and the empty depot
    map; it does not raise, the only requests sent are the branch queries of
    the candidates, and the storage and the downloaded set are untouched. *)
Theorem no_match_gives_empty_result (P : platform) (app_id : string) (w : world) :
  none_dated (observed P app_id (length (sent w)) (REPO_LIST P)) ->
  exists w',
    get_latest_repo_info P (REPO_LIST P) app_id w = (Ok None, w') /\
    handle_depot_files P app_id w = (Ok ([], []), w') /\
    sent w' = (sent w ++ map (fun r => branch_url P r app_id) (REPO_LIST P))%list /\
    fs w' = fs w /\
    downloaded_files w' = downloaded_files w.
Proof.
  intros Hnone.
  destruct (get_latest_repo_info_run P (REPO_LIST P) app_id w)
    as (res & w' & E & S & (F & D & _) & _ & N & _).
  destruct (N Hnone) as [-> _].
  exists w'. split; [exact E|]. split.
  - unfold handle_depot_files, bind at 1, mkdir, ret. unfold bind. rewrite E. reflexivity.
  - auto.
Qed.


(** ** The Rate Limit Monitor *)

Lemma append_not_empty (a b : string) : b <> "" -> (a ++ b)%string <> "".
Proof.
  intros Hb. destruct a as [|c a]; [exact Hb|].
  change ((String c a ++ b)%string) with (String c (a ++ b)%string). discriminate.
Qed.

Lemma format_local_not_empty local : PyTime.format_local local <> "".
Proof.
  unfold PyTime.format_local.
  destruct (PyTime.civil_from_days (local / 86400)) as [[y m] d].
  apply append_not_empty. discriminate.
Qed.

Lemma strftime_localtime_not_empty offset t s :
  PyTime.strftime_localtime offset t = Ok s -> s <> "".
Proof.
  unfold PyTime.strftime_localtime.
  destruct ((t <? - 2 ^ 63) || (2 ^ 63 <=? t)); [discriminate|].
  destruct (PyTime.civil_from_days ((t + offset t) / 86400)) as [[y m] d].
  destruct ((y - 1900 <? - 2 ^ 31) || (2 ^ 31 <=? y - 1900)); [discriminate|].
  destruct (2 ^ 31 <=? y); [discriminate|].
  intros H. inversion H. apply format_local_not_empty.
Qed.

(** in November 2023 the local date is well inside the platform's range,
    whatever the zone *)
Lemma strftime_example offset :
  -86400 < offset 1700000000 < 86400 ->
  exists s, PyTime.strftime_localtime offset 1700000000 = Ok s /\ s <> "".
Proof.
  intros Hoff. unfold PyTime.strftime_localtime.
  change ((1700000000 <? - 2 ^ 63) || (2 ^ 63 <=? 1700000000)) with false.
  cbv iota.
  set (days := (1700000000 + offset 1700000000) / 86400).
  assert (Hd : days = 19674 \/ days = 19675 \/ days = 19676).
  { subst days.
    assert (19674 <= (1700000000 + offset 1700000000) / 86400)
      by (apply Z.div_le_lower_bound; lia).
    assert ((1700000000 + offset 1700000000) / 86400 < 19677)
      by (apply Z.div_lt_upper_bound; lia).
    lia. }
  assert (Hy : exists m d, PyTime.civil_from_days days = (2023, m, d)).
  { destruct Hd as [-> | [-> | ->]]; eexists; eexists; vm_compute; reflexivity. }
  destruct Hy as (m & d & Hy). rewrite Hy.
  change ((2023 - 1900 <? - 2 ^ 31) || (2 ^ 31 <=? 2023 - 1900)) with false.
  change (2 ^ 31 <=? 2023) with false.
  cbv iota. eexists. split; [reflexivity|apply format_local_not_empty].
Qed.

Section RateLimitFacts.

Context (P : platform).

(** the successful path of [check_rate_limit], step by step *)
Lemma check_rate_limit_success w r kvs fields s :
  net P (length (sent w)) (GITHUB_API_BASE P ++ "/rate_limit") = Ok r ->
  status_code r = 200 ->
  body_json r = Ok (JDict kvs) ->
  field_or kvs "rate" (JDict []) = JDict fields ->
  format_reset P (field_or fields "reset" (JInt 0)) = Ok s ->
  exists w',
    check_rate_limit P w =
    (Ok (JDict [("limit", field_or fields "limit" (JInt 60));
                ("remaining", field_or fields "remaining" (JInt 0));
                ("reset", field_or fields "reset" (JInt 0));
                ("used", field_or fields "used" (JInt 0));
                ("reset_formatted", JStr s);
                ("reset_relative",
                 JStr ("<t:" ++ py_str P (field_or fields "reset" (JInt 0)) ++ ":R>"))]),
     w').
Proof.
  intros Hnet Hst Hbody Hrate Hfmt.
  unfold check_rate_limit, try_except, bind, client_get, lift. rewrite Hnet.
  rewrite Hst. change (negb (200 =? 200)) with false. cbv iota beta.
  rewrite Hbody.
  change (Py.get (JDict kvs) "rate" (JDict []))
    with (Ok (field_or kvs "rate" (JDict []))).
  rewrite Hrate.
  change (Py.get (JDict fields) "remaining" (JInt 0))
    with (Ok (field_or fields "remaining" (JInt 0))).
  change (Py.get (JDict fields) "limit" (JInt 60))
    with (Ok (field_or fields "limit" (JInt 60))).
  change (Py.get (JDict fields) "reset" (JInt 0))
    with (Ok (field_or fields "reset" (JInt 0))).
  change (Py.get (JDict fields) "used" (JInt 0))
    with (Ok (field_or fields "used" (JInt 0))).
  cbv iota beta. rewrite Hfmt. eexists. reflexivity.
Qed.

End RateLimitFacts.

(** C7.  [check_rate_limit] never raises: it returns either the error
    marker, a dictionary whose only key ["error"] holds a message that is
    not empty and is logged as an error, or a status without an ["error"]
    key.  A transport error gives the marker with the message
    [Rate limit check failed:] and the text of the exception, a status
    other than 200 gives it with the message that names the status.  For a
    200 reply whose body is the example of the specification, in any real
    time zone, the status has remaining 10, limit 60, used 50 and a
    formatted reset time that is not empty. *)
Theorem check_rate_limit_never_raises (P : platform) (w : world) :
  exists v w',
    check_rate_limit P w = (Ok v, w') /\
    ((exists msg, v = JDict [("error", JStr msg)] /\ msg <> "" /\
                  Py.getitem v "error" = Ok (JStr msg) /\
                  In (ERROR, msg) (log w')) \/
     Py.contains "error" v = Ok false) /\
    match net P (length (sent w)) (GITHUB_API_BASE P ++ "/rate_limit") with
    | Raise e =>
        v = JDict [("error", JStr ("Rate limit check failed: " ++ exn_str e))]
    | Ok r =>
        if status_code r =? 200 then
          body_json r = Ok quota_example ->
          -86400 < utcoffset P 1700000000 < 86400 ->
          Py.getitem v "remaining" = Ok (JInt 10) /\
          Py.getitem v "limit" = Ok (JInt 60) /\
          Py.getitem v "used" = Ok (JInt 50) /\
          Py.contains "error" v = Ok false /\
          exists s, Py.getitem v "reset_formatted" = Ok (JStr s) /\ s <> ""
        else
          v = JDict [("error",
                      JStr ("GitHub rate limit check failed with status "
                            ++ PyInt.str (status_code r)))]
    end.
Proof.
  assert (Hmark : forall msg (w0 : world),
            In (ERROR, msg) (log (set_log w0 (log w0 ++ [(ERROR, msg)])))).
  { intros msg w0. simpl. apply in_or_app. right. left. reflexivity. }
  assert (Hraised : forall e (w0 : world),
            exists msg,
              error_marker ("Rate limit check failed: " ++ exn_str e)
                = JDict [("error", JStr msg)] /\ msg <> "" /\
              Py.getitem (error_marker ("Rate limit check failed: " ++ exn_str e)) "error"
                = Ok (JStr msg) /\
              In (ERROR, msg)
                 (log (set_log w0 (log w0 ++ [(ERROR, ("Rate limit check failed: "
                                                         ++ exn_str e)%string)])))).
  { intros e w0. eexists. split; [reflexivity|]. split; [|split; [reflexivity|apply Hmark]].
    cbv [String.append]. discriminate. }
  destruct (net P (length (sent w)) (GITHUB_API_BASE P ++ "/rate_limit"))
    as [r|e] eqn:Hnet.
  2:{ unfold check_rate_limit, try_except, bind, client_get. rewrite Hnet.
      eexists. eexists. split; [reflexivity|]. split; [|reflexivity].
      left. apply Hraised. }
  destruct (status_code r =? 200) eqn:Hst.
  2:{ unfold check_rate_limit, try_except, bind, client_get. rewrite Hnet, Hst.
      eexists. eexists. split; [reflexivity|]. split; [|reflexivity].
      left. eexists. split; [reflexivity|]. split; [|split; [reflexivity|apply Hmark]].
      cbv [String.append]. discriminate. }
  apply Z.eqb_eq in Hst.
  assert (Hgen : exists v w',
             check_rate_limit P w = (Ok v, w') /\
             ((exists msg, v = JDict [("error", JStr msg)] /\ msg <> "" /\
                           Py.getitem v "error" = Ok (JStr msg) /\
                           In (ERROR, msg) (log w')) \/
              Py.contains "error" v = Ok false)).
  { unfold check_rate_limit, try_except, bind, client_get, lift. rewrite Hnet, Hst.
    change (negb (200 =? 200)) with false. cbv iota beta.
    destruct (body_json r) as [j|e];
      [|eexists; eexists; split; [reflexivity|left; apply Hraised]].
    destruct (Py.get j "rate" (JDict [])) as [rate|e];
      [|eexists; eexists; split; [reflexivity|left; apply Hraised]].
    destruct (Py.get rate "remaining" (JInt 0)) as [a0|e];
      [|eexists; eexists; split; [reflexivity|left; apply Hraised]].
    destruct (Py.get rate "limit" (JInt 60)) as [a1|e];
      [|eexists; eexists; split; [reflexivity|left; apply Hraised]].
    destruct (Py.get rate "reset" (JInt 0)) as [a2|e];
      [|eexists; eexists; split; [reflexivity|left; apply Hraised]].
    destruct (format_reset P a2) as [a3|e];
      [|eexists; eexists; split; [reflexivity|left; apply Hraised]].
    cbn [logger]. cbv iota beta.
    destruct (Py.get rate "used" (JInt 0)) as [a5|e];
      [|eexists; eexists; split; [reflexivity|left; apply Hraised]].
    eexists; eexists; split; [reflexivity|right; reflexivity]. }
  destruct Hgen as (v & w' & E & Hshape). exists v, w'.
  split; [exact E|]. split; [exact Hshape|].
  intros Hbody Hoff.
  destruct (strftime_example (utcoffset P) Hoff) as (s & Hs & Hne).
  destruct (check_rate_limit_success P w r _ _ s Hnet Hst Hbody eq_refl Hs) as (w'' & E').
  rewrite E in E'. inversion E'; subst v.
  repeat split; try reflexivity. exists s. split; [reflexivity|exact Hne].
Qed.

(** C10, as the code has it.  For a reply of status 200, what
    [check_rate_limit] returns is decided by the body.  When the body is an
    object whose ["rate"] is absent or an object, and the reset value (0
    when absent) is one the time functions format, the result is a status
    and not the error marker: each field the body lacks takes its default
    (remaining 0, limit 60, reset 0, used 0), there is no ["error"] key, and
    the quota branch of [cmd_manifest] renders it as a quota report (marked
    exhausted when the remaining count is 0).  In every other case (a body
    that is not JSON or not an object, a ["rate"] that is not an object, a
    reset value the time functions refuse) the result is the error marker
    with the message of the exception. *)
Theorem degenerate_body_reports_defaults (P : platform) (w : world) (r : response) :
  net P (length (sent w)) (GITHUB_API_BASE P ++ "/rate_limit") = Ok r ->
  status_code r = 200 ->
  exists v w',
    check_rate_limit P w = (Ok v, w') /\
    let marker (e : exn) :=
      JDict [("error", JStr ("Rate limit check failed: " ++ exn_str e))] in
    match body_json r with
    | Raise e => v = marker e
    | Ok (JDict kvs) =>
        match field_or kvs "rate" (JDict []) with
        | JDict fields =>
            match format_reset P (field_or fields "reset" (JInt 0)) with
            | Ok s =>
                Py.contains "error" v = Ok false /\
                Py.getitem v "remaining" = Ok (field_or fields "remaining" (JInt 0)) /\
                Py.getitem v "limit" = Ok (field_or fields "limit" (JInt 60)) /\
                Py.getitem v "reset" = Ok (field_or fields "reset" (JInt 0)) /\
                Py.getitem v "used" = Ok (field_or fields "used" (JInt 0)) /\
                limit_msg v =
                  Ok (ApiStatus (field_or fields "used" (JInt 0))
                                (field_or fields "limit" (JInt 60))
                                (field_or fields "remaining" (JInt 0))
                                (JStr ("<t:" ++ py_str P (field_or fields "reset" (JInt 0))
                                       ++ ":R>"))
                                (JStr s)
                                (py_eq_zero (field_or fields "remaining" (JInt 0))))
            | Raise e => v = marker e
            end
        | rate => v = marker (Py.no_attribute rate "get")
        end
    | Ok body => v = marker (Py.no_attribute body "get")
    end.
Proof.
  intros Hnet Hst.
  destruct (body_json r) as [body|e] eqn:Hbody.
  2:{ unfold check_rate_limit, try_except, bind, client_get, lift.
      rewrite Hnet, Hst, Hbody. eexists. eexists. split; reflexivity. }
  assert (Hno : forall j, (forall kvs, j <> JDict kvs) ->
                  Py.get j "rate" (JDict []) = Raise (Py.no_attribute j "get")).
  { intros j Hj. destruct j; try reflexivity. exfalso. exact (Hj kvs eq_refl). }
  destruct body as [| | | | |kvs];
    try (unfold check_rate_limit, try_except, bind, client_get, lift;
         rewrite Hnet, Hst, Hbody; eexists; eexists; split; reflexivity).
  destruct (field_or kvs "rate" (JDict [])) as [| | | | |fields] eqn:Hrate;
    try (unfold check_rate_limit, try_except, bind, client_get, lift;
         rewrite Hnet, Hst, Hbody;
         change (Py.get (JDict kvs) "rate" (JDict []))
           with (Ok (field_or kvs "rate" (JDict [])));
         rewrite Hrate; eexists; eexists; split; reflexivity).
  destruct (format_reset P (field_or fields "reset" (JInt 0))) as [s|e] eqn:Hfmt.
  - destruct (check_rate_limit_success P w r kvs fields s Hnet Hst Hbody Hrate Hfmt)
      as (w' & E).
    eexists. exists w'. split; [exact E|]. repeat split.
  - unfold check_rate_limit, try_except, bind, client_get, lift.
    rewrite Hnet, Hst, Hbody.
    change (Py.get (JDict kvs) "rate" (JDict []))
      with (Ok (field_or kvs "rate" (JDict []))).
    rewrite Hrate.
    change (Py.get (JDict fields) "remaining" (JInt 0))
      with (Ok (field_or fields "remaining" (JInt 0))).
    change (Py.get (JDict fields) "limit" (JInt 60))
      with (Ok (field_or fields "limit" (JInt 60))).
    change (Py.get (JDict fields) "reset" (JInt 0))
      with (Ok (field_or fields "reset" (JInt 0))).
    cbv iota beta. rewrite Hfmt. eexists. eexists. split; reflexivity.
Qed.


(** * Further properties of the code *)

(** ** [fetch_file]: the endpoints one after the other *)

Section FetchSchedule.

Context (P : platform) (repo : string) (sha : json) (path : string).

(** what one endpoint does, by the reply it gets *)
Lemma try_endpoint_reply t w :
  exists w',
    sent w' = (sent w ++ [t repo sha path])%list /\ same_store w w' /\
    try_endpoint P t repo sha path w =
    (Ok (match net P (length (sent w)) (t repo sha path) with
         | Ok r => if status_code r =? 200 then Some (content r) else None
         | Raise _ => None
         end), w').
Proof.
  unfold try_endpoint, try_except, bind, client_get.
  destruct (net P (length (sent w)) (t repo sha path)) as [r|e]; simpl.
  - destruct (status_code r =? 200); eexists; (split; [|split; [|reflexivity]]);
      try reflexivity; repeat split.
  - eexists. split; [|split; [|reflexivity]]; [reflexivity|repeat split].
Qed.

Lemma try_endpoints_app l1 l2 w :
  try_endpoints P (l1 ++ l2) repo sha path w =
  match try_endpoints P l1 repo sha path w with
  | (Ok None, w1) => try_endpoints P l2 repo sha path w1
  | other => other
  end.
Proof.
  revert w. induction l1 as [|t rest IH]; intros w; [reflexivity|].
  simpl. unfold bind.
  destruct (try_endpoint P t repo sha path w) as [[[c|]|e] w1]; try reflexivity.
  apply IH.
Qed.

Lemma try_endpoints_never_raise l : forall w,
  exists o w', try_endpoints P l repo sha path w = (Ok o, w').
Proof.
  induction l as [|t rest IH]; intros w; simpl; [eexists; eexists; reflexivity|].
  unfold bind. destruct (try_endpoint_reply t w) as (w1 & _ & _ & E). rewrite E.
  destruct (match net P (length (sent w)) (t repo sha path) with
            | Ok r => if status_code r =? 200 then Some (content r) else None
            | Raise _ => None
            end); [eexists; eexists; reflexivity|apply IH].
Qed.

(** the rounds are one pass over the schedule *)
Lemma fetch_rounds_flat l n : forall w,
  fetch_rounds P n l repo sha path w =
  try_endpoints P (concat (repeat l n)) repo sha path w.
Proof.
  induction n as [|n IH]; intros w; [reflexivity|].
  simpl. rewrite try_endpoints_app. unfold bind.
  destruct (try_endpoints_never_raise l w) as (o & w1 & E). rewrite E.
  destruct o as [c|]; [reflexivity|apply IH].
Qed.

(** a pass stops at the first endpoint that answers 200 *)
Lemma try_endpoints_first_ok l : forall k t w resp,
  nth_error l k = Some t ->
  (forall i t', (i < k)%nat -> nth_error l i = Some t' ->
                fails (net P (length (sent w) + i) (t' repo sha path)) = true) ->
  net P (length (sent w) + k) (t repo sha path) = Ok resp ->
  status_code resp = 200 ->
  exists w',
    try_endpoints P l repo sha path w = (Ok (Some (content resp)), w') /\
    sent w' = (sent w ++ map (fun t : cdn_template => t repo sha path) (firstn (S k) l))%list /\
    same_store w w'.
Proof.
  induction l as [|t0 rest IH]; intros k t w resp Hnth Hfail Hnet Hst.
  - destruct k; discriminate.
  - destruct (try_endpoint_reply t0 w) as (w1 & S1 & F1 & E1).
    simpl try_endpoints. unfold bind. rewrite E1.
    destruct k as [|k].
    + simpl in Hnth. inversion Hnth; subst t0. rewrite Nat.add_0_r in Hnet.
      rewrite Hnet, Hst. simpl. exists w1. auto.
    + pose proof (Hfail 0%nat t0 ltac:(lia) eq_refl) as H0.
      rewrite Nat.add_0_r in H0. unfold fails in H0.
      assert (Hnone : match net P (length (sent w)) (t0 repo sha path) with
                      | Ok r => if status_code r =? 200 then Some (content r) else None
                      | Raise _ => None
                      end = None).
      { destruct (net P (length (sent w)) (t0 repo sha path)) as [r|e]; [|reflexivity].
        destruct (status_code r =? 200); [discriminate|reflexivity]. }
      rewrite Hnone.
      assert (Hlen : length (sent w1) = S (length (sent w)))
        by (rewrite S1, length_app; simpl; lia).
      destruct (IH k t w1 resp) as (w' & E & S & F).
      * exact Hnth.
      * intros i t' Hi Hn. rewrite Hlen.
        replace (S (length (sent w)) + i)%nat with (length (sent w) + S i)%nat by lia.
        apply Hfail; [lia|exact Hn].
      * rewrite Hlen.
        replace (S (length (sent w)) + k)%nat with (length (sent w) + S k)%nat by lia.
        exact Hnet.
      * exact Hst.
      * exists w'. split; [exact E|]. split; [|eapply same_store_trans; eassumption].
        rewrite S, S1, <- app_assoc. reflexivity.
Qed.

(** bytes returned by a pass are the content of a 200 reply of one of its
    endpoints, every endpoint before it having failed *)
Lemma try_endpoints_sound l : forall w c w',
  try_endpoints P l repo sha path w = (Ok (Some c), w') ->
  exists k t resp,
    nth_error l k = Some t /\
    net P (length (sent w) + k) (t repo sha path) = Ok resp /\
    status_code resp = 200 /\ content resp = c /\
    sent w' = (sent w ++ map (fun t : cdn_template => t repo sha path) (firstn (S k) l))%list /\
    (forall i t', (i < k)%nat -> nth_error l i = Some t' ->
                  fails (net P (length (sent w) + i) (t' repo sha path)) = true).
Proof.
  induction l as [|t0 rest IH]; intros w c w' E; [discriminate|].
  destruct (try_endpoint_reply t0 w) as (w1 & S1 & F1 & E1).
  simpl try_endpoints in E. unfold bind in E. rewrite E1 in E.
  assert (Hlen : length (sent w1) = S (length (sent w)))
    by (rewrite S1, length_app; simpl; lia).
  destruct (net P (length (sent w)) (t0 repo sha path)) as [r|e] eqn:Hnet.
  - destruct (status_code r =? 200) eqn:Hst.
    + inversion E; subst. exists 0%nat, t0, r. rewrite Nat.add_0_r.
      apply Z.eqb_eq in Hst. repeat split; auto. intros i t' Hi. lia.
    + destruct (IH w1 c w' E) as (k & t & resp & Hn & Hr & Hs & Hc & Hsent & Hf).
      exists (S k), t, resp. rewrite Hlen in Hr.
      replace (length (sent w) + S k)%nat with (S (length (sent w)) + k)%nat by lia.
      repeat split; auto.
      * rewrite Hsent, S1, <- app_assoc. reflexivity.
      * intros i t' Hi Hn'. destruct i as [|i].
        -- simpl in Hn'. inversion Hn'; subst. rewrite Nat.add_0_r, Hnet. simpl.
           rewrite Hst. reflexivity.
        -- replace (length (sent w) + S i)%nat with (length (sent w1) + i)%nat by lia.
           apply Hf; [lia|exact Hn'].
  - destruct (IH w1 c w' E) as (k & t & resp & Hn & Hr & Hs & Hc & Hsent & Hf).
    exists (S k), t, resp. rewrite Hlen in Hr.
    replace (length (sent w) + S k)%nat with (S (length (sent w)) + k)%nat by lia.
    repeat split; auto.
    * rewrite Hsent, S1, <- app_assoc. reflexivity.
    * intros i t' Hi Hn'. destruct i as [|i].
      -- simpl in Hn'. inversion Hn'; subst. rewrite Nat.add_0_r, Hnet. reflexivity.
      -- replace (length (sent w) + S i)%nat with (length (sent w1) + i)%nat by lia.
         apply Hf; [lia|exact Hn'].
Qed.

End FetchSchedule.

(** X1.  Whatever the replies, [fetch_file] sends at most [3 * |endpoints|]
    requests, none but to the endpoints of the selected list for the path,
    in rank order. *)
Theorem fetch_file_stays_on_schedule (P : platform) (repo : string) (sha : json)
    (path : string) (w : world) :
  exists n,
    (n <= 3 * length (cdn_list_of P w))%nat /\
    sent (snd (fetch_file P repo sha path w)) =
    (sent w ++ map (fun t : cdn_template => t repo sha path)
                   (firstn n (fetch_schedule P w)))%list.
Proof.
  assert (Hgen : forall l w0,
            exists n, (n <= length l)%nat /\
              sent (snd (try_endpoints P l repo sha path w0)) =
              (sent w0 ++ map (fun t : cdn_template => t repo sha path) (firstn n l))%list).
  { induction l as [|t rest IH]; intros w0.
    - exists 0%nat. simpl. rewrite app_nil_r. split; [lia|reflexivity].
    - destruct (try_endpoint_reply P repo sha path t w0) as (w1 & S1 & _ & E1).
      simpl try_endpoints. unfold bind. rewrite E1.
      destruct (match net P (length (sent w0)) (t repo sha path) with
                | Ok r => if status_code r =? 200 then Some (content r) else None
                | Raise _ => None
                end).
      + exists 1%nat. simpl. split; [lia|exact S1].
      + destruct (IH w1) as (n & Hn & Hs). exists (S n). split; [simpl; lia|].
        rewrite Hs, S1, <- app_assoc. reflexivity. }
  destruct (Hgen (fetch_schedule P w) w) as (n & Hn & Hs).
  exists n. split.
  - unfold fetch_schedule in Hn. simpl in Hn. rewrite !length_app in Hn. simpl in Hn. lia.
  - unfold fetch_file, bind. rewrite fetch_rounds_flat. fold (fetch_schedule P w).
    destruct (try_endpoints P (fetch_schedule P w) repo sha path w) as [[[c|]|e] w1];
      exact Hs.
Qed.

(** X2.  When the endpoint at position [k] of the schedule is the first to
    answer 200, [fetch_file] returns the content of that reply, having sent
    [k + 1] requests and left the storage alone. *)
Theorem fetch_file_first_success (P : platform) (repo : string) (sha : json)
    (path : string) (w : world) (k : nat) (t : cdn_template) (resp : response) :
  nth_error (fetch_schedule P w) k = Some t ->
  (forall i t', (i < k)%nat -> nth_error (fetch_schedule P w) i = Some t' ->
                fails (net P (length (sent w) + i) (t' repo sha path)) = true) ->
  net P (length (sent w) + k) (t repo sha path) = Ok resp ->
  status_code resp = 200 ->
  exists w',
    fetch_file P repo sha path w = (Ok (content resp), w') /\
    sent w' = (sent w ++ map (fun t : cdn_template => t repo sha path)
                             (firstn (S k) (fetch_schedule P w)))%list /\
    length (sent w') = (length (sent w) + k + 1)%nat /\
    same_store w w'.
Proof.
  intros Hnth Hfail Hnet Hst.
  destruct (try_endpoints_first_ok P repo sha path (fetch_schedule P w) k t w resp
              Hnth Hfail Hnet Hst) as (w' & E & Hs & F).
  exists w'. unfold fetch_file, bind. rewrite fetch_rounds_flat.
  fold (fetch_schedule P w). rewrite E. split; [reflexivity|]. split; [exact Hs|].
  split; [|exact F].
  rewrite Hs, length_app, length_map, length_firstn.
  assert (k < length (fetch_schedule P w))%nat
    by (apply nth_error_Some; rewrite Hnth; discriminate).
  rewrite Nat.min_l; [lia|exact H].
Qed.

(** X3.  Bytes that [fetch_file] returns are the content of a reply with
    status 200 to the last request it sent, which went to an endpoint of the
    schedule; every request before it failed. *)
Theorem fetch_file_returns_served_content (P : platform) (repo : string)
    (sha : json) (path : string) (w : world) (c : list Byte.byte) (w' : world) :
  fetch_file P repo sha path w = (Ok c, w') ->
  exists k t resp,
    nth_error (fetch_schedule P w) k = Some t /\
    net P (length (sent w) + k) (t repo sha path) = Ok resp /\
    status_code resp = 200 /\ content resp = c /\
    sent w' = (sent w ++ map (fun t : cdn_template => t repo sha path)
                             (firstn (S k) (fetch_schedule P w)))%list /\
    (forall i t', (i < k)%nat -> nth_error (fetch_schedule P w) i = Some t' ->
                  fails (net P (length (sent w) + i) (t' repo sha path)) = true).
Proof.
  unfold fetch_file, bind. rewrite fetch_rounds_flat. fold (fetch_schedule P w).
  destruct (try_endpoints P (fetch_schedule P w) repo sha path w) as [[[c0|]|e] w1] eqn:E;
    intros H; inversion H; subst.
  exact (try_endpoints_sound P repo sha path _ _ _ _ E).
Qed.

(** X4.  [fetch_file] never touches the local storage, the downloaded set or
    the locality flag, and writes nothing to the log but [DEBUG] entries. *)
Theorem fetch_file_keeps_store (P : platform) (repo : string) (sha : json)
    (path : string) (w : world) :
  same_store w (snd (fetch_file P repo sha path w)) /\
  exists extra,
    log (snd (fetch_file P repo sha path w)) = (log w ++ extra)%list /\
    Forall is_debug extra.
Proof.
  split; [apply frames_fetch_file|].
  assert (He : forall t, logs_only is_debug (try_endpoint P t repo sha path)).
  { intros t. apply logs_try_except.
    - apply logs_bind; [apply logs_client_get|].
      intros r. destruct (status_code r =? 200); apply logs_ret.
    - intros e. apply logs_bind; [|intros; apply logs_ret].
      apply logs_logger. reflexivity. }
  assert (Hes : forall l, logs_only is_debug (try_endpoints P l repo sha path)).
  { induction l as [|t rest IH]; simpl; [apply logs_ret|].
    apply logs_bind; [apply He|]. intros [c|]; [apply logs_ret|exact IH]. }
  assert (Hr : forall n l, logs_only is_debug (fetch_rounds P n l repo sha path)).
  { induction n as [|n IH]; intros l; simpl; [apply logs_ret|].
    apply logs_bind; [apply Hes|]. intros [c|]; [apply logs_ret|apply IH]. }
  unfold fetch_file.
  apply (logs_bind is_debug (fetch_rounds P 3 (cdn_list_of P w) repo sha path)).
  - apply Hr.
  - intros [c|]; [apply logs_ret|apply logs_raise].
Qed.

(** ** [get_latest_repo_info]: what the result always is *)

Section SelectorMore.

Context (P : platform) (app_id : string).

Lemma query_candidates_app l1 l2 : forall st w,
  query_candidates P app_id (l1 ++ l2) st w =
  match query_candidates P app_id l1 st w with
  | (Ok st1, w1) => query_candidates P app_id l2 st1 w1
  | (Raise e, w1) => (Raise e, w1)
  end.
Proof.
  induction l1 as [|r rest IH]; intros st w; [reflexivity|].
  simpl. unfold bind.
  destruct (query_candidate P app_id r st w) as [[st1|e] w1]; [apply IH|reflexivity].
Qed.

(** a selected candidate is one whose reply offered the date kept *)
Lemma selection_traced repos : forall st w seen,
  match selected_repo st with
  | None => True
  | Some r => exists d s, latest_date st = Some d /\ In (r, Dated d s) seen
  end ->
  exists st' w',
    query_candidates P app_id repos st w = (Ok st', w') /\
    match selected_repo st' with
    | None => True
    | Some r =>
        exists d s, latest_date st' = Some d /\
          In (r, Dated d s) (seen ++ observed P app_id (length (sent w)) repos)
    end.
Proof.
  induction repos as [|repo rest IH]; intros st w seen Hinv.
  - exists st, w. split; [reflexivity|]. simpl. rewrite app_nil_r. exact Hinv.
  - destruct (query_candidate_run P app_id repo st w) as (w1 & E1 & S1 & _ & _).
    set (rp := net P (length (sent w)) (branch_url P repo app_id)) in *.
    assert (Hlen : length (sent w1) = S (length (sent w)))
      by (rewrite S1, length_app; simpl; lia).
    destruct (IH (fst (outcome P repo rp st)) w1 (seen ++ [(repo, read_reply P rp)])%list)
      as (st' & w' & E2 & Hinv').
    { rewrite outcome_reading. destruct (read_reply P rp) as [raised|d s] eqn:Er.
      - simpl. destruct (selected_repo st) as [r|]; [|exact I].
        destruct Hinv as (d & s & Hd & Hin). exists d, s. split; [exact Hd|].
        apply in_or_app. left. exact Hin.
      - destruct (is_newer d (latest_date st)) as [[|]|e]; simpl.
        + destruct s as [v|e]; simpl; exists d; eexists; (split; [reflexivity|]);
            apply in_or_app; right; left; reflexivity.
        + destruct (selected_repo st) as [r|]; [|exact I].
          destruct Hinv as (d0 & s0 & Hd & Hin). exists d0, s0. split; [exact Hd|].
          apply in_or_app. left. exact Hin.
        + destruct (selected_repo st) as [r|]; [|exact I].
          destruct Hinv as (d0 & s0 & Hd & Hin). exists d0, s0. split; [exact Hd|].
          apply in_or_app. left. exact Hin. }
    exists st', w'. split.
    + simpl. unfold bind at 1. rewrite E1. exact E2.
    + rewrite Hlen in Hinv'.
      change (observed P app_id (length (sent w)) (repo :: rest))
        with ((repo, read_reply P rp) :: observed P app_id (S (length (sent w))) rest).
      destruct (selected_repo st') as [r|]; [|exact I].
      destruct Hinv' as (d & s & Hd & Hin). exists d, s. split; [exact Hd|].
      rewrite <- app_assoc in Hin. exact Hin.
Qed.

End SelectorMore.

(** X5.  A repository that [get_latest_repo_info] returns is one of the
    candidates given, its name is not empty, and its [last_update] is the
    commit date read from that candidate's reply (never [None]). *)
Theorem returned_repo_is_a_dated_candidate (P : platform) (repos : list string)
    (app_id : string) (w : world) (info : RepoInfo) (w' : world) :
  get_latest_repo_info P repos app_id w = (Ok (Some info), w') ->
  In (name info) repos /\ name info <> "" /\
  exists d s,
    last_update info = Some d /\
    In (name info, Dated d s) (observed P app_id (length (sent w)) repos).
Proof.
  intros E.
  destruct (selection_traced P app_id repos no_selection w [] I) as (st & w1 & Eq & Hinv).
  unfold get_latest_repo_info, bind in E. rewrite Eq in E.
  unfold ret, selected_info in E.
  destruct (selected_repo st) as [r|]; [|discriminate].
  destruct (PyStr.truthy r) eqn:Ht; [|discriminate].
  inversion E; subst. simpl in *.
  destruct Hinv as (d & s & Hd & Hin).
  split; [exact (observed_names P app_id repos _ _ _ Hin)|]. split.
  - intros ->. discriminate.
  - exists d, s. split; assumption.
Qed.

(** X6.  A candidate whose reply offers a newer commit date but no sha is
    not passed over: it is selected with its date, the sha of the candidate
    selected before is kept, and the [KeyError] is logged as a warning. *)
Theorem missing_sha_keeps_previous (P : platform) (repos : list string)
    (app_id : string) (w : world) (prev : RepoInfo) (w1 : world)
    (r : string) (d : datetime) (e : exn) :
  get_latest_repo_info P repos app_id w = (Ok (Some prev), w1) ->
  read_reply P (net P (length (sent w) + length repos) (branch_url P r app_id))
    = Dated d (Raise e) ->
  is_newer d (last_update prev) = Ok true ->
  r <> "" ->
  exists w2,
    get_latest_repo_info P (repos ++ [r]) app_id w
      = (Ok (Some (mkRepoInfo r (Some d) (sha prev))), w2) /\
    log w2 = (log w1 ++ [warning_of r e])%list.
Proof.
  intros E Hread Hnew Hr.
  destruct (query_candidates_run P app_id repos no_selection w [])
    as (st & w0 & Eq & Hs & _).
  unfold get_latest_repo_info, bind in E. rewrite Eq in E. unfold ret in E.
  inversion E as [[Hinfo Hw]]. subst w0.
  assert (Hst : latest_date st = last_update prev /\ selected_sha st = sha prev).
  { unfold selected_info in Hinfo. destruct (selected_repo st); [|discriminate].
    destruct (PyStr.truthy s); [|discriminate]. inversion Hinfo. simpl. auto. }
  destruct Hst as [Hd Hsha].
  assert (Hlen : length (sent w1) = (length (sent w) + length repos)%nat)
    by (rewrite Hs, length_app, length_map; reflexivity).
  destruct (query_candidate_run P app_id r st w1) as (w2 & E2 & _ & _ & L2).
  rewrite Hlen in E2, L2. rewrite outcome_reading, Hread, Hd, Hnew in E2, L2.
  simpl in E2, L2.
  exists w2. split; [|exact L2].
  unfold get_latest_repo_info, bind. rewrite query_candidates_app, Eq.
  simpl query_candidates. unfold bind. rewrite E2. unfold ret, selected_info. simpl.
  assert (Ht : PyStr.truthy r = true).
  { unfold PyStr.truthy. destruct (String.eqb_spec r ""); [contradiction|reflexivity]. }
  rewrite Ht, Hsha. reflexivity.
Qed.

(** the log of the queries: at most one line for each candidate, each the
    warning of a candidate of the list *)
Lemma query_candidates_log (P : platform) (app_id : string) (repos : list string) :
  forall st w,
    same_store w (snd (query_candidates P app_id repos st w)) /\
    exists extra,
      log (snd (query_candidates P app_id repos st w)) = (log w ++ extra)%list /\
      (length extra <= length repos)%nat /\
      List.Forall (fun m => exists r e, In r repos /\ m = warning_of r e) extra.
Proof.
  induction repos as [|repo rest IH]; intros st w.
  - simpl. split; [repeat split|]. exists []. rewrite app_nil_r.
    split; [reflexivity|]. split; [apply Nat.le_refl|constructor].
  - simpl query_candidates. unfold bind.
    destruct (query_candidate_run P app_id repo st w) as (w1 & E & _ & (F1 & D1 & C1) & L1).
    rewrite E.
    destruct (IH (fst (outcome P repo (net P (length (sent w)) (branch_url P repo app_id)) st)) w1)
      as ((F2 & D2 & C2) & extra & L2 & Hlen & Hall).
    split; [repeat split; congruence|].
    assert (Hrest : List.Forall (fun m => exists r e, In r (repo :: rest) /\ m = warning_of r e)
                      extra).
    { eapply List.Forall_impl; [|exact Hall].
      intros m (r & e & Hin & ->). exists r, e. split; [right; exact Hin|reflexivity]. }
    destruct (snd (outcome P repo (net P (length (sent w)) (branch_url P repo app_id)) st))
      as [e|].
    + exists (warning_of repo e :: extra). rewrite L2, L1, <- app_assoc.
      split; [reflexivity|]. split; [simpl; apply le_n_S, Hlen|].
      constructor; [|exact Hrest]. exists repo, e. split; [left; reflexivity|reflexivity].
    + exists extra. rewrite L2, L1, app_nil_r.
      split; [reflexivity|]. split; [simpl; apply Nat.le_le_succ_r, Hlen|exact Hrest].
Qed.

(** X24.  [get_latest_repo_info] touches neither the storage, nor the
    downloaded set, nor the locality flag, and adds to the log at most one
    line for each candidate, each of them the warning of line 82 for a
    candidate of the list. *)
Theorem selector_only_warns (P : platform) (repos : list string)
    (app_id : string) (w : world) :
  same_store w (snd (get_latest_repo_info P repos app_id w)) /\
  exists extra,
    log (snd (get_latest_repo_info P repos app_id w)) = (log w ++ extra)%list /\
    (length extra <= length repos)%nat /\
    List.Forall (fun m => exists r e, In r repos /\ m = warning_of r e) extra.
Proof.
  pose proof (query_candidates_log P app_id repos (no_selection) w) as H.
  unfold get_latest_repo_info, bind.
  destruct (query_candidates P app_id repos no_selection w) as [[st|e] w1]; exact H.
Qed.

(** ** [check_rate_limit] and its caller *)

(** every way through [check_rate_limit]: the marker with its message
    logged, or the six-key status with one [INFO] line *)
Lemma check_rate_limit_shape (P : platform) (w : world) :
  exists v w',
    check_rate_limit P w = (Ok v, w') /\
    sent w' = (sent w ++ [(GITHUB_API_BASE P ++ "/rate_limit")%string])%list /\
    same_store w w' /\
    ((exists msg, v = error_marker msg /\ log w' = (log w ++ [(ERROR, msg)])%list) \/
     (exists l r t u f rel m,
         v = status_dict l r t u f rel /\ log w' = (log w ++ [(INFO, m)])%list)).
Proof.
  unfold check_rate_limit, try_except, bind, client_get, lift.
  destruct (net P (length (sent w)) (GITHUB_API_BASE P ++ "/rate_limit")) as [r|e].
  2:{ eexists. eexists. split; [reflexivity|]. split; [reflexivity|].
      split; [repeat split|]. left. eexists. split; reflexivity. }
  destruct (status_code r =? 200).
  2:{ eexists. eexists. split; [reflexivity|]. split; [reflexivity|].
      split; [repeat split|]. left. eexists. split; reflexivity. }
  change (negb true) with false. cbv iota beta.
  destruct (body_json r) as [j|e];
    [|eexists; eexists; split; [reflexivity|]; split; [reflexivity|];
      split; [repeat split|]; left; eexists; split; reflexivity].
  destruct (Py.get j "rate" (JDict [])) as [rate|e];
    [|eexists; eexists; split; [reflexivity|]; split; [reflexivity|];
      split; [repeat split|]; left; eexists; split; reflexivity].
  destruct rate as [| | | | |fields];
    try (eexists; eexists; split; [reflexivity|]; split; [reflexivity|];
         split; [repeat split|]; left; eexists; split; reflexivity).
  cbn [Py.get]. cbv iota beta.
  destruct (format_reset P _) as [a3|e];
    [|eexists; eexists; split; [reflexivity|]; split; [reflexivity|];
      split; [repeat split|]; left; eexists; split; reflexivity].
  eexists. eexists. split; [reflexivity|]. split; [reflexivity|].
  split; [repeat split|]. right. do 7 eexists. split; reflexivity.
Qed.

(** X7.  Every call of [check_rate_limit] sends one request, to the quota
    endpoint, leaves the storage, the downloaded set and the locality flag
    alone, and adds one line to the log: the marker's message at level
    [ERROR], or an [INFO] line when a status is returned. *)
Theorem check_rate_limit_one_request (P : platform) (w : world) :
  sent (snd (check_rate_limit P w))
    = (sent w ++ [(GITHUB_API_BASE P ++ "/rate_limit")%string])%list /\
  same_store w (snd (check_rate_limit P w)) /\
  exists lvl m,
    log (snd (check_rate_limit P w)) = (log w ++ [(lvl, m)])%list /\
    (lvl = ERROR /\ fst (check_rate_limit P w) = Ok (error_marker m) \/
     lvl = INFO /\ Py.contains "error"
                     (match fst (check_rate_limit P w) with
                      | Ok v => v
                      | Raise _ => JNull
                      end) = Ok false).
Proof.
  destruct (check_rate_limit_shape P w) as (v & w' & E & Hs & F & H).
  rewrite E. simpl. split; [exact Hs|]. split; [exact F|].
  destruct H as [(msg & -> & L)|(l & r & t & u & f & rel & m & -> & L)].
  - exists ERROR, msg. split; [exact L|]. left. split; reflexivity.
  - exists INFO, m. split; [exact L|]. right. split; reflexivity.
Qed.

(** X8.  The quota branch of [cmd_manifest] never fails on what
    [check_rate_limit] returns: its look-ups of [used], [limit],
    [remaining], [reset_relative] and [reset_formatted] always find their
    key, and it shows the could-not-check notice exactly for the marker. *)
Theorem quota_branch_never_fails (P : platform) (w : world) :
  exists v w' banner,
    check_rate_limit P w = (Ok v, w') /\
    limit_msg v = Ok banner /\
    (banner = CouldNotCheck <-> exists msg, v = error_marker msg).
Proof.
  destruct (check_rate_limit_shape P w) as (v & w' & E & _ & _ & H).
  destruct H as [(msg & -> & _)|(l & r & t & u & f & rel & m & -> & _)].
  - exists (error_marker msg), w', CouldNotCheck. split; [exact E|].
    split; [reflexivity|]. split; [intros _; exists msg; reflexivity|reflexivity].
  - eexists. exists w'. eexists. split; [exact E|]. split; [reflexivity|].
    split; [discriminate|]. intros (msg & Hm). discriminate.
Qed.

(** ** The walk over the tree *)

Section WalkMore.

Context (P : platform) (ri : RepoInfo).

(** what an entry does to the storage and the downloaded set, whatever
    its outcome *)
Lemma walk_item_effect item acc w r w' :
  walk_item P ri item acc w = (r, w') ->
  (fs w' = fs w /\ downloaded_files w' = downloaded_files w) \/
  (exists path c,
      item_path item = Ok path /\ PyStr.endswith path ".manifest" = true /\
      fs w !! save_path_of path = None /\
      fs w' = <[save_path_of path := c]> (fs w) /\
      downloaded_files w' = {[path]} ∪ downloaded_files w /\
      r = Ok (fst acc, record_manifest P path (snd acc))).
Proof.
  destruct (item_path item) as [path|e] eqn:Hp.
  2:{ unfold walk_item, bind, lift. rewrite Hp. intros E. inversion E; subst. auto. }
  destruct (PyStr.endswith path ".manifest") eqn:He.
  - rewrite (walk_item_manifest P ri item path acc w Hp He).
    destruct (fs w !! save_path_of path) as [c|] eqn:Hfs.
    + rewrite (obtain_manifest_present P ri path w c Hfs). intros E. inversion E; subst.
      left. auto.
    + rewrite (obtain_manifest_absent P ri path w Hfs).
      pose proof (frames_fetch_file P (name ri) (sha ri) path w) as (F & D & _).
      destruct (fetch_file P (name ri) (sha ri) path w) as [[c|e] w1]; simpl in *;
        intros E; inversion E; subst; simpl.
      * right. exists path, c. rewrite F, D. repeat split; auto.
      * left. auto.
  - unfold walk_item, bind at 1, lift. rewrite Hp, He.
    destruct (PyStr.contains "key.vdf" (PyStr.lower path)).
    + unfold bind, lift, ret.
      pose proof (frames_fetch_file P (name ri) (sha ri) path w) as (F & D & _).
      destruct (fetch_file P (name ri) (sha ri) path w) as [[c|e] w1]; simpl in *.
      * destruct (parse_key_file P c); intros E; inversion E; subst; left; auto.
      * intros E; inversion E; subst. left; auto.
    + intros E. inversion E; subst. left; auto.
Qed.

Lemma walk_tree_app items rest : forall acc w,
  walk_tree P ri (items ++ rest) acc w =
  match walk_tree P ri items acc w with
  | (Ok acc1, w1) => walk_tree P ri rest acc1 w1
  | (Raise e, w1) => (Raise e, w1)
  end.
Proof.
  induction items as [|item more IH]; intros acc w; [reflexivity|].
  simpl. unfold bind.
  destruct (walk_item P ri item acc w) as [[acc1|e] w1]; [apply IH|reflexivity].
Qed.

(** the storage and the downloaded set along the walk, whatever its
    outcome: files keep their bytes, the set grows, and every path that
    joined the set ends in [.manifest], had no file and has one now *)
Lemma walk_tree_effect items : forall acc w r w',
  walk_tree P ri items acc w = (r, w') ->
  keeps_files w w' /\
  downloaded_files w ⊆ downloaded_files w' /\
  (forall p, p ∈ downloaded_files w' ->
     p ∈ downloaded_files w \/
     (PyStr.endswith p ".manifest" = true /\
      fs w !! save_path_of p = None /\ is_Some (fs w' !! save_path_of p))).
Proof.
  induction items as [|item rest IH]; intros acc w r w' E.
  - simpl in E. inversion E; subst. split; [intros p c H; exact H|].
    split; [reflexivity|]. auto.
  - simpl in E. unfold bind in E.
    destruct (walk_item P ri item acc w) as [r1 w1] eqn:E1.
    assert (Hstep : keeps_files w w1 /\
              downloaded_files w ⊆ downloaded_files w1 /\
              (forall p, p ∈ downloaded_files w1 ->
                 p ∈ downloaded_files w \/
                 (PyStr.endswith p ".manifest" = true /\
                  fs w !! save_path_of p = None /\ is_Some (fs w1 !! save_path_of p)))).
    { destruct (walk_item_effect item acc w r1 w1 E1)
        as [[F D]|(path & c & Hp & He & Habs & F & D & _)].
      - split; [intros p c H; rewrite F; exact H|]. rewrite D.
        split; [reflexivity|]. auto.
      - split.
        { intros p c0 H. rewrite F.
          destruct (decide (save_path_of path = p)) as [<-|Hne];
            [rewrite Habs in H; discriminate|].
          rewrite lookup_insert_ne; assumption. }
        rewrite D. split; [apply union_subseteq_r|].
        intros p Hin. apply elem_of_union in Hin. destruct Hin as [Hin|Hin]; [|auto].
        apply elem_of_singleton in Hin. subst p. right.
        split; [exact He|]. split; [exact Habs|]. rewrite F, lookup_insert_eq. eauto. }
    destruct Hstep as (K1 & S1 & N1).
    destruct r1 as [acc1|e]; [|inversion E; subst; auto].
    destruct (IH acc1 w1 r w' E) as (K2 & S2 & N2).
    split; [intros p c H; apply K2, K1, H|].
    split; [etrans; eassumption|].
    intros p Hin. destruct (N2 p Hin) as [Hin1|(He & Habs & Hsome)].
    + destruct (N1 p Hin1) as [Hin0|(He & Habs & Hsome)]; [auto|].
      right. split; [exact He|]. split; [exact Habs|].
      destruct Hsome as [c Hc]. exists c. apply K2, Hc.
    + right. split; [exact He|]. split; [|exact Hsome].
      destruct (fs w !! save_path_of p) as [c|] eqn:Hw; [|reflexivity].
      rewrite (K1 _ _ Hw) in Habs. discriminate.
Qed.

(** the depot map of a walk that returns is the one of the tree *)
Lemma walk_tree_depot_map items : forall acc w acc' w',
  walk_tree P ri items acc w = (Ok acc', w') ->
  snd acc' = tree_depot_map P items (snd acc).
Proof.
  induction items as [|item rest IH]; intros acc w acc' w' E.
  - simpl in E. inversion E; subst. reflexivity.
  - simpl in E. apply bind_Ok in E. destruct E as (acc1 & w1 & E1 & E2).
    rewrite (IH acc1 w1 acc' w' E2). simpl.
    destruct (item_path item) as [path|e] eqn:Hp.
    2:{ unfold walk_item, bind, lift in E1. rewrite Hp in E1. discriminate. }
    destruct (PyStr.endswith path ".manifest") eqn:He.
    + rewrite (walk_item_manifest P ri item path acc w Hp He) in E1.
      destruct (obtain_manifest P ri path w) as [[[]|e] w0]; inversion E1; reflexivity.
    + unfold walk_item, bind at 1, lift in E1. rewrite Hp, He in E1.
      destruct (PyStr.contains "key.vdf" (PyStr.lower path)).
      * unfold bind, lift, ret in E1.
        destruct (fetch_file P (name ri) (sha ri) path w) as [[c|e] w0]; [|discriminate].
        destruct (parse_key_file P c); inversion E1; reflexivity.
      * inversion E1; reflexivity.
Qed.

End WalkMore.

(** ** [handle_depot_files] as a whole *)

Section HandleMore.

Context (P : platform) (app_id : string).

(** the world a run ends in is the one the resolution left, or the one a
    walk from there ended in *)
Lemma handle_depot_files_world w :
  exists wa,
    same_store w wa /\
    (snd (handle_depot_files P app_id w) = wa \/
     exists ri items r,
       fst (resolve_tree P app_id w) = Ok (Some (ri, items)) /\
       walk_tree P ri items ([], []) wa = (r, snd (handle_depot_files P app_id w))).
Proof.
  rewrite handle_depot_files_split. unfold bind.
  pose proof (frames_resolve_tree P app_id w) as F.
  destruct (resolve_tree P app_id w) as [[[[ri items]|]|e] wa]; simpl in *;
    exists wa; (split; [exact F|]); try (left; reflexivity).
  right. exists ri, items. unfold walk_and_sort, bind, lift, ret.
  destruct (walk_tree P ri items ([], []) wa) as [[acc|e] wb] eqn:E.
  - destruct (sort_depot_map (snd acc)); eexists; split; reflexivity.
  - eexists. split; reflexivity.
Qed.

Lemma handle_depot_files_effect w :
  let w' := snd (handle_depot_files P app_id w) in
  keeps_files w w' /\
  downloaded_files w ⊆ downloaded_files w' /\
  (forall p, p ∈ downloaded_files w' ->
     p ∈ downloaded_files w \/
     (PyStr.endswith p ".manifest" = true /\
      fs w !! save_path_of p = None /\ is_Some (fs w' !! save_path_of p))).
Proof.
  intros w'. subst w'.
  destruct (handle_depot_files_world w) as (wa & (F & D & _) & [->|H]).
  - split; [intros p c H; rewrite F; exact H|]. rewrite D.
    split; [reflexivity|]. intros p Hp. left. exact Hp.
  - destruct H as (ri & items & r & _ & E).
    destruct (walk_tree_effect P ri items _ _ _ _ E) as (K & S & N).
    split; [intros p c H; apply K; rewrite F; exact H|].
    rewrite <- D. split; [exact S|].
    intros p Hp. destruct (N p Hp) as [H|H]; [left; exact H|right].
    rewrite <- F. exact H.
Qed.

Lemma handle_depot_files_walk w dl dm w' :
  handle_depot_files P app_id w = (Ok (dl, dm), w') ->
  match resolve_tree P app_id w with
  | (Ok (Some (ri, items)), wa) =>
      exists acc,
        walk_tree P ri items ([], []) wa = (Ok acc, w') /\
        sort_depot_map (snd acc) = Ok dm /\ dl = fst acc
  | (Ok None, wa) => dl = [] /\ dm = [] /\ w' = wa
  | (Raise _, _) => False
  end.
Proof.
  rewrite handle_depot_files_split. intros E. apply bind_Ok in E.
  destruct E as (o & wa & Er & Ek). rewrite Er.
  destruct o as [[ri items]|].
  - unfold walk_and_sort in Ek. apply bind_Ok in Ek.
    destruct Ek as (acc & wb & Ew & Es). apply bind_Ok in Es.
    destruct Es as (sorted & wc & Es & Et). apply lift_Ok in Es. destruct Es as [Es ->].
    apply ret_Ok in Et. destruct Et as [Et ->]. inversion Et; subst.
    exists acc. auto.
  - apply ret_Ok in Ek. destruct Ek as [Ek ->]. inversion Ek. auto.
Qed.

End HandleMore.

(** X9.  [handle_depot_files] never overwrites or removes a file, and never
    takes a path out of the downloaded set: every file of the local storage
    is there afterwards with the same bytes and the set only grows, whether
    the call returns or raises. *)
Theorem handle_depot_files_keeps_files (P : platform) (app_id : string) (w : world) :
  keeps_files w (snd (handle_depot_files P app_id w)) /\
  downloaded_files w ⊆ downloaded_files (snd (handle_depot_files P app_id w)).
Proof.
  destruct (handle_depot_files_effect P app_id w) as (K & S & _). split; assumption.
Qed.

(** X10.  Whether [handle_depot_files] returns or raises, every path the
    downloaded set gained ends in [.manifest], had no file at its
    destination before the call and has one after it. *)
Theorem downloaded_files_are_new_manifests (P : platform) (app_id : string)
    (w : world) (p : string) :
  p ∈ downloaded_files (snd (handle_depot_files P app_id w)) ->
  p ∉ downloaded_files w ->
  PyStr.endswith p ".manifest" = true /\
  fs w !! save_path_of p = None /\
  is_Some (fs (snd (handle_depot_files P app_id w)) !! save_path_of p).
Proof.
  destruct (handle_depot_files_effect P app_id w) as (_ & _ & N).
  intros Hin Hnot.
  destruct (N p Hin) as [H|H]; [contradiction|exact H].
Qed.

(** X11.  After a run that returned, every entry of the tree whose path ends
    in [.manifest] has a file at its destination, and a file that was there
    before the run has kept its bytes. *)
Theorem manifest_entries_are_stored (P : platform) (app_id : string)
    (w : world) (dl : list DepotInfo) (dm : depot_map) (w' : world) :
  handle_depot_files P app_id w = (Ok (dl, dm), w') ->
  match fst (resolve_tree P app_id w) with
  | Ok (Some (ri, items)) =>
      forall item path, In item items -> item_path item = Ok path ->
        PyStr.endswith path ".manifest" = true ->
        exists c, fs w' !! save_path_of path = Some c /\
                  forall c0, fs w !! save_path_of path = Some c0 -> c0 = c
  | _ => True
  end.
Proof.
  intros E. pose proof (handle_depot_files_walk P app_id w dl dm w' E) as H.
  destruct (handle_depot_files_effect P app_id w) as (K & _).
  rewrite E in K. simpl in K.
  destruct (resolve_tree P app_id w) as [[[[ri items]|]|e] wa]; simpl in *; try exact I.
  destruct H as (acc & Ew & _). intros item path Hin Hp He.
  destruct (walk_tree_stores P ri items _ _ _ _ Ew item path Hin Hp He) as [c Hc].
  exists c. split; [exact Hc|]. intros c0 H0. apply K in H0. congruence.
Qed.

Lemma depot_map_of_tree (P : platform) (app_id : string)
    (w : world) (dl : list DepotInfo) (dm : depot_map) (w' : world) :
  handle_depot_files P app_id w = (Ok (dl, dm), w') ->
  match fst (resolve_tree P app_id w) with
  | Ok (Some (ri, items)) => sort_depot_map (tree_depot_map P items []) = Ok dm
  | Ok None => dm = [] /\ dl = []
  | Raise _ => False
  end.
Proof.
  intros E. pose proof (handle_depot_files_walk P app_id w dl dm w' E) as H.
  destruct (resolve_tree P app_id w) as [[[[ri items]|]|e] wa]; simpl in *.
  - destruct H as (acc & Ew & Es & _).
    pose proof (walk_tree_depot_map P ri items _ _ _ _ Ew) as Hm. simpl in Hm.
    rewrite <- Hm. exact Es.
  - destruct H as (-> & -> & _). auto.
  - exact H.
Qed.

(** X12.  The depot map of a run that returned depends on the tree listing
    only: it is the sorted map of the names ending in [.manifest], whatever
    files were in place and whichever endpoint served the others. *)
Theorem depot_map_is_of_the_tree (P : platform) (app_id : string)
    (w : world) (dl : list DepotInfo) (dm : depot_map) (w' : world) :
  handle_depot_files P app_id w = (Ok (dl, dm), w') ->
  match fst (resolve_tree P app_id w) with
  | Ok (Some (ri, items)) => sort_depot_map (tree_depot_map P items []) = Ok dm
  | Ok None => dm = [] /\ dl = []
  | Raise _ => False
  end.
Proof. exact (depot_map_of_tree P app_id w dl dm w'). Qed.

(** X13.  An entry that fails ends the run there: [handle_depot_files]
    raises the entry's exception in the world the entry left, the entries
    after it are not visited and no depot map is returned. *)
Theorem failing_entry_stops_the_run (P : platform) (app_id : string) (w : world)
    (ri : RepoInfo) (before : list json) (item : json) (after : list json)
    (wa : world) (acc : list DepotInfo * depot_map) (w1 : world)
    (e : exn) (w2 : world) :
  resolve_tree P app_id w = (Ok (Some (ri, before ++ item :: after)%list), wa) ->
  walk_tree P ri before ([], []) wa = (Ok acc, w1) ->
  walk_item P ri item acc w1 = (Raise e, w2) ->
  handle_depot_files P app_id w = (Raise e, w2).
Proof.
  intros Er Eb Ei. rewrite handle_depot_files_split. unfold bind at 1. rewrite Er.
  unfold walk_and_sort, bind at 1. rewrite walk_tree_app, Eb.
  simpl walk_tree. unfold bind at 1. rewrite Ei. reflexivity.
Qed.

(** ** The final sort *)

Module SortMore.

Import PySort.

Lemma insert_desc_filter z x l :
  List.filter (fun p : Z * string => fst p =? z) (insert_desc x l) =
  List.filter (fun p : Z * string => fst p =? z) (x :: l).
Proof.
  induction l as [|y l' IH]; [reflexivity|].
  simpl insert_desc. destruct (fst x <? fst y) eqn:Hlt; [|reflexivity].
  apply Z.ltb_lt in Hlt.
  change (List.filter (fun p : Z * string => fst p =? z) (y :: insert_desc x l'))
    with (if fst y =? z
          then y :: List.filter (fun p : Z * string => fst p =? z) (insert_desc x l')
          else List.filter (fun p : Z * string => fst p =? z) (insert_desc x l')).
  rewrite IH. simpl.
  destruct (fst x =? z) eqn:Hx, (fst y =? z) eqn:Hy; try reflexivity.
  apply Z.eqb_eq in Hx, Hy. lia.
Qed.

Lemma sort_keyed_filter z l :
  List.filter (fun p : Z * string => fst p =? z) (sort_keyed l) =
  List.filter (fun p : Z * string => fst p =? z) l.
Proof.
  induction l as [|x l' IH]; [reflexivity|].
  simpl sort_keyed. rewrite insert_desc_filter. simpl. rewrite IH. reflexivity.
Qed.

Lemma filter_keyed z kl :
  List.Forall (fun p => PyInt.int (snd p) = Ok (fst p)) kl ->
  List.filter (has_value z) (map snd kl) =
  map snd (List.filter (fun p : Z * string => fst p =? z) kl).
Proof.
  induction 1 as [|p kl' Hp _ IH]; [reflexivity|].
  simpl. unfold has_value at 1. rewrite Hp.
  destruct (fst p =? z); simpl; rewrite IH; reflexivity.
Qed.

(** identifiers of equal integer value keep their order *)
Lemma sort_by_int_desc_stable l l' z :
  sort_by_int_desc l = Ok l' ->
  List.filter (has_value z) l' = List.filter (has_value z) l.
Proof.
  unfold sort_by_int_desc, rbind. destruct (keyed l) as [kl|e] eqn:Hk; [|discriminate].
  intros H. inversion H; subst. destruct (SortFacts.keyed_spec l kl Hk) as [Hall Hmap].
  rewrite <- Hmap. rewrite !filter_keyed.
  - rewrite sort_keyed_filter. reflexivity.
  - exact Hall.
  - rewrite List.Forall_forall in *. intros p Hp. apply Hall.
    exact (Permutation_in _ (Permutation_sym (SortFacts.sort_keyed_perm kl)) Hp).
Qed.




End SortMore.

Lemma sort_rearranged (m m' : depot_map) :
  sort_depot_map m = Ok m' -> rearranged m m'.
Proof.
  revert m'. induction m as [|[k vs] rest IH]; simpl; intros m' H.
  - inversion H. constructor.
  - unfold rbind in H.
    destruct (PySort.sort_by_int_desc vs) as [vs'|e] eqn:Hs; [|discriminate].
    destruct (sort_depot_map rest) as [rest'|e]; [|discriminate].
    inversion H; subst. constructor; [|apply IH; reflexivity].
    split; [reflexivity|]. exact (proj1 (SortFacts.sort_by_int_desc_spec _ _ Hs)).
Qed.

(** X14.  The final sort keeps the depots and their order, and only
    rearranges the list of each: no manifest id is lost, added or moved to
    another depot. *)
Theorem sort_depot_map_rearranges (m m' : depot_map) :
  sort_depot_map m = Ok m' -> rearranged m m'.
Proof. exact (sort_rearranged m m'). Qed.

(** X15.  The final sort is stable: in every depot, the manifest ids of one
    integer value stand in the order in which the tree listed them. *)
Theorem sort_depot_map_stable (m m' : depot_map) (k : string) (l' : list string) :
  sort_depot_map m = Ok m' ->
  In (k, l') m' ->
  exists l, In (k, l) m /\
    forall z, List.filter (has_value z) l' = List.filter (has_value z) l.
Proof.
  intros H Hin.
  destruct (SortFacts.sort_depot_map_spec m m' H k l' Hin) as (l & Hl & Hs).
  exists l. split; [exact Hl|]. intros z.
  exact (SortMore.sort_by_int_desc_stable l l' z Hs).
Qed.


(** ** The depot identifiers of the map *)

Lemma setdefault_append_keys k v m k' :
  In k' (map fst (setdefault_append k v m)) <-> k' = k \/ In k' (map fst m).
Proof.
  induction m as [|[k0 vs] rest IH]; simpl.
  - split; [intros [H|[]]; auto|intros [H|[]]; auto].
  - destruct (String.eqb_spec k k0) as [->|Hne]; simpl.
    + split; [intros [H|H]; auto|intros [H|[H|H]]; auto].
    + rewrite IH. split; [intros [H|[H|H]]; auto|intros [H|[H|H]]; auto].
Qed.

Lemma setdefault_append_NoDup k v m :
  List.NoDup (map fst m) -> List.NoDup (map fst (setdefault_append k v m)).
Proof.
  induction m as [|[k0 vs] rest IH]; simpl; intros Hnd.
  - constructor; [intros []|constructor].
  - destruct (String.eqb_spec k k0) as [->|Hne]; simpl; [exact Hnd|].
    inversion Hnd as [|? ? Hnotin Hnd']; subst. constructor; [|apply IH, Hnd'].
    intros Hin. apply setdefault_append_keys in Hin.
    destruct Hin as [->|Hin]; [apply Hne; reflexivity|exact (Hnotin Hin)].
Qed.

Lemma tree_depot_map_NoDup P items : forall dm,
  List.NoDup (map fst dm) -> List.NoDup (map fst (tree_depot_map P items dm)).
Proof.
  induction items as [|item rest IH]; intros dm Hnd; simpl; [exact Hnd|].
  destruct (item_path item) as [path|e]; [|exact Hnd].
  destruct (PyStr.endswith path ".manifest"); [|apply IH, Hnd].
  apply IH. rewrite record_manifest_recorded.
  destruct (recorded P path) as [[d m]|]; [|exact Hnd].
  apply setdefault_append_NoDup, Hnd.
Qed.

Lemma rearranged_keys m m' : rearranged m m' -> map fst m' = map fst m.
Proof.
  induction 1 as [|a b m m' [Hk _] _ IH]; [reflexivity|].
  simpl. rewrite IH, Hk. reflexivity.
Qed.

Lemma lookup_In k l (m : depot_map) :
  List.NoDup (map fst m) -> (In (k, l) m <-> depot_lookup k m = Some l).
Proof.
  induction m as [|[k0 vs] rest IH]; simpl; intros Hnd.
  - split; [intros []|discriminate].
  - inversion Hnd as [|? ? Hnotin Hnd']; subst.
    destruct (String.eqb_spec k k0) as [->|Hne].
    + split.
      * intros [Heq|Hin]; [inversion Heq; reflexivity|].
        exfalso. apply Hnotin. apply (in_map fst) in Hin. exact Hin.
      * intros H. inversion H. left. reflexivity.
    + rewrite <- (IH Hnd'). split.
      * intros [Heq|Hin]; [inversion Heq; subst; contradiction|exact Hin].
      * intros Hin. right. exact Hin.
Qed.

Lemma tree_ids_cons P k item rest :
  tree_ids P k (item :: rest) = (entry_ids P k item ++ tree_ids P k rest)%list.
Proof. reflexivity. Qed.

(** the list of a depot in the map of a tree: what the map had, then the
    ids of the depot in the tree, in tree order *)
Lemma tree_depot_map_lookup P k items : forall dm,
  (forall item, In item items -> exists path, item_path item = Ok path) ->
  depot_lookup k (tree_depot_map P items dm) =
  match tree_ids P k items with
  | [] => depot_lookup k dm
  | ids => Some (match depot_lookup k dm with Some l => l | None => [] end ++ ids)%list
  end.
Proof.
  induction items as [|item rest IH]; intros dm Hpaths; [reflexivity|].
  destruct (Hpaths item (or_introl eq_refl)) as [path Hp].
  assert (Hrest : forall it, In it rest -> exists p, item_path it = Ok p)
    by (intros it Hit; apply Hpaths; right; exact Hit).
  rewrite tree_ids_cons. unfold entry_ids. simpl tree_depot_map. rewrite Hp.
  destruct (PyStr.endswith path ".manifest"); [|exact (IH dm Hrest)].
  rewrite (IH _ Hrest), record_manifest_recorded.
  destruct (recorded P path) as [[d m]|]; [|reflexivity].
  rewrite lookup_setdefault_append.
  destruct (String.eqb_spec k d) as [->|Hne]; [|reflexivity].
  simpl. destruct (tree_ids P d rest) as [|x ids]; [reflexivity|].
  rewrite <- app_assoc. reflexivity.
Qed.

Lemma walk_tree_paths P ri items : forall acc w acc' w',
  walk_tree P ri items acc w = (Ok acc', w') ->
  forall item, In item items -> exists path, item_path item = Ok path.
Proof.
  induction items as [|it rest IH]; intros acc w acc' w' E item Hin; [destruct Hin|].
  simpl in E. apply bind_Ok in E. destruct E as (acc1 & w1 & E1 & E2).
  destruct Hin as [<-|Hin]; [|exact (IH _ _ _ _ E2 item Hin)].
  destruct (item_path it) as [path|e] eqn:Hp; [eauto|].
  unfold walk_item, bind, lift in E1. rewrite Hp in E1. discriminate.
Qed.

(** the depot map of a run that returned, depot by depot: the keys are the
    depots that have an id in the tree, each once, and the list of a depot
    is the sorted list of its ids in the tree *)
Lemma depot_map_by_depot (P : platform) (app_id : string)
    (w : world) (dl : list DepotInfo) (dm : depot_map) (w' : world) :
  handle_depot_files P app_id w = (Ok (dl, dm), w') ->
  match fst (resolve_tree P app_id w) with
  | Ok (Some (ri, items)) =>
      List.NoDup (map fst dm) /\
      (forall k l, In (k, l) dm ->
         tree_ids P k items <> [] /\
         PySort.sort_by_int_desc (tree_ids P k items) = Ok l) /\
      (forall k, tree_ids P k items <> [] -> exists l, In (k, l) dm)
  | Ok None => dm = []
  | Raise _ => False
  end.
Proof.
  intros E. pose proof (handle_depot_files_walk P app_id w dl dm w' E) as Hw.
  pose proof (depot_map_of_tree P app_id w dl dm w' E) as Hs.
  destruct (resolve_tree P app_id w) as [[[[ri items]|]|e] wa]; simpl in *;
    [|destruct Hs as [-> _]; reflexivity|exact Hs].
  destruct Hw as (acc & Ew & _).
  pose proof (walk_tree_paths P ri items _ _ _ _ Ew) as Hpaths.
  assert (Hnd : List.NoDup (map fst (tree_depot_map P items [])))
    by (apply tree_depot_map_NoDup; constructor).
  assert (Hlook : forall k,
            depot_lookup k (tree_depot_map P items []) =
            match tree_ids P k items with
            | [] => None
            | ids => Some ids
            end).
  { intros k. rewrite (tree_depot_map_lookup P k items [] Hpaths).
    destruct (tree_ids P k items); reflexivity. }
  pose proof (sort_rearranged _ _ Hs) as Hr.
  split; [rewrite (rearranged_keys _ _ Hr); exact Hnd|]. split.
  - intros k l Hin.
    destruct (SortFacts.sort_depot_map_spec _ _ Hs k l Hin) as (l0 & Hin0 & Hsort).
    apply (lookup_In _ _ _ Hnd) in Hin0. rewrite Hlook in Hin0.
    destruct (tree_ids P k items) as [|x ids]; [discriminate|].
    inversion Hin0; subst l0. split; [discriminate|exact Hsort].
  - intros k Hne.
    assert (Hin0 : In (k, tree_ids P k items) (tree_depot_map P items [])).
    { apply (lookup_In _ _ _ Hnd). rewrite Hlook.
      destruct (tree_ids P k items); [contradiction|reflexivity]. }
    clear - Hr Hin0. induction Hr as [|a b m m' [Hk _] _ IH]; [destruct Hin0|].
    destruct Hin0 as [->|Hin0].
    + exists (snd b). left. destruct b as [kb lb]. simpl in *. subst kb. reflexivity.
    + destruct (IH Hin0) as [l Hl]. exists l. right. exact Hl.
Qed.

(** X17.  The depot map [handle_depot_files] returns holds the manifest
    ids of the tree, depot by depot: its keys are the depots that have an id
    in the tree, each once, and the list of a depot is a rearrangement of
    the ids the tree has for it, none lost and none added. *)
Theorem depot_lists_hold_the_tree_ids (P : platform) (app_id : string) (w : world)
    (dl : list DepotInfo) (dm : depot_map) (w' : world) :
  handle_depot_files P app_id w = (Ok (dl, dm), w') ->
  match fst (resolve_tree P app_id w) with
  | Ok (Some (ri, items)) =>
      List.NoDup (map fst dm) /\
      (forall k l, In (k, l) dm -> l <> [] /\ Permutation (tree_ids P k items) l) /\
      (forall k, tree_ids P k items <> [] -> exists l, In (k, l) dm)
  | Ok None => dm = []
  | Raise _ => False
  end.
Proof.
  intros E. pose proof (depot_map_by_depot P app_id w dl dm w' E) as H.
  destruct (fst (resolve_tree P app_id w)) as [[[ri items]|]|e]; try exact H.
  destruct H as (Hnd & Hlists & Hkeys). split; [exact Hnd|]. split; [|exact Hkeys].
  intros k l Hin. destruct (Hlists k l Hin) as [Hne Hsort].
  pose proof (proj1 (SortFacts.sort_by_int_desc_spec _ _ Hsort)) as Hperm.
  split; [|exact Hperm]. intros ->. apply Permutation_nil_r in Hperm. exact (Hne Hperm).
Qed.

(** C3, as the code has it.  In the depot map [handle_depot_files] returns,
    the manifest ids of every depot are in descending order of their integer
    values, ids of equal value in the order in which the tree lists them; the
    order is strictly descending when the values of the depot's ids are
    pairwise distinct. *)
Theorem depot_lists_descending (P : platform) (app_id : string) (w : world)
    (dl : list DepotInfo) (dm : depot_map) (w' : world)
    (k : string) (l : list string) :
  handle_depot_files P app_id w = (Ok (dl, dm), w') ->
  In (k, l) dm ->
  (exists ks,
     int_values l ks /\ StronglySorted Z.ge ks /\
     (List.NoDup ks -> StronglySorted Z.gt ks)) /\
  match fst (resolve_tree P app_id w) with
  | Ok (Some (ri, items)) =>
      forall z, List.filter (has_value z) l = List.filter (has_value z) (tree_ids P k items)
  | _ => False
  end.
Proof.
  intros E Hin. pose proof (depot_map_by_depot P app_id w dl dm w' E) as H.
  destruct (fst (resolve_tree P app_id w)) as [[[ri items]|]|e];
    [|subst dm; destruct Hin|destruct H].
  destruct H as (_ & Hlists & _). destruct (Hlists k l Hin) as [_ Hsort].
  split; [exact (proj2 (SortFacts.sort_by_int_desc_spec _ _ Hsort))|].
  intros z. exact (SortMore.sort_by_int_desc_stable _ _ z Hsort).
Qed.

(** ** [run] *)

Section RunFacts.

Context (P : platform) (H : host) (app_id : string).

(** the three ways through [run] *)
Lemma run_cases w :
  (exists e w1,
      bind (prepare P H app_id)
           (fun _ => bind (handle_depot_files P app_id) (conclude H app_id)) w
        = (Raise e, w1) /\
      run P H app_id w =
        (Ok (false, []), set_log w1 (log w1 ++ [(ERROR, "Error: " ++ format_exc H e)]))) \/
  (exists w1 dm w2,
      prepare P H app_id w = (Ok tt, w1) /\
      handle_depot_files P app_id w1 = (Ok ([], dm), w2) /\
      run P H app_id w =
        (Ok (false, []),
         set_log w2 (log w2 ++ [(ERROR, "No manifests found for this game")]))) \/
  (exists w1 d dl dm w2 success w3,
      prepare P H app_id w = (Ok tt, w1) /\
      handle_depot_files P app_id w1 = (Ok (d :: dl, dm), w2) /\
      steam_setup H (d :: dl) app_id dm w2 = (Ok success, w3) /\
      run P H app_id w =
        (Ok (success,
             List.filter (fun f => bool_decide (is_Some (fs w3 !! f)))
               (map save_path_of (elements (downloaded_files w3)))), w3)).
Proof.
  unfold run, try_except.
  destruct (bind (prepare P H app_id)
              (fun _ => bind (handle_depot_files P app_id) (conclude H app_id)) w)
    as [[v|e] w'] eqn:E.
  2:{ left. exists e, w'. split; reflexivity. }
  right. apply bind_Ok in E. destruct E as ([] & w1 & Ep & E).
  apply bind_Ok in E. destruct E as ([dl dm] & w2 & Eh & Ec).
  unfold conclude in Ec. simpl in Ec. destruct dl as [|d dl].
  - left. exists w1, dm, w2. split; [exact Ep|]. split; [exact Eh|].
    unfold bind, logger, ret in Ec. inversion Ec. reflexivity.
  - right. apply bind_Ok in Ec. destruct Ec as (success & w3 & Es & Ec).
    unfold bind, collect_manifest_files, ret in Ec. inversion Ec; subst.
    exists w1, d, dl, dm, w2, success, w'. auto.
Qed.

(** what [prepare] leaves behind when the region detector keeps to the
    client and the logger *)
Lemma prepare_effect w w1 :
  frames (check_cn H) ->
  prepare P H app_id w = (Ok tt, w1) ->
  fs w1 = fs w /\ downloaded_files w1 = ∅.
Proof.
  intros Hc E. unfold prepare in E.
  apply bind_Ok in E. destruct E as ([] & wa & Ea & E).
  unfold clear_downloaded in Ea. inversion Ea; subst wa. clear Ea.
  apply bind_Ok in E. destruct E as (det & wb & Eb & E).
  pose proof (Hc (set_downloaded w ∅)) as (Fb & Db & _). rewrite Eb in Fb, Db.
  simpl in Fb, Db.
  apply bind_Ok in E. destruct E as ([] & wc & Ec & E).
  unfold set_is_cn in Ec. inversion Ec; subst wc. clear Ec.
  apply bind_Ok in E. destruct E as (q & wd & Ed & E).
  destruct (check_rate_limit_shape P (World (sent wb) (fs wb) (downloaded_files wb)
                                        (fst det) (log wb)))
    as (v & w' & Eq & _ & (Fd & Dd & _) & _).
  rewrite Ed in Eq. inversion Eq; subst. simpl in Fd, Dd.
  unfold logger in E. inversion E; subst. simpl. split; congruence.
Qed.

End RunFacts.

(** X18.  [run] never raises.  It answers with a true flag or with files
    only when the pipeline returned at least one depot key; in every other
    case, an exception anywhere inside included, the answer is
    [(False, [])]. *)
Theorem run_never_raises (P : platform) (H : host) (app_id : string) (w : world) :
  exists b files w',
    run P H app_id w = (Ok (b, files), w') /\
    ((b, files) = (false, []) \/
     exists w1 d dl dm w2,
       prepare P H app_id w = (Ok tt, w1) /\
       handle_depot_files P app_id w1 = (Ok (d :: dl, dm), w2)).
Proof.
  destruct (run_cases P H app_id w)
    as [(e & w1 & _ & E)|[(w1 & dm & w2 & _ & _ & E)|
        (w1 & d & dl & dm & w2 & s & w3 & Ep & Eh & _ & E)]];
    rewrite E; do 3 eexists; (split; [reflexivity|]); [left; reflexivity..|].
  right. exists w1, d, dl, dm, w2. split; assumption.
Qed.

(** X19.  When the region detector and the configuration tool leave the
    downloaded set alone (and the detector the storage), every file [run]
    returns was downloaded by this very run: it is the destination of a
    path ending in [.manifest] that is in the downloaded set, it was not
    there when [run] started and it is there when [run] returns. *)
Theorem run_returns_fresh_downloads (P : platform) (H : host) (app_id : string)
    (w : world) (b : bool) (files : list string) (w' : world) (f : string) :
  frames (check_cn H) ->
  (forall dl dm w0,
      downloaded_files (snd (steam_setup H dl app_id dm w0)) = downloaded_files w0) ->
  run P H app_id w = (Ok (b, files), w') ->
  In f files ->
  exists p,
    f = save_path_of p /\ PyStr.endswith p ".manifest" = true /\
    p ∈ downloaded_files w' /\
    fs w !! f = None /\ is_Some (fs w' !! f).
Proof.
  intros Hc Hs E Hin.
  destruct (run_cases P H app_id w)
    as [(e & w1 & _ & E')|[(w1 & dm & w2 & _ & _ & E')|
        (w1 & d & dl & dm & w2 & s & w3 & Ep & Eh & Es & E')]];
    rewrite E' in E; inversion E; subst; try destruct Hin.
  apply filter_In in Hin. destruct Hin as [Hin Hex].
  apply in_map_iff in Hin. destruct Hin as (p & <- & Hp).
  apply list_elem_of_In, elem_of_elements in Hp.
  apply bool_decide_eq_true in Hex.
  destruct (prepare_effect P H app_id w w1 Hc Ep) as [F1 D1].
  pose proof (Hs (d :: dl) dm w2) as D3. rewrite Es in D3. simpl in D3.
  destruct (handle_depot_files_effect P app_id w1) as (_ & _ & N).
  rewrite Eh in N. simpl in N. rewrite D3 in Hp.
  destruct (N p Hp) as [Hold|(He & Habs & _)].
  { rewrite D1 in Hold. exfalso. exact (not_elem_of_empty p Hold). }
  exists p. split; [reflexivity|]. split; [exact He|].
  split; [rewrite D3; exact Hp|]. split; [rewrite <- F1; exact Habs|exact Hex].
Qed.

(** X20.  When the tree has no key file that yields a depot key, [run]
    answers [(False, [])] and logs that no manifests were found, although
    the manifest files the pipeline downloaded stay in the storage and in
    the downloaded set. *)
Theorem run_without_keys_reports_nothing (P : platform) (H : host)
    (app_id : string) (w w1 : world) (dm : depot_map) (w2 : world) :
  prepare P H app_id w = (Ok tt, w1) ->
  handle_depot_files P app_id w1 = (Ok ([], dm), w2) ->
  exists w',
    run P H app_id w = (Ok (false, []), w') /\
    log w' = (log w2 ++ [(ERROR, "No manifests found for this game")])%list /\
    fs w' = fs w2 /\ downloaded_files w' = downloaded_files w2.
Proof.
  intros Ep Eh. unfold run, try_except, bind. rewrite Ep, Eh. simpl.
  eexists. split; [reflexivity|]. auto.
Qed.

(** ** Where the depot keys come from *)

Section KeysMore.

Context (P : platform) (ri : RepoInfo).

Lemma walk_item_keys item acc w acc' w' :
  walk_item P ri item acc w = (Ok acc', w') ->
  fst acc' = fst acc \/
  exists path c ks w1,
    item_path item = Ok path /\ is_key_path path = true /\
    fetch_file P (name ri) (sha ri) path w = (Ok c, w1) /\
    parse_key_file P c = Ok ks /\ fst acc' = (fst acc ++ ks)%list.
Proof.
  intros E. destruct (item_path item) as [path|e] eqn:Hp.
  2:{ unfold walk_item, bind, lift in E. rewrite Hp in E. discriminate. }
  destruct (PyStr.endswith path ".manifest") eqn:He.
  - rewrite (walk_item_manifest P ri item path acc w Hp He) in E.
    destruct (obtain_manifest P ri path w) as [[[]|e] w0]; inversion E. left. reflexivity.
  - unfold walk_item, bind at 1, lift in E. rewrite Hp, He in E.
    destruct (PyStr.contains "key.vdf" (PyStr.lower path)) eqn:Hk.
    + unfold bind, lift, ret in E.
      destruct (fetch_file P (name ri) (sha ri) path w) as [[c|e] w0] eqn:Ef; [|discriminate].
      destruct (parse_key_file P c) as [ks|e] eqn:Ek; inversion E; subst.
      right. exists path, c, ks, w'. unfold is_key_path. rewrite He, Hk. auto.
    + inversion E. left. reflexivity.
Qed.

(** every key of a walk that returns was there at the start or was parsed
    from the content fetched for a key entry of the tree *)
Lemma walk_tree_keys items : forall acc w acc' w',
  walk_tree P ri items acc w = (Ok acc', w') ->
  forall k, In k (fst acc') ->
    In k (fst acc) \/
    exists item path c ks w1 w2,
      In item items /\ item_path item = Ok path /\ is_key_path path = true /\
      fetch_file P (name ri) (sha ri) path w1 = (Ok c, w2) /\
      parse_key_file P c = Ok ks /\ In k ks.
Proof.
  induction items as [|item rest IH]; intros acc w acc' w' E k Hk.
  - simpl in E. inversion E; subst. left. exact Hk.
  - simpl in E. apply bind_Ok in E. destruct E as (acc1 & w1 & E1 & E2).
    destruct (IH acc1 w1 acc' w' E2 k Hk)
      as [H1|(it & path & c & ks & wa & wb & Hin & Hp & Hkey & Ef & Ek & Hks)].
    + destruct (walk_item_keys item acc w acc1 w1 E1)
        as [Heq|(path & c & ks & w0 & Hp & Hkey & Ef & Ek & Heq)];
        rewrite Heq in H1; [left; exact H1|].
      apply in_app_or in H1. destruct H1 as [H1|H1]; [left; exact H1|].
      right. exists item, path, c, ks, w, w0. simpl. auto 10.
    + right. exists it, path, c, ks, wa, wb. simpl. auto 10.
Qed.

End KeysMore.

Lemma depot_keys_of_key_entries (P : platform) (app_id : string)
    (w : world) (dl : list DepotInfo) (dm : depot_map) (w' : world) :
  handle_depot_files P app_id w = (Ok (dl, dm), w') ->
  match fst (resolve_tree P app_id w) with
  | Ok (Some (ri, items)) =>
      forall k, In k dl ->
        exists item path c ks w1 w2,
          In item items /\ item_path item = Ok path /\ is_key_path path = true /\
          fetch_file P (name ri) (sha ri) path w1 = (Ok c, w2) /\
          parse_key_file P c = Ok ks /\ In k ks
  | _ => dl = []
  end.
Proof.
  intros E. apply handle_depot_files_walk in E.
  destruct (resolve_tree P app_id w) as [[[[ri items]|]|e] wa]; simpl;
    [|destruct E as [-> _]; reflexivity|destruct E].
  destruct E as (acc & Ew & _ & ->). intros k Hk.
  destruct (walk_tree_keys P ri items _ _ _ _ Ew k Hk) as [[]|Hx]. exact Hx.
Qed.

(** X22.  Every depot key [handle_depot_files] returns was parsed from the
    content fetched for an entry of the tree whose path contains [key.vdf]
    (in any case) and does not end in [.manifest]; when no repository was
    selected there is no key. *)
Theorem depot_keys_come_from_key_files (P : platform) (app_id : string)
    (w : world) (dl : list DepotInfo) (dm : depot_map) (w' : world) :
  handle_depot_files P app_id w = (Ok (dl, dm), w') ->
  match fst (resolve_tree P app_id w) with
  | Ok (Some (ri, items)) =>
      forall k, In k dl ->
        exists item path c ks w1 w2,
          In item items /\ item_path item = Ok path /\ is_key_path path = true /\
          fetch_file P (name ri) (sha ri) path w1 = (Ok c, w2) /\
          parse_key_file P c = Ok ks /\ In k ks
  | _ => dl = []
  end.
Proof. exact (depot_keys_of_key_entries P app_id w dl dm w'). Qed.

(** X23.  When the tree of the selected repository has no key entry, [run]
    answers [(False, [])] whatever else happens: manifests may have been
    downloaded, but none is returned. *)
Theorem run_needs_a_key_file (P : platform) (H : host) (app_id : string) (w : world) :
  match fst (resolve_tree P app_id (snd (prepare P H app_id w))) with
  | Ok (Some (ri, items)) =>
      forall item path, In item items -> item_path item = Ok path ->
        is_key_path path = false
  | _ => True
  end ->
  fst (run P H app_id w) = Ok (false, []).
Proof.
  intros Hno.
  destruct (run_cases P H app_id w)
    as [(e & w1 & _ & E)|[(w1 & dm & w2 & _ & _ & E)|
        (w1 & d & dl & dm & w2 & s & w3 & Ep & Eh & _ & E)]];
    [rewrite E; reflexivity..|].
  exfalso. rewrite Ep in Hno. simpl in Hno.
  pose proof (depot_keys_of_key_entries P app_id w1 _ _ _ Eh) as Hk.
  destruct (fst (resolve_tree P app_id w1)) as [[[ri items]|]|e]; try discriminate.
  destruct (Hk d (or_introl eq_refl))
    as (item & path & c & ks & wa & wb & Hin & Hp & Hkey & _).
  rewrite (Hno item path Hin Hp) in Hkey. discriminate.
Qed.

(** X21.  When the pipeline raises, [run] answers [(False, [])] and logs
    the traceback at level [ERROR]; what the pipeline had downloaded before
    the exception stays in the storage and in the downloaded set, but none
    of it is returned. *)
Theorem run_failure_returns_no_files (P : platform) (H : host)
    (app_id : string) (w w1 : world) (e : exn) (w2 : world) :
  prepare P H app_id w = (Ok tt, w1) ->
  handle_depot_files P app_id w1 = (Raise e, w2) ->
  exists w',
    run P H app_id w = (Ok (false, []), w') /\
    log w' = (log w2 ++ [(ERROR, ("Error: " ++ format_exc H e)%string)])%list /\
    fs w' = fs w2 /\ downloaded_files w' = downloaded_files w2 /\
    keeps_files w1 w' /\ downloaded_files w1 ⊆ downloaded_files w'.
Proof.
  intros Ep Eh.
  destruct (handle_depot_files_effect P app_id w1) as (K & S & _).
  rewrite Eh in K, S. simpl in K, S.
  unfold run, try_except, bind. rewrite Ep, Eh. simpl.
  eexists. split; [reflexivity|]. simpl. auto.
Qed.

(** * The pipeline on the scenarios *)

Module Runs.

Import Scenario.

(** split a membership in a list that computes to a literal *)
Ltac in_cases H :=
  vm_compute in H;
  repeat match type of H with
         | _ \/ _ => destruct H as [H|H]
         end;
  [..|try contradiction].







Example mixed_dates_by_order :
  option_map name (match fst (get_latest_repo_info Cases.mixed
                                ["alpha/one"; "beta/two"] "480" start) with
                   | Ok res => res
                   | Raise _ => None
                   end) = Some "alpha/one" /\
  option_map name (match fst (get_latest_repo_info Cases.mixed
                                ["beta/two"; "alpha/one"] "480" start) with
                   | Ok res => res
                   | Raise _ => None
                   end) = Some "beta/two".
Proof. split; vm_compute; reflexivity. Qed.

Example latest_repo_value :
  fst (get_latest_repo_info site repos "480" start) = Ok (Some beta) /\
  fst (get_latest_repo_info site ["gamma/three"; "beta/two"; "alpha/one"] "480" start)
    = Ok (Some beta).
Proof. split; vm_compute; reflexivity. Qed.

(** of two candidates with the same date the first one seen stays *)
Example tie_keeps_first :
  option_map name (match fst (get_latest_repo_info twins repos "480" start) with
                   | Ok res => res
                   | Raise _ => None
                   end) = Some "alpha/one" /\
  option_map name (match fst (get_latest_repo_info twins
                                ["beta/two"; "alpha/one"] "480" start) with
                   | Ok res => res
                   | Raise _ => None
                   end) = Some "beta/two".
Proof. split; vm_compute; reflexivity. Qed.


(** where every request fails the three endpoints for China are asked
    three times *)
Example fetch_file_nine_requests :
  length (sent (snd (fetch_file down "beta/two" (JStr "bbb") "1000_50.manifest" start_cn)))
    = 9%nat.
Proof. vm_compute. reflexivity. Qed.

(** the example of the specification: two refusals, then [DATA], in three
    requests *)
Example fetch_file_third_endpoint :
  fst (fetch_file third_time "beta/two" (JStr "bbb") "1000_50.manifest" start_cn)
    = Ok data /\
  length (sent (snd (fetch_file third_time "beta/two" (JStr "bbb")
                       "1000_50.manifest" start_cn))) = 3%nat.
Proof. split; vm_compute; reflexivity. Qed.

(** the example of the specification: 50, 75, 60 come out as 75, 60, 50 *)
Example depot_map_example :
  fst (handle_depot_files site "480" start)
    = Ok ([mkDepotInfo "1000" "00ff"], [("1000", ["75"; "60"; "50"])]).
Proof. vm_compute. reflexivity. Qed.

(** C3 at the scenario *)
Lemma descending_witness :
  (exists ks,
     int_values ["75"; "60"; "50"] ks /\ StronglySorted Z.ge ks /\
     (List.NoDup ks -> StronglySorted Z.gt ks)) /\
  match fst (resolve_tree site "480" start) with
  | Ok (Some (ri, items)) =>
      forall z, List.filter (has_value z) ["75"; "60"; "50"]
                = List.filter (has_value z) (tree_ids site "1000" items)
  | _ => False
  end.
Proof.
  apply (depot_lists_descending site "480" start
           [mkDepotInfo "1000" "00ff"] [("1000", ["75"; "60"; "50"])]
           after_first_run "1000").
  - vm_compute. reflexivity.
  - left. reflexivity.
Defined.

Example tree_ids_of_listing :
  tree_ids site "1000" (map entry listing) = ["50"; "75"; "60"] /\
  tree_ids tied "1000" (map entry ["1000_50.manifest"; "1000_75.manifest";
                                   "1000_050.manifest"]) = ["50"; "75"; "050"].
Proof. split; vm_compute; reflexivity. Qed.

(** C3 as stated fails: [1000_50.manifest] and [1000_050.manifest] have
    the same integer value, so the list of depot 1000 is not strictly
    descending *)
Lemma strict_order_counterexample :
  exists dl dm w' k l,
    handle_depot_files tied "480" start = (Ok (dl, dm), w') /\
    In (k, l) dm /\ ~ strictly_descending l.
Proof.
  exists [], [("1000", ["75"; "50"; "050"])],
         (snd (handle_depot_files tied "480" start)), "1000", ["75"; "50"; "050"].
  split; [vm_compute; reflexivity|]. split; [left; reflexivity|].
  intros (ks & Hv & Hs). unfold int_values in Hv.
  destruct ks as [|a [|b [|c [|]]]]; try discriminate.
  vm_compute in Hv. inversion Hv; subst.
  inversion Hs as [|? ? Hs' _]. inversion Hs' as [|? ? _ Hall].
  inversion Hall as [|? ? Hgt _]. lia.
Qed.


Example second_run_requests :
  skipn 10 (sent (snd (handle_depot_files site "480" after_first_run))) =
  ["https://api.github.com/repos/alpha/one/branches/480";
   "https://api.github.com/repos/beta/two/branches/480";
   "https://api.github.com/repos/gamma/three/branches/480";
   "https://api.github.com/repos/beta/two/branches/480";
   "https://api.github.com/repos/beta/two/git/trees/tb";
   "https://raw.githubusercontent.com/beta/two/bbb/Key.vdf"].
Proof. vm_compute. reflexivity. Qed.

(** C5 at the scenario: after the first run the file of
    [1000_50.manifest] is there, and the entry is recorded without a fetch *)
Lemma manifest_entry_witness :
  let save_path := save_path_of "1000_50.manifest" in
  let acc' := (@nil DepotInfo, record_manifest site "1000_50.manifest" []) in
  match fs after_first_run !! save_path with
  | Some _ =>
      exists w',
        walk_item site beta (entry "1000_50.manifest") ([], []) after_first_run
          = (Ok acc', w') /\
        sent w' = sent after_first_run /\ fs w' = fs after_first_run /\
        downloaded_files w' = downloaded_files after_first_run /\
        log w' = (log after_first_run
                    ++ [(WARNING, ("Manifest already exists: " ++ save_path)%string)])%list
  | None =>
      match fetch_file site (name beta) (sha beta) "1000_50.manifest" after_first_run with
      | (Ok content, w1) =>
          exists w',
            walk_item site beta (entry "1000_50.manifest") ([], []) after_first_run
              = (Ok acc', w') /\
            sent w' = sent w1 /\
            fs w' = <[save_path := content]> (fs after_first_run) /\
            downloaded_files w' = {["1000_50.manifest"]} ∪ downloaded_files after_first_run /\
            log w' = (log w1 ++ [(INFO, ("Manifest downloaded: " ++ "1000_50.manifest")%string)])%list
      | (Raise e, w1) =>
          walk_item site beta (entry "1000_50.manifest") ([], []) after_first_run
            = (Raise e, w1)
      end
  end /\
  forall k,
    depot_lookup k (snd acc') =
    match recorded site "1000_50.manifest" with
    | Some (depot, manifest) =>
        if String.eqb k depot
        then Some (match depot_lookup depot [] with
                   | Some l => l
                   | None => []
                   end ++ [manifest])%list
        else depot_lookup k []
    | None => depot_lookup k []
    end.
Proof.
  apply (manifest_entry_step site beta (entry "1000_50.manifest")
           "1000_50.manifest" ([], []) after_first_run); reflexivity.
Defined.

Example manifest_entry_present :
  fst (walk_item site beta (entry "1000_50.manifest") ([], []) after_first_run)
    = Ok ([], [("1000", ["50"])]) /\
  sent (snd (walk_item site beta (entry "1000_50.manifest") ([], []) after_first_run))
    = sent after_first_run.
Proof. split; vm_compute; reflexivity. Qed.

Example manifest_entry_absent :
  fst (walk_item site beta (entry "1000_50.manifest") ([], []) start)
    = Ok ([], [("1000", ["50"])]) /\
  fs (snd (walk_item site beta (entry "1000_50.manifest") ([], []) start))
    !! "manifests/1000_50.manifest" = Some data /\
  bool_decide ("1000_50.manifest" ∈
    downloaded_files (snd (walk_item site beta (entry "1000_50.manifest") ([], []) start)))
    = true.
Proof. repeat split; vm_compute; reflexivity. Qed.




Example failed_candidates_run :
  fst (get_latest_repo_info flaky repos "480" start) = Ok (Some beta) /\
  log (snd (get_latest_repo_info flaky repos "480" start))
    = [warning_of "alpha/one" (Exn "ConnectError" "connection refused")].
Proof. split; vm_compute; reflexivity. Qed.

(** a reply with a date but no sha is not skipped: the candidate is
    selected when line 79 runs, line 80 raises, and the sha of the
    candidate selected before stays *)
Example missing_sha_keeps_candidate :
  fst (get_latest_repo_info shaless repos "480" start)
    = Ok (Some (mkRepoInfo "beta/two" (Some (Aware 1717200000000000)) (JStr "aaa"))) /\
  log (snd (get_latest_repo_info shaless repos "480" start))
    = [warning_of "beta/two" (Py.KeyError "sha")].
Proof. split; vm_compute; reflexivity. Qed.


(** C7 at the scenario: the example of the specification, in UTC *)
Lemma check_rate_limit_witness :
  exists v w',
    check_rate_limit (quota quota_example) start = (Ok v, w') /\
    Py.getitem v "remaining" = Ok (JInt 10) /\
    Py.getitem v "limit" = Ok (JInt 60) /\
    Py.getitem v "used" = Ok (JInt 50) /\
    Py.contains "error" v = Ok false /\
    exists s, Py.getitem v "reset_formatted" = Ok (JStr s) /\ s <> "".
Proof.
  destruct (check_rate_limit_never_raises (quota quota_example) start)
    as (v & w' & E & _ & H).
  exists v, w'. split; [exact E|].
  apply H; [reflexivity|simpl; lia].
Defined.

Example check_rate_limit_example :
  fst (check_rate_limit (quota quota_example) start)
    = Ok (JDict [("limit", JInt 60); ("remaining", JInt 10);
                 ("reset", JInt 1700000000); ("used", JInt 50);
                 ("reset_formatted", JStr "2023-11-14 22:13:20");
                 ("reset_relative", JStr "<t:1700000000:R>")]).
Proof. vm_compute. reflexivity. Qed.

Example check_rate_limit_failures :
  fst (check_rate_limit absent start)
    = Ok (error_marker "GitHub rate limit check failed with status 404") /\
  fst (check_rate_limit down start)
    = Ok (error_marker "Rate limit check failed: connection refused") /\
  fst (check_rate_limit (quota (JList [])) start)
    = Ok (error_marker "Rate limit check failed: 'list' object has no attribute 'get'").
Proof. repeat split; vm_compute; reflexivity. Qed.

Lemma absent_none_dated : none_dated (observed absent "480" 0 repos).
Proof. intros r x H. in_cases H; inversion H; reflexivity. Qed.

(** C8 at the scenario: no candidate has the branch *)
Lemma no_match_witness :
  exists w',
    get_latest_repo_info absent (REPO_LIST absent) "480" start = (Ok None, w') /\
    handle_depot_files absent "480" start = (Ok ([], []), w') /\
    sent w' = (sent start ++ map (fun r => branch_url absent r "480") (REPO_LIST absent))%list /\
    fs w' = fs start /\
    downloaded_files w' = downloaded_files start.
Proof.
  apply (no_match_gives_empty_result absent "480" start).
  exact absent_none_dated.
Defined.

(** C9 at the scenario: [readme.manifest] has no separator *)
Lemma malformed_name_witness :
  parse_manifest_filename site "readme.manifest" = (None, None) /\
  walk_item site beta (entry "readme.manifest") ([], [("1000", ["50"])]) start =
  match obtain_manifest site beta "readme.manifest" start with
  | (Ok _, w') => (Ok ([], [("1000", ["50"])]), w')
  | (Raise e, w') => (Raise e, w')
  end.
Proof.
  apply (malformed_name_is_skipped site beta (entry "readme.manifest")
           "readme.manifest" ([], [("1000", ["50"])]) start);
    [reflexivity|reflexivity|reflexivity|].
  apply no_separator_off_convention. reflexivity.
Defined.

Example malformed_names :
  Classifier.parse_manifest_filename "readme.manifest" = (None, None) /\
  Classifier.parse_manifest_filename "1000.manifest" = (None, None) /\
  Classifier.parse_manifest_filename "1000_50.txt" = (None, None) /\
  Classifier.parse_manifest_filename "1000_50.manifest" = (Some "1000", Some "50") /\
  fst (walk_item site beta (entry "1000.manifest") ([], [("1000", ["50"])]) start)
    = Ok ([], [("1000", ["50"])]).
Proof. repeat split; vm_compute; reflexivity. Qed.

(** C10 at the scenario: the body [{}] *)
Lemma degenerate_body_witness :
  exists v w',
    check_rate_limit (quota (JDict [])) start = (Ok v, w') /\
    Py.contains "error" v = Ok false /\
    Py.getitem v "remaining" = Ok (JInt 0) /\
    Py.getitem v "limit" = Ok (JInt 60) /\
    Py.getitem v "reset" = Ok (JInt 0) /\
    Py.getitem v "used" = Ok (JInt 0) /\
    limit_msg v =
      Ok (ApiStatus (JInt 0) (JInt 60) (JInt 0) (JStr "<t:0:R>")
                    (JStr "1970-01-01 00:00:00") true).
Proof.
  exact (degenerate_body_reports_defaults (quota (JDict [])) start
           (Response 200 (Ok (JDict [])) []) eq_refl eq_refl).
Defined.

Example degenerate_bodies :
  fst (check_rate_limit (quota (JDict [("rate", JDict [("remaining", JInt 7)])])) start)
    = Ok (JDict [("limit", JInt 60); ("remaining", JInt 7);
                 ("reset", JInt 0); ("used", JInt 0);
                 ("reset_formatted", JStr "1970-01-01 00:00:00");
                 ("reset_relative", JStr "<t:0:R>")]) /\
  fst (check_rate_limit (quota (JDict [("rate", JNull)])) start)
    = Ok (JDict [("error",
                  JStr "Rate limit check failed: 'NoneType' object has no attribute 'get'")]).
Proof. split; vm_compute; reflexivity. Qed.

(** C10 as stated fails: a body whose ["rate"] lacks three fields and
    holds a reset value that is no number, and a body whose ["rate"] is
    [null], both give the error marker *)
Lemma degenerate_body_counterexample :
  ~ reports_status (quota (JDict [("rate", JDict [("reset", JStr "soon")])])) start /\
  ~ reports_status (quota (JDict [("rate", JNull)])) start.
Proof.
  split; intros (v & w' & E & Hno); vm_compute in E; inversion E; subst v;
    vm_compute in Hno; discriminate.
Qed.

Example unformattable_reset :
  fst (check_rate_limit (quota (JDict [("rate", JDict [("reset", JStr "soon")])])) start)
    = Ok (JDict [("error",
                  JStr ("Rate limit check failed: "
                        ++ "'str' object cannot be interpreted as an integer"))]).
Proof. vm_compute. reflexivity. Qed.

End Runs.
(** ** The properties at the scenarios *)

Module MoreRuns.

Import Scenario Cases.

(** X2 at the scenario: two refusals, the third endpoint of the list
    serves [DATA] *)
Lemma third_endpoint_witness :
  exists w',
    fetch_file third_time "beta/two" (JStr "bbb") "1000_50.manifest" start_cn
      = (Ok data, w') /\
    sent w' = (sent start_cn
                 ++ map (fun t : cdn_template => t "beta/two" (JStr "bbb") "1000_50.manifest")
                        (firstn 3 (fetch_schedule third_time start_cn)))%list /\
    length (sent w') = (length (sent start_cn) + 2 + 1)%nat /\
    same_store start_cn w'.
Proof.
  apply (fetch_file_first_success third_time "beta/two" (JStr "bbb")
           "1000_50.manifest" start_cn 2 raw_template
           (Response 200 (Raise (Exn "JSONDecodeError" "Expecting value")) data)).
  - reflexivity.
  - intros i t' Hi _. destruct i as [|[|i]]; [reflexivity|reflexivity|lia].
  - reflexivity.
  - reflexivity.
Defined.

(** X3 at the scenario *)
Lemma served_content_witness :
  exists k t resp,
    nth_error (fetch_schedule third_time start_cn) k = Some t /\
    net third_time (length (sent start_cn) + k)
        (t "beta/two" (JStr "bbb") "1000_50.manifest") = Ok resp /\
    status_code resp = 200 /\ content resp = data /\
    sent (snd (fetch_file third_time "beta/two" (JStr "bbb") "1000_50.manifest" start_cn))
      = (sent start_cn
           ++ map (fun t : cdn_template => t "beta/two" (JStr "bbb") "1000_50.manifest")
                  (firstn (S k) (fetch_schedule third_time start_cn)))%list /\
    (forall i t', (i < k)%nat ->
       nth_error (fetch_schedule third_time start_cn) i = Some t' ->
       fails (net third_time (length (sent start_cn) + i)
                (t' "beta/two" (JStr "bbb") "1000_50.manifest")) = true).
Proof.
  apply (fetch_file_returns_served_content third_time "beta/two" (JStr "bbb")
           "1000_50.manifest" start_cn data).
  vm_compute. reflexivity.
Defined.

(** X5 at the scenario *)
Lemma dated_candidate_witness :
  In (name beta) repos /\ name beta <> "" /\
  exists d s,
    last_update beta = Some d /\
    In (name beta, Dated d s) (observed site "480" (length (sent start)) repos).
Proof.
  apply (returned_repo_is_a_dated_candidate site repos "480" start beta
           (snd (get_latest_repo_info site repos "480" start))).
  vm_compute. reflexivity.
Defined.

(** X6 at the scenario: [alpha/one] is selected, then [beta/two] offers a
    newer date and no sha *)
Lemma missing_sha_witness :
  exists w2,
    get_latest_repo_info shaless (["alpha/one"] ++ ["beta/two"]) "480" start
      = (Ok (Some (mkRepoInfo "beta/two" (Some (Aware 1717200000000000)) (sha alpha))), w2) /\
    log w2 = (log (snd (get_latest_repo_info shaless ["alpha/one"] "480" start))
                ++ [warning_of "beta/two" (Py.KeyError "sha")])%list.
Proof.
  apply (missing_sha_keeps_previous shaless ["alpha/one"] "480" start alpha).
  - vm_compute. reflexivity.
  - vm_compute. reflexivity.
  - vm_compute. reflexivity.
  - discriminate.
Defined.

(** X10 at the scenario *)
Lemma new_manifest_witness :
  PyStr.endswith "1000_50.manifest" ".manifest" = true /\
  fs start !! save_path_of "1000_50.manifest" = None /\
  is_Some (fs (snd (handle_depot_files site "480" start))
             !! save_path_of "1000_50.manifest").
Proof.
  apply (downloaded_files_are_new_manifests site "480" start "1000_50.manifest").
  - apply (bool_decide_unpack _). vm_compute. exact I.
  - apply (bool_decide_unpack _). vm_compute. exact I.
Defined.

(** X11 at the scenario *)
Lemma stored_entries_witness :
  match fst (resolve_tree site "480" start) with
  | Ok (Some (ri, items)) =>
      forall item path, In item items -> item_path item = Ok path ->
        PyStr.endswith path ".manifest" = true ->
        exists c, fs after_first_run !! save_path_of path = Some c /\
                  forall c0, fs start !! save_path_of path = Some c0 -> c0 = c
  | _ => True
  end.
Proof.
  apply (manifest_entries_are_stored site "480" start
           [mkDepotInfo "1000" "00ff"] [("1000", ["75"; "60"; "50"])]).
  vm_compute. reflexivity.
Defined.

(** X12 at the scenario *)
Lemma map_of_the_tree_witness :
  match fst (resolve_tree site "480" start) with
  | Ok (Some (ri, items)) =>
      sort_depot_map (tree_depot_map site items []) = Ok [("1000", ["75"; "60"; "50"])]
  | Ok None => [("1000", ["75"; "60"; "50"])] = [] /\ [mkDepotInfo "1000" "00ff"] = []
  | Raise _ => False
  end.
Proof.
  apply (depot_map_is_of_the_tree site "480" start
           [mkDepotInfo "1000" "00ff"] [("1000", ["75"; "60"; "50"])] after_first_run).
  vm_compute. reflexivity.
Defined.

Example depot_map_of_listing :
  sort_depot_map (tree_depot_map site (map entry listing) [])
    = Ok [("1000", ["75"; "60"; "50"])].
Proof. vm_compute. reflexivity. Qed.

(** X13 at the scenario: the second manifest cannot be downloaded, the
    third is not asked for *)
Lemma failing_entry_witness :
  handle_depot_files partial "480" start =
  (Raise (Py.Exception ("无法下载文件: " ++ "1000_75.manifest")),
   snd (walk_item partial beta (entry "1000_75.manifest")
          ([], [("1000", ["50"])])
          (snd (walk_tree partial beta [entry "1000_50.manifest"] ([], [])
                  (snd (resolve_tree partial "480" start)))))).
Proof.
  apply (failing_entry_stops_the_run partial "480" start beta
           [entry "1000_50.manifest"] (entry "1000_75.manifest")
           [entry "1000_60.manifest"]
           (snd (resolve_tree partial "480" start))
           ([], [("1000", ["50"])])
           (snd (walk_tree partial beta [entry "1000_50.manifest"] ([], [])
                   (snd (resolve_tree partial "480" start))))).
  - vm_compute. reflexivity.
  - vm_compute. reflexivity.
  - vm_compute. reflexivity.
Defined.

Example failing_entry_requests :
  skipn 5 (sent (snd (handle_depot_files partial "480" start))) =
  ["https://raw.githubusercontent.com/beta/two/bbb/1000_50.manifest";
   "https://raw.githubusercontent.com/beta/two/bbb/1000_75.manifest";
   "https://raw.githubusercontent.com/beta/two/bbb/1000_75.manifest";
   "https://raw.githubusercontent.com/beta/two/bbb/1000_75.manifest"].
Proof. vm_compute. reflexivity. Qed.

(** X14 at the scenario *)
Lemma rearranged_witness :
  rearranged unsorted [("1000", ["75"; "60"; "50"; "050"]); ("2000", ["7"])].
Proof.
  apply (sort_depot_map_rearranges unsorted). vm_compute. reflexivity.
Defined.

(** X15 at the scenario: [50] was listed before [050] and stays before it *)
Lemma stable_witness :
  exists l, In ("1000", l) unsorted /\
    forall z, List.filter (has_value z) ["75"; "60"; "50"; "050"]
              = List.filter (has_value z) l.
Proof.
  apply (sort_depot_map_stable unsorted
           [("1000", ["75"; "60"; "50"; "050"]); ("2000", ["7"])]).
  - vm_compute. reflexivity.
  - left. reflexivity.
Defined.


(** the final sort on an id that is no integer literal *)
Example sort_rejects_a_word :
  sort_depot_map [("1000", ["50"; "latest"])]
    = Raise (Py.ValueError
               ("invalid literal for int() with base 10: '" ++ "latest" ++ "'")).
Proof. vm_compute. reflexivity. Qed.

(** X17 at the scenario *)
Lemma tree_ids_witness :
  match fst (resolve_tree site "480" start) with
  | Ok (Some (ri, items)) =>
      List.NoDup (map fst [("1000", ["75"; "60"; "50"])]) /\
      (forall k l, In (k, l) [("1000", ["75"; "60"; "50"])] ->
         l <> [] /\ Permutation (tree_ids site k items) l) /\
      (forall k, tree_ids site k items <> [] ->
         exists l, In (k, l) [("1000", ["75"; "60"; "50"])])
  | Ok None => [("1000", ["75"; "60"; "50"])] = []
  | Raise _ => False
  end.
Proof.
  apply (depot_lists_hold_the_tree_ids site "480" start
           [mkDepotInfo "1000" "00ff"] [("1000", ["75"; "60"; "50"])] after_first_run).
  vm_compute. reflexivity.
Defined.

Lemma desk_frames : frames (check_cn desk).
Proof. intros w. repeat split. Qed.

(** X19 at the scenario *)
Lemma fresh_download_witness :
  exists p,
    "manifests/1000_50.manifest" = save_path_of p /\
    PyStr.endswith p ".manifest" = true /\
    p ∈ downloaded_files (snd (run site desk "480" start)) /\
    fs start !! "manifests/1000_50.manifest" = None /\
    is_Some (fs (snd (run site desk "480" start)) !! "manifests/1000_50.manifest").
Proof.
  apply (run_returns_fresh_downloads site desk "480" start true
           ["manifests/1000_75.manifest"; "manifests/1000_50.manifest";
            "manifests/1000_60.manifest"; "manifests/readme.manifest"]).
  - exact desk_frames.
  - reflexivity.
  - vm_compute. reflexivity.
  - right. left. reflexivity.
Defined.

(** X20 at the scenario: the tree of [tied] has three manifests and no
    key file *)
Lemma without_keys_witness :
  exists w',
    run tied desk "480" start = (Ok (false, []), w') /\
    log w' = (log (snd (handle_depot_files tied "480"
                          (snd (prepare tied desk "480" start))))
                ++ [(ERROR, "No manifests found for this game")])%list /\
    fs w' = fs (snd (handle_depot_files tied "480" (snd (prepare tied desk "480" start)))) /\
    downloaded_files w'
      = downloaded_files (snd (handle_depot_files tied "480"
                                 (snd (prepare tied desk "480" start)))).
Proof.
  apply (run_without_keys_reports_nothing tied desk "480" start
           (snd (prepare tied desk "480" start))
           [("1000", ["75"; "50"; "050"])]).
  - vm_compute. reflexivity.
  - vm_compute. reflexivity.
Defined.

Example without_keys_files_stay :
  fs (snd (run tied desk "480" start)) !! "manifests/1000_75.manifest" = Some data.
Proof. vm_compute. reflexivity. Qed.

(** X21 at the scenario: [1000_50.manifest] is downloaded, the next
    manifest fails *)
Lemma failure_witness :
  exists w',
    run partial desk "480" start = (Ok (false, []), w') /\
    log w' = (log (snd (handle_depot_files partial "480"
                          (snd (prepare partial desk "480" start))))
                ++ [(ERROR, ("Error: " ++ format_exc desk
                       (Py.Exception ("无法下载文件: " ++ "1000_75.manifest")))%string)])%list /\
    fs w' = fs (snd (handle_depot_files partial "480"
                       (snd (prepare partial desk "480" start)))) /\
    downloaded_files w'
      = downloaded_files (snd (handle_depot_files partial "480"
                                 (snd (prepare partial desk "480" start)))) /\
    keeps_files (snd (prepare partial desk "480" start)) w' /\
    downloaded_files (snd (prepare partial desk "480" start)) ⊆ downloaded_files w'.
Proof.
  apply (run_failure_returns_no_files partial desk "480" start
           (snd (prepare partial desk "480" start))).
  - vm_compute. reflexivity.
  - vm_compute. reflexivity.
Defined.

Example failure_keeps_the_download :
  fs (snd (run partial desk "480" start)) !! "manifests/1000_50.manifest" = Some data /\
  fst (run partial desk "480" start) = Ok (false, []).
Proof. split; vm_compute; reflexivity. Qed.

(** X22 at the scenario *)
Lemma key_file_witness :
  match fst (resolve_tree site "480" start) with
  | Ok (Some (ri, items)) =>
      forall k, In k [mkDepotInfo "1000" "00ff"] ->
        exists item path c ks w1 w2,
          In item items /\ item_path item = Ok path /\ is_key_path path = true /\
          fetch_file site (name ri) (sha ri) path w1 = (Ok c, w2) /\
          parse_key_file site c = Ok ks /\ In k ks
  | _ => [mkDepotInfo "1000" "00ff"] = []
  end.
Proof.
  apply (depot_keys_come_from_key_files site "480" start
           [mkDepotInfo "1000" "00ff"] [("1000", ["75"; "60"; "50"])] after_first_run).
  vm_compute. reflexivity.
Defined.

(** the last name is spelled with the Kelvin sign, which [lower] turns
    into [k] *)
Example key_paths :
  map is_key_path ["Key.vdf"; "config/KEY.VDF.bak"; "key.vdf.manifest"; "README.md";
                   "KEY.VDF"]
    = [true; true; false; false; true].
Proof. vm_compute. reflexivity. Qed.

(** X23 at the scenario: the tree of [tied] has three manifests and no
    key file *)
Lemma no_key_file_witness :
  fst (run tied desk "480" start) = Ok (false, []).
Proof.
  apply (run_needs_a_key_file tied desk "480" start).
  assert (E : fst (resolve_tree tied "480" (snd (prepare tied desk "480" start)))
              = Ok (Some (beta, [entry "1000_50.manifest"; entry "1000_75.manifest";
                                 entry "1000_050.manifest"])))
    by (vm_compute; reflexivity).
  rewrite E. intros item path Hin Hp.
  destruct Hin as [<-|[<-|[<-|[]]]]; inversion Hp; subst; reflexivity.
Defined.

End MoreRuns.
